(** * goodlife: the daily Slack countdown poster (send-countdown.js)

    A shallow embedding of [send-countdown.js] and the properties its
    specification states about it.

    Modelling conventions.
    - A JS string is a Rocq [string] holding its UTF-8 bytes (the bytes
      [createHash(..).update(str)] digests and the file system stores).
    - A JS Number that holds a day count or a time value is an integer and is
      modelled as [Z]; time values are integral milliseconds of magnitude at
      most 8.64e15.  The double arithmetic of [daysDiff] and [daysLeft] is
      embedded as well ([daysDiff_binary64], [daysLeft_binary64]) and proved
      to return the integers of the model while the two time values and
      their difference stay below 2^53 in magnitude.  [-0] and [+0] are
      identified in the integer model: the script cannot tell them apart
      ([=== 0], [> 0], [Set.has] and [String(..)] all agree on them).
    - The Numbers inside [buildProgress] are genuine binary64 values,
      modelled with the Standard Library's executable [spec_float]
      (IEEE 754, round to nearest even).
    - The date facility belongs to the host: which time zone identifiers it
      accepts and the time values it answers for them.  For any other zone
      [toLocaleString] raises a RangeError, which nothing in the script
      catches.
    - [process.env] and the working directory are finite maps; the run itself
      is written in a small monad that threads the disk and the trace of
      observable events and propagates exceptions and [process.exit]. *)

From Stdlib Require Import ZArith NArith Lia List String Ascii Bool SpecFloat DecimalString.
From stdpp Require Import gmap strings.
Import ListNotations.

Open Scope string_scope.
Open Scope Z_scope.

(* ===================================================================== *)
(** * JS strings                                                          *)
(* ===================================================================== *)

Module JsString.

(** A string given by its bytes. *)
Definition bytes (l : list nat) : string :=
  string_of_list_ascii (map ascii_of_nat l).

Definition line_feed : string := bytes [10%nat].

(** [String.prototype.repeat] for a count already converted to an integer. *)
Fixpoint repeat_n (s : string) (n : nat) : string :=
  match n with
  | O => ""
  | S k => s ++ repeat_n s k
  end.

(** [Array.prototype.join]. *)
Definition join (sep : string) (l : list string) : string := String.concat sep l.

(** [String(n)] for an integral Number (below 1e21). *)
Definition of_int (z : Z) : string := NilZero.string_of_int (Z.to_int z).

(** [String.prototype.includes]. *)
Fixpoint includes (needle hay : string) : bool :=
  String.prefix needle hay ||
  match hay with
  | EmptyString => false
  | String _ rest => includes needle rest
  end.

(** [String.prototype.slice(0, n)]. *)
Definition slice0 (n : nat) (s : string) : string := String.substring 0 n s.

(** Number of Unicode code points of a UTF-8 string: the bytes that are not
    continuation bytes [10xxxxxx]. *)
Fixpoint code_points (s : string) : nat :=
  match s with
  | EmptyString => O
  | String c rest =>
      let b := nat_of_ascii c in
      ((if (128 <=? b)%nat && (b <? 192)%nat then 0 else 1) + code_points rest)%nat
  end.

(** ** [String.prototype.trim]

    WhiteSpace and LineTerminator of ECMA-262, in UTF-8:
    U+0009..U+000D, U+0020, U+00A0 (C2 A0), U+1680 (E1 9A 80),
    U+2000..U+200A (E2 80 80..8A), U+2028, U+2029 (E2 80 A8/A9),
    U+202F (E2 80 AF), U+205F (E2 81 9F), U+3000 (E3 80 80),
    U+FEFF (EF BB BF). *)
Definition ws1 (a : nat) : bool :=
  ((9 <=? a) && (a <=? 13) || (a =? 32))%nat.

Definition ws2 (a b : nat) : bool := ((a =? 194) && (b =? 160))%nat.

Definition ws3 (a b c : nat) : bool :=
  ((a =? 225) && (b =? 154) && (c =? 128)
   || (a =? 226) && (b =? 128)
      && ((128 <=? c) && (c <=? 138) || (c =? 168) || (c =? 169) || (c =? 175))
   || (a =? 226) && (b =? 129) && (c =? 159)
   || (a =? 227) && (b =? 128) && (c =? 128)
   || (a =? 239) && (b =? 187) && (c =? 191))%nat.

(** Strips leading white space; with [back = true] the bytes come in
    reverse order (used to strip the end of a string). *)
Fixpoint strip (back : bool) (l : list nat) : list nat :=
  match l with
  | [] => l
  | a :: r1 =>
      if ws1 a then strip back r1
      else
        match r1 with
        | [] => l
        | b :: r2 =>
            if (if back then ws2 b a else ws2 a b) then strip back r2
            else
              match r2 with
              | [] => l
              | c :: r3 =>
                  if (if back then ws3 c b a else ws3 a b c) then strip back r3
                  else l
              end
        end
  end.

Definition to_bytes (s : string) : list nat := map nat_of_ascii (list_ascii_of_string s).

Definition trim (s : string) : string :=
  bytes (rev (strip true (rev (strip false (to_bytes s))))).

End JsString.

(* ===================================================================== *)
(** * JS Numbers (binary64)                                               *)
(* ===================================================================== *)

Module Number.

Definition prec : Z := 53.
Definition emax : Z := 1024.

Definition t : Type := spec_float.

Definition NaN : t := S754_nan.

(** The Number of an integer literal or of an integral intermediate. *)
Definition of_Z (z : Z) : t := binary_normalize prec emax z 0 false.

Definition mul : t -> t -> t := SFmul prec emax.
Definition div : t -> t -> t := SFdiv prec emax.
Definition sub : t -> t -> t := SFsub prec emax.

(** Comparison of the mathematical values [m1 * 2^e1] and [m2 * 2^e2]. *)
Definition cmp_mag (m1 : positive) (e1 : Z) (m2 : positive) (e2 : Z) : comparison :=
  let e := Z.min e1 e2 in
  Z.compare (Z.pos m1 * 2 ^ (e1 - e)) (Z.pos m2 * 2 ^ (e2 - e)).

(** IEEE 754 comparison: [None] when an operand is NaN; the two zeros are
    equal. *)
Definition compare (x y : t) : option comparison :=
  match x, y with
  | S754_nan, _ | _, S754_nan => None
  | S754_infinity s1, S754_infinity s2 =>
      Some (match s1, s2 with
            | true, false => Lt
            | false, true => Gt
            | _, _ => Eq
            end)
  | S754_infinity s, _ => Some (if s then Lt else Gt)
  | _, S754_infinity s => Some (if s then Gt else Lt)
  | S754_zero _, S754_zero _ => Some Eq
  | S754_finite s _ _, S754_zero _ => Some (if s then Lt else Gt)
  | S754_zero _, S754_finite s _ _ => Some (if s then Gt else Lt)
  | S754_finite s1 m1 e1, S754_finite s2 m2 e2 =>
      Some (match s1, s2 with
            | true, false => Lt
            | false, true => Gt
            | false, false => cmp_mag m1 e1 m2 e2
            | true, true => CompOpp (cmp_mag m1 e1 m2 e2)
            end)
  end.

Definition ltb (x y : t) : bool :=
  match compare x y with Some Lt => true | _ => false end.

Definition leb (x y : t) : bool :=
  match compare x y with Some Lt | Some Eq => true | _ => false end.

Definition is_neg_zero (x : t) : bool :=
  match x with S754_zero true => true | _ => false end.

(** [Math.max(x, y)]: NaN if either is NaN; [+0] is larger than [-0]. *)
Definition Math_max (x y : t) : t :=
  match compare x y with
  | None => NaN
  | Some Lt => y
  | Some Gt => x
  | Some Eq => if is_neg_zero x then y else x
  end.

(** [Math.min(x, y)]: NaN if either is NaN; [-0] is smaller than [+0]. *)
Definition Math_min (x y : t) : t :=
  match compare x y with
  | None => NaN
  | Some Lt => x
  | Some Gt => y
  | Some Eq => if is_neg_zero x then x else y
  end.

(** [floor(v + 1/2)] for the value [v = (-1)^s * m * 2^e]. *)
Definition round_half_up (s : bool) (m : positive) (e : Z) : Z :=
  let sm := if s then Z.neg m else Z.pos m in
  if 0 <=? e then sm * 2 ^ e
  else (2 * sm + 2 ^ (- e)) / (2 * 2 ^ (- e)).

(** [Math.round(x)]: the integer nearest to [x], ties towards +infinity;
    the result keeps the sign of [x] when it is zero. *)
Definition Math_round (x : t) : t :=
  match x with
  | S754_finite s m e =>
      match round_half_up s m e with
      | 0 => S754_zero s
      | z => of_Z z
      end
  | _ => x
  end.

(** [floor(v)] and [ceil(v)] for the value [v = (-1)^s * m * 2^e]. *)
Definition floor_Z (s : bool) (m : positive) (e : Z) : Z :=
  let sm := if s then Z.neg m else Z.pos m in
  if 0 <=? e then sm * 2 ^ e else sm / 2 ^ (- e).

Definition ceil_Z (s : bool) (m : positive) (e : Z) : Z :=
  let sm := if s then Z.neg m else Z.pos m in
  if 0 <=? e then sm * 2 ^ e else - ((- sm) / 2 ^ (- e)).

(** [Math.floor(x)]; a zero result is [-0] only for [x = -0]. *)
Definition Math_floor (x : t) : t :=
  match x with
  | S754_finite s m e =>
      match floor_Z s m e with
      | 0 => S754_zero false
      | z => of_Z z
      end
  | _ => x
  end.

(** [Math.ceil(x)]; a zero result is [-0] for a negative [x]. *)
Definition Math_ceil (x : t) : t :=
  match x with
  | S754_finite s m e =>
      match ceil_Z s m e with
      | 0 => S754_zero s
      | z => of_Z z
      end
  | _ => x
  end.

(** ToIntegerOrInfinity. *)
Inductive int_or_inf := Int (z : Z) | PlusInf | MinusInf.

Definition ToIntegerOrInfinity (x : t) : int_or_inf :=
  match x with
  | S754_nan => Int 0
  | S754_zero _ => Int 0
  | S754_infinity false => PlusInf
  | S754_infinity true => MinusInf
  | S754_finite s m e =>
      let mag := if 0 <=? e then Z.pos m * 2 ^ e else Z.pos m / 2 ^ (- e) in
      Int (if s then - mag else mag)
  end.

(** The integer [n] for which [n / 10 - x] is as close to zero as possible,
    the larger one when there are two (step 10.a of Number.prototype.toFixed
    with [f = 1]), for [x = m * 2^e]. *)
Definition nearest_tenth (m : positive) (e : Z) : Z :=
  if 0 <=? e then 10 * Z.pos m * 2 ^ e
  else (20 * Z.pos m + 2 ^ (- e)) / (2 * 2 ^ (- e)).

(** [10^21 <= m * 2^e]. *)
Definition at_least_1e21 (m : positive) (e : Z) : bool :=
  if 0 <=? e then 10 ^ 21 <=? Z.pos m * 2 ^ e
  else 10 ^ 21 * 2 ^ (- e) <=? Z.pos m.

(** The digits of [n] with the decimal point before the last one. *)
Definition one_decimal (n : Z) : string :=
  JsString.of_int (n / 10) ++ "." ++ JsString.of_int (n mod 10).

Section ToFixed.
(** [Number::toString] of the host, which [toFixed] falls back on for
    values of magnitude 1e21 and more. *)
Variable number_to_string : t -> string.

(** [x.toFixed(1)]. *)
Definition toFixed1 (x : t) : string :=
  match x with
  | S754_nan => "NaN"
  | S754_infinity false => "Infinity"
  | S754_infinity true => "-Infinity"
  | S754_zero _ => "0.0"
  | S754_finite s m e =>
      if at_least_1e21 m e then number_to_string x
      else (if s then "-" else "") ++ one_decimal (nearest_tenth m e)
  end.
End ToFixed.

End Number.

(* ===================================================================== *)
(** * Hex digests and [parseInt(_, 16)]                                   *)
(* ===================================================================== *)

Module Hex.

Definition digit (d : N) : ascii :=
  match String.get (N.to_nat d) "0123456789abcdef" with
  | Some c => c
  | None => "0"%char
  end.

(** The [w] low hexadecimal digits of [n], most significant first:
    [digest("hex")] of a digest of [4 * w] bits. *)
Fixpoint encode (w : nat) (n : N) : string :=
  match w with
  | O => ""
  | S k => encode k (n / 16) ++ String (digit (n mod 16)) ""
  end.

Definition value (c : ascii) : option Z :=
  let b := Z.of_nat (nat_of_ascii c) in
  if (48 <=? b) && (b <=? 57) then Some (b - 48)
  else if (97 <=? b) && (b <=? 102) then Some (b - 87)
  else if (65 <=? b) && (b <=? 70) then Some (b - 55)
  else None.

(** The longest prefix of hexadecimal digits. *)
Fixpoint digits (s : string) : list Z :=
  match s with
  | EmptyString => []
  | String c rest =>
      match value c with
      | Some d => d :: digits rest
      | None => []
      end
  end.

Definition number (ds : list Z) : Z := fold_left (fun acc d => 16 * acc + d) ds 0.

Definition drop_sign (s : string) : bool * string :=
  match s with
  | String "-" rest => (true, rest)
  | String "+" rest => (false, rest)
  | _ => (false, s)
  end.

Definition drop_0x (s : string) : string :=
  match s with
  | String "0" (String "x" rest) => rest
  | String "0" (String "X" rest) => rest
  | _ => s
  end.

(** [parseInt(s, 16)]; [None] is NaN.  The result is the exact integer,
    which is the Number [parseInt] returns as long as it is below 2^53
    (the script parses eight digits). *)
Definition parseInt16 (s : string) : option Z :=
  let s := JsString.bytes (JsString.strip false (JsString.to_bytes s)) in
  let '(neg, s) := drop_sign s in
  match digits (drop_0x s) with
  | [] => None
  | ds => Some (if neg then - number ds else number ds)
  end.

End Hex.

(* ===================================================================== *)
(** * The digests of the host's [crypto]: MD5 (RFC 1321), SHA-1 (RFC 3174) *)
(* ===================================================================== *)

Module Crypto.
Local Open Scope N_scope.

Definition w32 (x : N) : N := x mod 2 ^ 32.

Definition not32 (x : N) : N := N.lxor x 0xffffffff.

(** Rotation to the left of a 32-bit word. *)
Definition rotl (x c : N) : N :=
  w32 (N.lor (N.shiftl x c) (N.shiftr x (32 - c))).

(** The bytes [update(s)] digests. *)
Definition message_bytes (s : string) : list N :=
  map N_of_ascii (list_ascii_of_string s).

(** [count] bytes of [n], least significant first. *)
Fixpoint le_bytes (count : nat) (n : N) : list N :=
  match count with
  | O => []
  | S k => n mod 256 :: le_bytes k (n / 256)
  end.

Definition be_bytes (count : nat) (n : N) : list N := rev (le_bytes count n).

(** The number a list of bytes spells, most significant first. *)
Definition be_number (l : list N) : N := fold_left (fun acc b => 256 * acc + b) l 0.

Definition le_number (l : list N) : N := be_number (rev l).

(** The message, a 1 bit, zeros up to 56 modulo 64 bytes, and the length in
    bits as the 8 bytes [length_field]. *)
Definition pad (bytes length_field : list N) : list N :=
  let len := List.length bytes in
  let zeros := ((64 - (len + 9) mod 64) mod 64)%nat in
  (bytes ++ [128] ++ repeat 0 zeros ++ length_field)%list.

(** [n] consecutive groups of [size] elements. *)
Fixpoint groups {A} (size n : nat) (l : list A) : list (list A) :=
  match n with
  | O => []
  | S k => firstn size l :: groups size k (skipn size l)
  end.

(** The 16-word blocks of a padded message. *)
Definition blocks (number : list N -> N) (padded : list N) : list (list N) :=
  map (fun block => map number (groups 4 16 block))
      (groups 64 (List.length padded / 64) padded).

(** ** MD5 *)

Definition md5_K : list N :=
  [ 0xd76aa478; 0xe8c7b756; 0x242070db; 0xc1bdceee;
    0xf57c0faf; 0x4787c62a; 0xa8304613; 0xfd469501;
    0x698098d8; 0x8b44f7af; 0xffff5bb1; 0x895cd7be;
    0x6b901122; 0xfd987193; 0xa679438e; 0x49b40821;
    0xf61e2562; 0xc040b340; 0x265e5a51; 0xe9b6c7aa;
    0xd62f105d; 0x02441453; 0xd8a1e681; 0xe7d3fbc8;
    0x21e1cde6; 0xc33707d6; 0xf4d50d87; 0x455a14ed;
    0xa9e3e905; 0xfcefa3f8; 0x676f02d9; 0x8d2a4c8a;
    0xfffa3942; 0x8771f681; 0x6d9d6122; 0xfde5380c;
    0xa4beea44; 0x4bdecfa9; 0xf6bb4b60; 0xbebfbc70;
    0x289b7ec6; 0xeaa127fa; 0xd4ef3085; 0x04881d05;
    0xd9d4d039; 0xe6db99e5; 0x1fa27cf8; 0xc4ac5665;
    0xf4292244; 0x432aff97; 0xab9423a7; 0xfc93a039;
    0x655b59c3; 0x8f0ccc92; 0xffeff47d; 0x85845dd1;
    0x6fa87e4f; 0xfe2ce6e0; 0xa3014314; 0x4e0811a1;
    0xf7537e82; 0xbd3af235; 0x2ad7d2bb; 0xeb86d391 ].

Definition md5_S : list N :=
  [ 7; 12; 17; 22; 7; 12; 17; 22; 7; 12; 17; 22; 7; 12; 17; 22;
    5; 9; 14; 20; 5; 9; 14; 20; 5; 9; 14; 20; 5; 9; 14; 20;
    4; 11; 16; 23; 4; 11; 16; 23; 4; 11; 16; 23; 4; 11; 16; 23;
    6; 10; 15; 21; 6; 10; 15; 21; 6; 10; 15; 21; 6; 10; 15; 21 ].

Definition md5_step (M : list N) (st : N * N * N * N) (i : nat) : N * N * N * N :=
  let '(A, B, C, D) := st in
  let '(F, g) :=
    if (i <? 16)%nat then (N.lor (N.land B C) (N.land (not32 B) D), i)
    else if (i <? 32)%nat then (N.lor (N.land D B) (N.land (not32 D) C), ((5 * i + 1) mod 16)%nat)
    else if (i <? 48)%nat then (N.lxor B (N.lxor C D), ((3 * i + 5) mod 16)%nat)
    else (N.lxor C (N.lor B (not32 D)), ((7 * i) mod 16)%nat) in
  let F := w32 (F + A + nth i md5_K 0 + nth g M 0) in
  (D, w32 (B + rotl F (nth i md5_S 0)), B, C).

Definition md5_block (st : N * N * N * N) (M : list N) : N * N * N * N :=
  let '(a, b, c, d) := st in
  let '(A, B, C, D) := fold_left (md5_step M) (seq 0 64) st in
  (w32 (a + A), w32 (b + B), w32 (c + C), w32 (d + D)).

(** The MD5 digest, as the 128-bit number its hex form spells. *)
Definition md5 (s : string) : N :=
  let bytes := message_bytes s in
  let padded := pad bytes (le_bytes 8 (8 * N.of_nat (List.length bytes))) in
  let '(a, b, c, d) :=
    fold_left md5_block (blocks le_number padded)
              (0x67452301, 0xefcdab89, 0x98badcfe, 0x10325476) in
  be_number (le_bytes 4 a ++ le_bytes 4 b ++ le_bytes 4 c ++ le_bytes 4 d)%list.

(** ** SHA-1 *)

(** The 80-word message schedule, newest word first. *)
Fixpoint sha1_schedule (n : nat) (W : list N) : list N :=
  match n with
  | O => W
  | S k =>
      sha1_schedule k
        (rotl (N.lxor (N.lxor (nth 2 W 0) (nth 7 W 0)) (N.lxor (nth 13 W 0) (nth 15 W 0))) 1
         :: W)
  end.

Definition sha1_step (st : N * N * N * N * N) (iw : nat * N) : N * N * N * N * N :=
  let '(a, b, c, d, e) := st in
  let '(i, w) := iw in
  let '(f, k) :=
    if (i <? 20)%nat then (N.lor (N.land b c) (N.land (not32 b) d), 0x5a827999)
    else if (i <? 40)%nat then (N.lxor b (N.lxor c d), 0x6ed9eba1)
    else if (i <? 60)%nat
         then (N.lor (N.lor (N.land b c) (N.land b d)) (N.land c d), 0x8f1bbcdc)
    else (N.lxor b (N.lxor c d), 0xca62c1d6) in
  (w32 (rotl a 5 + f + e + k + w), a, rotl b 30, c, d).

Definition sha1_block (st : N * N * N * N * N) (M : list N) : N * N * N * N * N :=
  let '(h0, h1, h2, h3, h4) := st in
  let W := rev (sha1_schedule 64 (rev M)) in
  let '(a, b, c, d, e) := fold_left sha1_step (combine (seq 0 80) W) st in
  (w32 (h0 + a), w32 (h1 + b), w32 (h2 + c), w32 (h3 + d), w32 (h4 + e)).

(** The SHA-1 digest, as the 160-bit number its hex form spells. *)
Definition sha1 (s : string) : N :=
  let bytes := message_bytes s in
  let padded := pad bytes (be_bytes 8 (8 * N.of_nat (List.length bytes))) in
  let '(h0, h1, h2, h3, h4) :=
    fold_left sha1_block (blocks be_number padded)
              (0x67452301, 0xefcdab89, 0x98badcfe, 0x10325476, 0xc3d2e1f0) in
  be_number (be_bytes 4 h0 ++ be_bytes 4 h1 ++ be_bytes 4 h2 ++ be_bytes 4 h3 ++ be_bytes 4 h4)%list.

End Crypto.

(** [x % n] on integral Numbers; NaN stays NaN. *)
Definition js_rem (x : option Z) (n : Z) : option Z :=
  match x with
  | Some v => if n =? 0 then None else Some (Z.rem v n)
  | None => None
  end.

(** [arr.push(x)]. *)
Definition push {A} (arr : list A) (x : A) : list A := (arr ++ [x])%list.

(** [`${arr[i]}`]: an index that is not an own property yields [undefined]. *)
Definition js_index (arr : list string) (i : option Z) : string :=
  match i with
  | Some k => if 0 <=? k then nth (Z.to_nat k) arr "undefined" else "undefined"
  | None => "undefined"
  end.

(** Values that can be thrown: a pure computation either returns or raises. *)
Inductive result (A : Type) : Type :=
| Ok (a : A)
| Raise (err : string).
Arguments Ok {A} a.
Arguments Raise {A} err.

#[global] Instance result_ret : MRet result := fun A a => Ok a.
#[global] Instance result_bind : MBind result :=
  fun A B f m => match m with Ok a => f a | Raise e => Raise e end.

(** [String.prototype.repeat(count)]. *)
Definition js_repeat (s : string) (count : Number.t) : result string :=
  match Number.ToIntegerOrInfinity count with
  | Number.Int n =>
      if n <? 0 then Raise "RangeError: Invalid count value"
      else Ok (JsString.repeat_n s (Z.to_nat n))
  | _ => Raise "RangeError: Invalid count value"
  end.

(* ===================================================================== *)
(** * The run-time system of a process                                    *)
(* ===================================================================== *)

(** What a run does that can be observed from outside, in order. *)
Inductive Event : Type :=
| ConsoleLog (text : string)
| ConsoleError (text : string)
| WriteFile (fname data : string)
| ChatPostMessage (token : option string) (channel text username icon_emoji : string)
                  (mrkdwn : bool).

(** The working directory (file name to content) and the trace so far. *)
Record Sys : Type := { disk : gmap string string; trace : list Event }.

(** The world a run lives in: its environment; the time zone identifiers
    the host's date facility accepts ([toLocaleString] raises a RangeError
    for any other [timeZone]); what the facility answers for a zone it
    accepts, as time values in milliseconds ([date_now_in tz] for
    [new Date(new Date().toLocaleString("en-US", {timeZone: tz}))],
    [date_midnight_in dateStr tz] for the same of [`${dateStr}T00:00:00`]);
    whether the storage fails; and what the Slack API answers to
    [chat.postMessage] ([None]: resolved, [Some e]: rejected). *)
Record Host : Type := {
  env : gmap string string;
  time_zone_known : string -> bool;
  date_now_in : string -> Z;
  date_midnight_in : string -> string -> Z;
  read_fails : bool;
  write_fails : bool;
  slack_api : option string -> string -> option string
}.

Inductive Completion (A : Type) : Type :=
| Normal (a : A)
| Throw (err : string)
| Exit (code : Z).
Arguments Normal {A} a.
Arguments Throw {A} err.
Arguments Exit {A} code.

Definition IO (A : Type) : Type := Sys -> Completion A * Sys.

#[global] Instance IO_ret : MRet IO := fun A a s => (Normal a, s).
#[global] Instance IO_bind : MBind IO :=
  fun A B f m s =>
    match m s with
    | (Normal a, s') => f a s'
    | (Throw e, s') => (Throw e, s')
    | (Exit c, s') => (Exit c, s')
    end.

Definition emit (e : Event) : IO unit :=
  fun s => (Normal tt, {| disk := disk s; trace := push (trace s) e |}).

Definition console_log (text : string) : IO unit := emit (ConsoleLog text).
Definition console_error (text : string) : IO unit := emit (ConsoleError text).
Definition process_exit {A} (code : Z) : IO A := fun s => (Exit code, s).
Definition lift {A} (r : result A) : IO A :=
  fun s => match r with Ok a => (Normal a, s) | Raise e => (Throw e, s) end.

(** [try { body } catch { handler }]: only exceptions are caught. *)
Definition try_catch {A} (body handler : IO A) : IO A :=
  fun s => match body s with
           | (Throw _, s') => handler s'
           | r => r
           end.

(** ** [fs] *)

Definition existsSync (fname : string) : IO bool :=
  fun s => (Normal (bool_decide (is_Some (disk s !! fname))), s).

Definition readFileSync (h : Host) (fname : string) : IO string :=
  fun s =>
    if read_fails h then (Throw "EIO: read failed", s)
    else match disk s !! fname with
         | Some data => (Normal data, s)
         | None => (Throw "ENOENT: no such file", s)
         end.

(** A failed write is modelled as leaving the disk as it was; nothing below
    depends on what it leaves behind. *)
Definition writeFileSync (h : Host) (fname data : string) : IO unit :=
  fun s =>
    if write_fails h then (Throw "EIO: write failed", s)
    else (Normal tt, {| disk := <[fname := data]> (disk s);
                        trace := push (trace s) (WriteFile fname data) |}).

(** ** Views of the run-time system used in the statements *)

(** The token and text of every [chat.postMessage] call of a trace. *)
Definition posted (evs : list Event) : list (option string * string) :=
  flat_map (fun e => match e with
                     | ChatPostMessage token _ text _ _ _ => [(token, text)]
                     | _ => []
                     end) evs.

(** The storage of the guard works: no read and no write raises. *)
Definition storage_works (h : Host) : Prop :=
  read_fails h = false /\ write_fails h = false.

Definition guard_file : string := ".last_post_hash".

(** The state after [writeFileSync(".last_post_hash", hash)] succeeded. *)
Definition after_write (hash : string) (s : Sys) : Sys :=
  {| disk := <[guard_file := hash]> (disk s);
     trace := push (trace s) (WriteFile guard_file hash) |}.

(** What [alreadyPostedGuard] returns and leaves, in closed form
    ([guard_eq] below proves it is what the guard computes). *)
Definition guard_result (h : Host) (hash : string) (s : Sys) : bool * Sys :=
  let write := if write_fails h then (false, s) else (false, after_write hash s) in
  match disk s !! guard_file with
  | Some data =>
      if read_fails h then (false, s)
      else if String.eqb (JsString.trim data) hash then (true, s) else write
  | None => write
  end.

(** The guard's storage raises while [alreadyPostedGuard h hash] runs from
    state [s]: the file exists and reading it raises, or the write is reached
    (no file, or a file whose trimmed content differs from [hash]) and
    raises. *)
Definition storage_failure_raised (h : Host) (hash : string) (s : Sys) : Prop :=
  (is_Some (disk s !! guard_file) /\
   exists err s', readFileSync h guard_file s = (Throw err, s')) \/
  ((disk s !! guard_file = None \/
    exists data, readFileSync h guard_file s = (Normal data, s) /\ JsString.trim data <> hash) /\
   exists err s', writeFileSync h guard_file hash s = (Throw err, s')).

(** ** Sample worlds, for the examples *)

(** A stand-in for the host's [Number::toString]; [toFixed] consults it for
    magnitudes of 1e21 and more only. *)
Definition sample_number_to_string (x : Number.t) : string := "1e+21".

Definition sample_env : gmap string string :=
  <["SLACK_WEBHOOK_URL" := "https://hooks.slack.com/services/T0/B0/X0"]>
    (<["SLACK_BOT_TOKEN" := "xoxb-0"]> (<["TZ" := "Asia/Jerusalem"]> ∅)).

(** The same environment without SLACK_BOT_TOKEN. *)
Definition webhook_only_env : gmap string string :=
  <["SLACK_WEBHOOK_URL" := "https://hooks.slack.com/services/T0/B0/X0"]>
    (<["TZ" := "Asia/Jerusalem"]> ∅).

(** SLACK_WEBHOOK_URL set to the empty string, as a CI runner passes a
    secret that is not defined. *)
Definition empty_webhook_env : gmap string string :=
  <["SLACK_WEBHOOK_URL" := ""]> (<["SLACK_BOT_TOKEN" := "xoxb-0"]> ∅).

(** Some identifiers of the IANA time zone database. *)
Definition sample_zones : list string :=
  ["Asia/Jerusalem"; "UTC"; "Europe/London"; "America/New_York"].

(** An environment whose TZ names no time zone. *)
Definition bad_zone_env : gmap string string :=
  <["SLACK_WEBHOOK_URL" := "https://hooks.slack.com/services/T0/B0/X0"]>
    (<["SLACK_BOT_TOKEN" := "xoxb-0"]> (<["TZ" := "Invalid/Zone"]> ∅)).

(** A host in Asia/Jerusalem (UTC+3 throughout the window): the local
    midnights of 2025-07-20 and 2025-10-18 in epoch milliseconds, a clock
    that reads [now_ms], a storage that fails as [read_fault] and
    [write_fault] say, and a Slack API that answers [api_error]. *)
Definition sample_host (e : gmap string string) (now_ms : Z)
           (read_fault write_fault : bool) (api_error : option string) : Host :=
  {| env := e;
     time_zone_known := fun tz => existsb (String.eqb tz) sample_zones;
     date_now_in := fun _ => now_ms;
     date_midnight_in :=
       fun dateStr _ => if String.eqb dateStr "2025-07-20" then 1752958800000
                        else 1760734800000;
     read_fails := read_fault;
     write_fails := write_fault;
     slack_api := fun _ _ => api_error |}.

(** A host whose window is 90 days and one hour long, as when daylight
    saving time ends between the two dates. *)
Definition long_window_host (now_ms : Z) : Host :=
  {| env := sample_env;
     time_zone_known := fun tz => existsb (String.eqb tz) sample_zones;
     date_now_in := fun _ => now_ms;
     date_midnight_in :=
       fun dateStr _ => if String.eqb dateStr "2025-07-20" then 1752958800000
                        else 1760738400000;
     read_fails := false;
     write_fails := false;
     slack_api := fun _ _ => None |}.

(** 2025-09-03 09:00 and 17:30, 2025-10-18 09:00 and 2025-10-19 09:00,
    local time. *)
Definition sep_3_morning : Z := 1756879200000.
Definition sep_3_evening : Z := 1756909800000.
Definition oct_18_morning : Z := 1760767200000.
Definition oct_19_morning : Z := 1760853600000.

(** The message of 2025-09-03: 45 days elapsed of 90, 45 days left, a
    milestone. *)
Definition sep_3_message : string :=
  "*What have you done today to double your money?*
🟩🟩🟩🟩🟩🟩🟩🟩🟩🟩🟩🟩🟩🟩🟩⬜⬜⬜⬜⬜⬜⬜⬜⬜⬜⬜⬜⬜⬜⬜ 50.0%
⏳ *45 days left* (50.0% done).
💡 *Prompt:* Momentum beats perfection. Ship a micro-improvement.
🎯 *Milestone Prompt:* Milestone check-in: write *one concrete win* in a thread.".

(* ===================================================================== *)
(** * send-countdown.js                                                   *)
(* ===================================================================== *)

Section SendCountdown.

(** The host's [crypto] digests, as numbers of 128 and 160 bits, and its
    [Number::toString]. *)
Variable md5 : string -> N.
Variable sha1 : string -> N.
Variable number_to_string : Number.t -> string.

(** [createHash(alg).update(s).digest("hex")]. *)
Definition md5_hex (s : string) : string := Hex.encode 32 (md5 s).
Definition sha1_hex (s : string) : string := Hex.encode 40 (sha1 s).

(** ** Config constants *)

Definition EVENT_NAME : string := "What have you done today to double your money?".
Definition START_DATE : string := "2025-07-20".
Definition TARGET_DATE : string := "2025-10-18".

(** [x || dflt] on an environment entry: unset and empty are falsy. *)
Definition truthy (v : option string) : bool :=
  match v with
  | Some (String _ _) => true
  | _ => false
  end.

Definition TZ (h : Host) : string :=
  if truthy (env h !! "TZ") then default "" (env h !! "TZ") else "Asia/Jerusalem".
Definition WEBHOOK (h : Host) : option string := env h !! "SLACK_WEBHOOK_URL".
(** The token [new WebClient(process.env.SLACK_BOT_TOKEN)] keeps. *)
Definition client_token (h : Host) : option string := env h !! "SLACK_BOT_TOKEN".

Definition MILESTONES : gset Z :=
  list_to_set [90; 75; 60; 45; 30; 21; 14; 10; 7; 5; 3; 2; 1; 0].

Definition BAR_LENGTH : Z := 30.
Definition BAR_FILLED : string := "🟩".
Definition BAR_EMPTY : string := "⬜".

Definition STOP_AFTER : bool := true.

(** ** Helpers *)

(** [toLocaleString("en-US", { timeZone: tz })] raises for a time zone the
    host does not know; neither helper catches it. *)
Definition invalid_time_zone (tz : string) : string :=
  "RangeError: Invalid time zone specified: " ++ tz.

Definition localStartOfDay (h : Host) (dateStr tz : string) : result Z :=
  if time_zone_known h tz then Ok (date_midnight_in h dateStr tz)
  else Raise (invalid_time_zone tz).

Definition todayLocal (h : Host) (tz : string) : result Z :=
  if time_zone_known h tz then Ok (date_now_in h tz)
  else Raise (invalid_time_zone tz).

(** [(b - a)] measured in whole days (floor). *)
Definition daysDiff (a b : Z) : Z :=
  let ms := b - a in
  ms / 86400000.

(** Ceiling of the remaining days. *)
Definition daysLeft (nowLocal targetLocal : Z) : Z :=
  - ((- (targetLocal - nowLocal)) / 86400000).

(** The same two functions as the engine evaluates them, on the Numbers
    of the two time values: a subtraction, a division by [86_400_000] and
    [Math.floor] or [Math.ceil], all in binary64. *)
Definition daysDiff_binary64 (a b : Z) : Number.int_or_inf :=
  let ms := Number.sub (Number.of_Z b) (Number.of_Z a) in
  Number.ToIntegerOrInfinity (Number.Math_floor (Number.div ms (Number.of_Z 86400000))).

Definition daysLeft_binary64 (nowLocal targetLocal : Z) : Number.int_or_inf :=
  Number.ToIntegerOrInfinity
    (Number.Math_ceil
       (Number.div (Number.sub (Number.of_Z targetLocal) (Number.of_Z nowLocal))
                   (Number.of_Z 86400000))).

Record Progress : Type := { bar : string; pct : string }.

Definition clampRatio (elapsedDays totalDays : Number.t) : Number.t :=
  Number.Math_min (Number.of_Z 1)
    (Number.Math_max (Number.of_Z 0) (Number.div elapsedDays totalDays)).

Definition renderProgress (ratio : Number.t) : result Progress :=
  let filled := Number.Math_round (Number.mul ratio (Number.of_Z BAR_LENGTH)) in
  a ← js_repeat BAR_FILLED filled;
  b ← js_repeat BAR_EMPTY (Number.sub (Number.of_Z BAR_LENGTH) filled);
  let bar := a ++ b in
  let pct := Number.toFixed1 number_to_string (Number.mul ratio (Number.of_Z 100)) in
  mret {| bar := bar; pct := pct |}.

Definition buildProgress (elapsedDays totalDays : Number.t) : result Progress :=
  let ratio := clampRatio elapsedDays totalDays in
  renderProgress ratio.

Definition generic : list string :=
  [ "What *specifically* did you do today to move the doubling needle?";
    "Tiny compounding moves > heroic last-minute swings.";
    "If you can’t write one actionable line you did—fix that *now*.";
    "Momentum beats perfection. Ship a micro-improvement.";
    "Eliminate one drag, amplify one driver." ].

Definition milestoneFlavor : list string :=
  [ "Milestone check-in: write *one concrete win* in a thread.";
    "Drop a ✅ in thread once you’ve executed *one task* toward doubling.";
    "Share your fastest experiment idea—speed > certainty.";
    "Name a blocker *and* the next action to crush it.";
    "Brag moment: what metric nudged upward recently?" ].

Definition seedSource (daysLeft : Z) (pct : string) : string :=
  JsString.of_int daysLeft ++ "-" ++ pct.

Definition idx (seed : string) : option Z :=
  js_rem (Hex.parseInt16 (JsString.slice0 8 (md5_hex seed))) (Z.of_nat (length generic)).

Definition midx (seed : string) : option Z :=
  js_rem (Hex.parseInt16 (JsString.slice0 8 (sha1_hex seed)))
         (Z.of_nat (length milestoneFlavor)).

Definition days_left_line (daysLeft : Z) (pct : string) : string :=
  "⏳ *" ++ JsString.of_int daysLeft ++ " days left* (" ++ pct ++ "% done).".
Definition last_call_line (pct : string) : string :=
  "🔥 *1 day left!* (" ++ pct ++ "% done). Last call.".
Definition final_day_line (pct : string) : string :=
  "🚀 *Today is the final day!* (" ++ pct ++ "% complete). Make it count.".
Definition prompt_line (baseNudge : string) : string := "💡 *Prompt:* " ++ baseNudge.
Definition milestone_marker : string := "🎯 *Milestone Prompt:* ".
Definition milestone_line (flavor : string) : string := milestone_marker ++ flavor.
Definition retro_line : string :=
  "🏁 *Project is over after today.* Post a retro: What worked? What was noise? What will you keep doing?".

(** The array [lines] of [pickNudge] just before it is joined. *)
Definition pickNudge_lines (daysLeft : Z) (pct : string) (isMilestone : bool)
  : list string :=
  let lines := [] in
  let lines :=
    if 1 <? daysLeft then push lines (days_left_line daysLeft pct)
    else if daysLeft =? 1 then push lines (last_call_line pct)
    else if daysLeft =? 0 then push lines (final_day_line pct)
    else lines in
  let seedSource := seedSource daysLeft pct in
  let baseNudge := js_index generic (idx seedSource) in
  let lines := if 0 <? daysLeft then push lines (prompt_line baseNudge) else lines in
  let lines :=
    if isMilestone && (0 <? daysLeft)
    then push lines (milestone_line (js_index milestoneFlavor (midx seedSource)))
    else lines in
  let lines := if daysLeft =? 0 then push lines retro_line else lines in
  lines.

Definition pickNudge (daysLeft : Z) (pct : string) (isMilestone : bool) : string :=
  JsString.join JsString.line_feed (pickNudge_lines daysLeft pct isMilestone).

(** The guard's [try] block either returns a value early or falls through
    to [return false]. *)
Definition alreadyPostedGuard (h : Host) (hash : string) : IO bool :=
  let fname := ".last_post_hash" in
  returned ←
    try_catch
      (present ← existsSync fname;
       early ← (if present : bool
                then data ← readFileSync h fname;
                     let prev := JsString.trim data in
                     mret (if String.eqb prev hash then Some true else None)
                else mret None);
       match early with
       | Some v => mret (Some v)
       | None => writeFileSync h fname hash;; mret None
       end)
      (mret None);
  mret (default false returned).

(** [await client.chat.postMessage({...})]: the promise resolves ([Ok]) or
    rejects ([Raise]). *)
Definition postToSlack (h : Host) (text : string) : IO (result unit) :=
  emit (ChatPostMessage (client_token h) "#proj-double" text "Money Doubler"
                        ":proj_double:" true);;
  mret (match slack_api h (client_token h) text with
        | None => Ok tt
        | Some err => Raise err
        end).

Definition header : string := "*" ++ EVENT_NAME ++ "*".

(** [core] of [main], from the progress and the nudge. *)
Definition core_of (p : Progress) (nudge : string) : string :=
  let progressLine := bar p ++ " " ++ pct p ++ "%" in
  header ++ JsString.line_feed ++ progressLine ++ JsString.line_feed ++ nudge.

(** An exception of [todayLocal] or [localStartOfDay] is not caught: it
    ends [main], and the process. *)
Definition main (h : Host) : IO unit :=
  (if negb (truthy (WEBHOOK h))
   then console_error "Missing SLACK_WEBHOOK_URL";; process_exit 1
   else mret tt);;
  now ← lift (todayLocal h (TZ h));
  start ← lift (localStartOfDay h START_DATE (TZ h));
  target ← lift (localStartOfDay h TARGET_DATE (TZ h));
  let totalDays := daysDiff start target in
  let elapsedDays := Z.min totalDays (Z.max 0 (daysDiff start now)) in
  let remaining := daysLeft now target in
  let isMilestone := bool_decide (remaining ∈ MILESTONES) in
  if remaining <? 0 then
    if STOP_AFTER
    then console_log "Target date passed. Stopping (no further posts)."
    else console_log "Target passed; would post 'since' message."
  else
    p ← lift (buildProgress (Number.of_Z elapsedDays) (Number.of_Z totalDays));
    let nudge := pickNudge remaining (pct p) isMilestone in
    let core := core_of p nudge in
    let hash := md5_hex core in
    duplicate ← alreadyPostedGuard h hash;
    if duplicate : bool then
      console_log "Already posted identical message this run; skipping."
    else
      posted ← postToSlack h core;
      match posted with
      | Ok _ => console_log ("Posted:" ++ JsString.line_feed ++ core)
      | Raise err => console_error err;; process_exit 1
      end.

(** ** A whole run of the process *)

Record Outcome : Type := {
  exit_code : Z;
  events : list Event;
  disk_after : gmap string string
}.

(** An uncaught exception ends a Node process with status 1; a normal end
    with status 0. *)
Definition run (h : Host) (d : gmap string string) : Outcome :=
  let '(c, s) := main h {| disk := d; trace := [] |} in
  {| exit_code := match c with Normal _ => 0 | Throw _ => 1 | Exit code => code end;
     events := trace s;
     disk_after := disk s |}.

(** ** Views of a run used in the statements *)

(** The time zone of the run is one the date facility accepts. *)
Definition zone_ok (h : Host) : bool := time_zone_known h (TZ h).

(** The constants [main] computes before it composes anything, as
    functions of the host: [now], [start] and [target] are the time values
    [todayLocal] and [localStartOfDay] return when they return
    ([dates_resolve] below), the others are computed from them as in
    [main]. *)
Definition now (h : Host) : Z := date_now_in h (TZ h).
Definition start (h : Host) : Z := date_midnight_in h START_DATE (TZ h).
Definition target (h : Host) : Z := date_midnight_in h TARGET_DATE (TZ h).
Definition totalDays (h : Host) : Z := daysDiff (start h) (target h).
Definition elapsedDays (h : Host) : Z :=
  Z.min (totalDays h) (Z.max 0 (daysDiff (start h) (now h))).
Definition remaining (h : Host) : Z := daysLeft (now h) (target h).
Definition isMilestone (h : Host) : bool := bool_decide (remaining h ∈ MILESTONES).

(** The text [main] composes ([core]) from these constants, when it gets
    that far: nothing when the window has elapsed. *)
Definition message (h : Host) : option string :=
  if remaining h <? 0 then None
  else match buildProgress (Number.of_Z (elapsedDays h)) (Number.of_Z (totalDays h)) with
       | Ok p => Some (core_of p (pickNudge (remaining h) (pct p) (isMilestone h)))
       | Raise _ => None
       end.

(** A run composes [core]: the configuration check passes, the dates
    resolve and [main] reaches the composition of [core]. *)
Definition composes (h : Host) (core : string) : Prop :=
  truthy (WEBHOOK h) = true /\ zone_ok h = true /\ message h = Some core.

Definition post_event (h : Host) (core : string) : Event :=
  ChatPostMessage (client_token h) "#proj-double" core "Money Doubler" ":proj_double:" true.

(** A whole run in closed form ([run_eq] below proves it is what [run]
    computes). *)
Definition run_result (h : Host) (d : gmap string string) : Outcome :=
  if negb (truthy (WEBHOOK h)) then
    {| exit_code := 1; events := [ConsoleError "Missing SLACK_WEBHOOK_URL"]; disk_after := d |}
  else if negb (zone_ok h) then
    {| exit_code := 1; events := []; disk_after := d |}
  else
    match message h with
    | None =>
        {| exit_code := 0;
           events := [ConsoleLog "Target date passed. Stopping (no further posts)."];
           disk_after := d |}
    | Some core =>
        let '(duplicate, s) := guard_result h (md5_hex core) {| disk := d; trace := [] |} in
        if duplicate then
          {| exit_code := 0;
             events := push (trace s)
                         (ConsoleLog "Already posted identical message this run; skipping.");
             disk_after := disk s |}
        else
          match slack_api h (client_token h) core with
          | None =>
              {| exit_code := 0;
                 events := push (push (trace s) (post_event h core))
                             (ConsoleLog ("Posted:" ++ JsString.line_feed ++ core));
                 disk_after := disk s |}
          | Some err =>
              {| exit_code := 1;
                 events := push (push (trace s) (post_event h core)) (ConsoleError err);
                 disk_after := disk s |}
          end
    end.

(** [totalDays] and [elapsedDays] of [main] as the engine evaluates them:
    [daysDiff] on the Numbers of the time values, and [Math.min] and
    [Math.max] on its results. *)
Definition daysDiff_Number (a b : Z) : Number.t :=
  let ms := Number.sub (Number.of_Z b) (Number.of_Z a) in
  Number.Math_floor (Number.div ms (Number.of_Z 86400000)).

Definition totalDays_binary64 (h : Host) : Number.t :=
  daysDiff_Number (start h) (target h).

Definition elapsedDays_binary64 (h : Host) : Number.t :=
  Number.Math_min (totalDays_binary64 h)
    (Number.Math_max (Number.of_Z 0) (daysDiff_Number (start h) (now h))).

(** The progress the arithmetic of rationals gives: [round(30 e / t)]
    filled glyphs (halves up) and [100 e / t] to the nearest tenth. *)
Definition rounded_progress (e t : Z) : Progress :=
  let filled := (60 * e + t) / (2 * t) in
  {| bar := JsString.repeat_n BAR_FILLED (Z.to_nat filled)
            ++ JsString.repeat_n BAR_EMPTY (Z.to_nat (BAR_LENGTH - filled));
     pct := Number.one_decimal ((2000 * e + t) / (2 * t)) |}.

Definition same_progress (r : result Progress) (p : Progress) : bool :=
  match r with
  | Ok q => String.eqb (bar q) (bar p) && String.eqb (pct q) (pct p)
  | Raise _ => false
  end.

(** The host [h] started with the environment [e] instead of its own. *)
Definition with_env (h : Host) (e : gmap string string) : Host :=
  {| env := e;
     time_zone_known := time_zone_known h;
     date_now_in := date_now_in h;
     date_midnight_in := date_midnight_in h;
     read_fails := read_fails h;
     write_fails := write_fails h;
     slack_api := slack_api h |}.

(** Consecutive runs in one execution context: each starts from the disk
    the one before left.  The events of all runs, in order, and the disk at
    the end. *)
Fixpoint session (hs : list Host) (d : gmap string string)
  : list Event * gmap string string :=
  match hs with
  | [] => ([], d)
  | h :: rest =>
      let o := run h d in
      let '(evs, d') := session rest (disk_after o) in
      ((events o ++ evs)%list, d')
  end.

Definition is_console (e : Event) : bool :=
  match e with
  | ConsoleLog _ | ConsoleError _ => true
  | _ => false
  end.


(** ** Predicates used in the statements and in the proofs *)

(** [0 <= r <= 1] as JS compares Numbers. *)
Definition in_unit (r : Number.t) : Prop :=
  Number.leb (Number.of_Z 0) r = true /\ Number.leb r (Number.of_Z 1) = true.

(** [x] is a zero, or a positive [m * 2^e] that is at most the integer [N]. *)
Definition bounded_by (x : Number.t) (N : Z) : Prop :=
  (exists s, x = S754_zero s) \/
  exists m e, x = S754_finite false m e /\ e <= 0 /\ Z.pos m <= N * 2 ^ (- e).

(** [mrs] is what [j] one-bit right shifts make of the mantissa [M]: the
    quotient, with both sticky bits clear when nothing was shifted out. *)
Definition shifted (M : Z) (j : Z) (mrs : shr_record) : Prop :=
  shr_m mrs = M / 2 ^ j /\
  (M mod 2 ^ j = 0 -> shr_r mrs = false /\ shr_s mrs = false).

Definition exact_record (M : Z) : shr_record :=
  {| shr_m := M; shr_r := false; shr_s := false |}.

(** The result of a rounding is [+0] or a positive value at most [N]. *)
Definition rounded_le (x : spec_float) (N : Z) : Prop :=
  x = S754_zero false \/
  exists m e, x = S754_finite false m e /\ e <= 0 /\ Z.pos m <= N * 2 ^ (- e).

(** The second half of a rounding: the rounded mantissa is renormalised. *)
Definition finish (s : bool) (m e : Z) : spec_float :=
  let '(mrs, e') := shr_fexp 53 1024 m e loc_Exact in
  match shr_m mrs with
  | 0 => S754_zero s
  | Z.pos p => if e' <=? 1024 - 53 then S754_finite s p e' else S754_infinity s
  | Z.neg _ => S754_nan
  end.

(** The binary64 representation of the integer [v], for [0 < v < 2^53],
    with sign [s]: 53 bits of mantissa. *)
Definition canon (s : bool) (v : positive) : spec_float :=
  let d := Z.pos (digits2_pos v) in
  S754_finite s (Z.to_pos (Z.pos v * 2 ^ (53 - d))) (d - 53).

(** [mrs] holds the quotient of [X] by [W] and tells where the remainder
    lies: nothing left, below half of [W], exactly half, above half. *)
Definition located (X W : Z) (mrs : shr_record) : Prop :=
  shr_m mrs = X / W /\
  match shr_r mrs, shr_s mrs with
  | false, false => X mod W = 0
  | false, true => 0 < 2 * (X mod W) < W
  | true, false => 2 * (X mod W) = W
  | true, true => W < 2 * (X mod W)
  end.

(** Both [repeat] counts of [buildProgress] are the integers they stand for. *)
Definition count_ok (k : Z) : bool :=
  match Number.ToIntegerOrInfinity (Number.of_Z k),
        Number.ToIntegerOrInfinity (Number.sub (Number.of_Z BAR_LENGTH) (Number.of_Z k)) with
  | Number.Int a, Number.Int b => (a =? k) && (b =? BAR_LENGTH - k)
  | _, _ => false
  end.

(** A byte that starts no white space and ends none: ASCII and not white. *)
Definition plain (a : nat) : bool := (a <? 128)%nat && negb (JsString.ws1 a).

(** A byte occurs in a string. *)
Fixpoint has_byte (b : nat) (s : string) : bool :=
  match s with
  | EmptyString => false
  | String c rest => (nat_of_ascii c =? b)%nat || has_byte b rest
  end.


(* ===================================================================== *)
(** * Binary64 rounding: a product of values at most 1 and N is at most N *)
(* ===================================================================== *)

Ltac std_Z :=
  change IntDef.Z.max with Z.max in *; change IntDef.Z.sub with Z.sub in *;
  change IntDef.Z.add with Z.add in *; change IntDef.Z.min with Z.min in *;
  change IntDef.Z.mul with Z.mul in *; change IntDef.Z.opp with Z.opp in *;
  change IntDef.Z.leb with Z.leb in *; change IntDef.Z.eqb with Z.eqb in *;
  change IntDef.Z.compare with Z.compare in *.

Lemma fexp64 x : fexp 53 1024 x = Z.max (x - 53) (-1074).
Proof. reflexivity. Qed.

Lemma digits2_bounds (p : positive) :
  2 ^ (Z.pos (digits2_pos p) - 1) <= Z.pos p < 2 ^ Z.pos (digits2_pos p).
Proof.
  induction p as [p IH | p IH |]; cbn [digits2_pos].
  - rewrite Pos2Z.inj_succ. replace (Z.succ (Z.pos (digits2_pos p)) - 1) with (Z.succ (Z.pos (digits2_pos p) - 1)) by lia.
    rewrite !Z.pow_succ_r by lia. lia.
  - rewrite Pos2Z.inj_succ. replace (Z.succ (Z.pos (digits2_pos p)) - 1) with (Z.succ (Z.pos (digits2_pos p) - 1)) by lia.
    rewrite !Z.pow_succ_r by lia. lia.
  - simpl. lia.
Qed.

Lemma iter_pos_invariant {A} (f : A -> A) (P : Z -> A -> Prop) :
  (forall i x, 0 <= i -> P i x -> P (i + 1) (f x)) ->
  forall p x i, 0 <= i -> P i x -> P (i + Z.pos p) (SpecFloat.iter_pos f p x).
Proof.
  intros step. induction p as [p IH | p IH |]; intros x i Hi Hx; cbn [SpecFloat.iter_pos].
  - replace (i + Z.pos p~1) with (i + 1 + Z.pos p + Z.pos p) by lia.
    apply IH; [lia|]. apply IH; [lia|]. now apply step.
  - replace (i + Z.pos p~0) with (i + Z.pos p + Z.pos p) by lia.
    apply IH; [lia|]. now apply IH.
  - now apply step.
Qed.

Lemma shr_1_shifted M j mrs :
  0 <= M -> 0 <= j -> shifted M j mrs -> shifted M (j + 1) (shr_1 mrs).
Proof.
  intros HM Hj [Hm Hex].
  assert (Hpow : 2 ^ (j + 1) = 2 ^ j * 2) by (rewrite Z.pow_add_r by lia; reflexivity).
  assert (H2j : 0 < 2 ^ j) by (apply Z.pow_pos_nonneg; lia).
  assert (Hdiv : M / 2 ^ (j + 1) = M / 2 ^ j / 2)
    by (rewrite Hpow, Z.div_div by lia; reflexivity).
  assert (Hm0 : 0 <= M / 2 ^ j) by (apply Z.div_pos; lia).
  destruct mrs as [m r s]; cbn [shr_m shr_r shr_s] in *. subst m.
  split.
  - rewrite Hdiv. destruct (M / 2 ^ j) as [|[q|q|]|q];
      cbn [shr_1 shr_m]; try reflexivity; try lia.
    + apply Z.div_unique with 1; lia.
    + apply Z.div_unique with 0; lia.
  - intros Hmod.
    assert (Hmodj : M mod 2 ^ j = 0).
    { rewrite Hpow in Hmod. apply Z.mod_divide in Hmod; [|lia].
      apply Z.mod_divide; [lia|]. destruct Hmod as [k Hk]. exists (k * 2). lia. }
    destruct (Hex Hmodj) as [-> ->].
    assert (Heven : (M / 2 ^ j) mod 2 = 0).
    { rewrite Hpow in Hmod. apply Z.mod_divide in Hmod; [|lia]. destruct Hmod as [k Hk].
      replace M with (k * 2 * 2 ^ j) by lia. rewrite Z.div_mul by lia. apply Z.mod_mul. lia. }
    destruct (M / 2 ^ j) as [|[q|q|]|q]; cbn in *; try (split; reflexivity); try lia.
    + rewrite Pos2Z.inj_xI in Heven. exfalso.
      replace (2 * Z.pos q + 1) with (1 + Z.pos q * 2) in Heven by lia.
      rewrite Z.mod_add in Heven by lia. discriminate.
    + discriminate.
Qed.

Lemma shr_exact_cases M E k :
  0 <= M ->
  (k <= 0 /\ shr (exact_record M) E k = (exact_record M, E)) \/
  (0 < k /\ exists mrs, shr (exact_record M) E k = (mrs, E + k) /\ shifted M k mrs).
Proof.
  intros HM. destruct k as [|p|p].
  - left. split; [lia | reflexivity].
  - right. split; [lia|]. eexists. split; [reflexivity|].
    change (Z.pos p) with (0 + Z.pos p).
    apply (iter_pos_invariant shr_1 (shifted M)).
    + intros i x Hi Hx. now apply shr_1_shifted.
    + lia.
    + split; cbn; [now rewrite Z.div_1_r | auto].
  - left. split; [lia | reflexivity].
Qed.

Lemma round_nearest_even_cases M k mrs :
  shifted M k mrs ->
  let m1 := round_nearest_even (shr_m mrs) (loc_of_shr_record mrs) in
  m1 = M / 2 ^ k \/ (m1 = M / 2 ^ k + 1 /\ M mod 2 ^ k <> 0).
Proof.
  intros [Hm Hex]. destruct mrs as [m r s]; cbn [shr_m shr_r shr_s] in *. subst m.
  destruct (Z.eq_dec (M mod 2 ^ k) 0) as [Hz | Hnz].
  - destruct (Hex Hz) as [-> ->]. left. reflexivity.
  - destruct r, s; cbn; auto. destruct (Z.even _); auto.
Qed.

Lemma digits_exponent_le (m : positive) (e N : Z) :
  e <= 0 -> 0 < N < 2 ^ 53 -> Z.pos m <= N * 2 ^ (- e) ->
  Z.pos (digits2_pos m) + e <= 53.
Proof.
  intros He HN Hm.
  pose proof (digits2_bounds m) as [Hlo _].
  assert (Hp : 0 < 2 ^ (- e)) by (apply Z.pow_pos_nonneg; lia).
  assert (Hlt : 2 ^ (Z.pos (digits2_pos m) - 1) < 2 ^ (53 - e)).
  { replace (53 - e) with (53 + - e) by lia. rewrite Z.pow_add_r by lia. nia. }
  apply Z.pow_lt_mono_r_iff in Hlt; lia.
Qed.

Lemma binary_round_aux_le (M : positive) (E N : Z) :
  E <= 0 -> 0 < N < 2 ^ 53 -> Z.pos M <= N * 2 ^ (- E) ->
  rounded_le (binary_round_aux 53 1024 false (Z.pos M) E loc_Exact) N.
Proof.
  intros HE HN HM.
  unfold binary_round_aux, shr_fexp. cbn [shr_record_of_loc Zdigits2]. std_Z.
  fold (exact_record (Z.pos M)).
  pose proof (digits_exponent_le M E N HE HN HM) as Hd.
  set (k1 := fexp 53 1024 (Z.pos (digits2_pos M) + E) - E).
  assert (Hk1 : E + k1 <= 0 /\ -1074 <= E + k1 /\ (k1 <= 0 -> -1074 <= E)).
  { unfold k1. rewrite fexp64. lia. }
  (* first shift and rounding *)
  assert (Hstep1 : exists mrs e',
             shr (exact_record (Z.pos M)) E k1 = (mrs, e') /\ e' <= 0 /\ -1074 <= e' /\
             0 <= round_nearest_even (shr_m mrs) (loc_of_shr_record mrs) <= N * 2 ^ (- e')).
  { destruct (shr_exact_cases (Z.pos M) E k1) as [[Hle ->] | [Hlt [mrs [-> Hsh]]]]; [lia| |].
    - exists (exact_record (Z.pos M)), E. cbn. repeat split; lia.
    - exists mrs, (E + k1). repeat split; try lia.
      + destruct (round_nearest_even_cases _ _ _ Hsh) as [-> | [-> _]];
          assert (0 <= Z.pos M / 2 ^ k1) by (apply Z.div_pos; [lia | apply Z.pow_pos_nonneg; lia]);
          lia.
      + assert (Hp : 0 < 2 ^ k1) by (apply Z.pow_pos_nonneg; lia).
        assert (Hsplit : N * 2 ^ (- E) = N * 2 ^ (- (E + k1)) * 2 ^ k1).
        { replace (- E) with (- (E + k1) + k1) by lia. rewrite Z.pow_add_r by lia.
          replace (- (E + k1) + k1 - k1) with (- (E + k1)) by lia. ring_simplify. lia. }
        pose proof (Z.div_mod (Z.pos M) (2 ^ k1) ltac:(lia)) as Hdm.
        pose proof (Z.mod_pos_bound (Z.pos M) (2 ^ k1) Hp) as Hmb.
        destruct (round_nearest_even_cases _ _ _ Hsh) as [-> | [-> Hnz]]; nia. }
  destruct Hstep1 as (mrs & e' & -> & He' & He'min & Hm1).
  set (m1 := round_nearest_even (shr_m mrs) (loc_of_shr_record mrs)) in *.
  destruct m1 as [|p1|p1] eqn:Em1; [| |lia].
  - (* rounded to zero *)
    left. cbn [Zdigits2 shr_record_of_loc].
    destruct (shr_exact_cases 0 e' (fexp 53 1024 (0 + e') - e')) as [[_ Hs] | [Hk [r [Hs [Hr _]]]]];
      [lia| |]; unfold exact_record in Hs; rewrite Hs.
    + reflexivity.
    + rewrite Hr, Z.div_0_l; [reflexivity|]. apply Z.pow_nonzero; lia.
  - (* a positive mantissa *)
    cbn [Zdigits2 shr_record_of_loc]. fold (exact_record (Z.pos p1)).
    pose proof (digits_exponent_le p1 e' N He' HN (proj2 Hm1)) as Hd1.
    set (k2 := fexp 53 1024 (Z.pos (digits2_pos p1) + e') - e').
    assert (Hk2 : e' + k2 <= 0) by (unfold k2; rewrite fexp64; lia).
    destruct (shr_exact_cases (Z.pos p1) e' k2) as [[Hle ->] | [Hlt [r [-> [Hr _]]]]]; [lia| |].
    + cbn [shr_m exact_record]. right. exists p1, e'.
      replace (e' <=? 1024 - 53) with true by (symmetry; apply Z.leb_le; lia).
      repeat split; lia.
    + rewrite Hr.
      assert (Hp : 0 < 2 ^ k2) by (apply Z.pow_pos_nonneg; lia).
      assert (Hq : 0 <= Z.pos p1 / 2 ^ k2) by (apply Z.div_pos; lia).
      assert (Hle : Z.pos p1 / 2 ^ k2 <= N * 2 ^ (- (e' + k2))).
      { apply Z.div_le_upper_bound; [lia|].
        replace (- e') with (k2 + - (e' + k2)) in Hm1 by lia.
        rewrite Z.pow_add_r in Hm1 by lia. lia. }
      destruct (Z.pos p1 / 2 ^ k2) as [|p2|p2] eqn:E2; [now left | | lia].
      right. exists p2, (e' + k2).
      replace (e' + k2 <=? 1024 - 53) with true by (symmetry; apply Z.leb_le; lia).
      repeat split; lia.
Qed.


(* ===================================================================== *)
(** * Binary64 day arithmetic: the doubles are the integers of the model  *)
(* ===================================================================== *)

Lemma binary_round_aux_finish s m e l :
  binary_round_aux 53 1024 s m e l =
  let '(mrs, e') := shr_fexp 53 1024 m e l in
  finish s (round_nearest_even (shr_m mrs) (loc_of_shr_record mrs)) e'.
Proof. unfold binary_round_aux, finish. destruct (shr_fexp 53 1024 m e l). reflexivity. Qed.

Lemma iter_xO_value (p n : positive) :
  Z.pos (PosDef.Pos.iter xO p n) = Z.pos p * 2 ^ Z.pos n.
Proof.
  change (PosDef.Pos.iter xO p n) with (Pos.iter xO p n).
  induction n as [|n IH] using Pos.peano_ind.
  - cbn. lia.
  - rewrite Pos.iter_succ, Pos2Z.inj_xO, IH, Pos2Z.inj_succ, Z.pow_succ_r by lia. lia.
Qed.

Lemma digits_unique (p : positive) (d : Z) :
  2 ^ (d - 1) <= Z.pos p < 2 ^ d -> Z.pos (digits2_pos p) = d.
Proof.
  intros [Hlo Hhi]. pose proof (digits2_bounds p) as [Hlo' Hhi'].
  assert (0 < d).
  { destruct (Z.lt_ge_cases 0 d) as [|Hd]; [assumption|].
    destruct (Z.eq_dec d 0) as [->|]; [cbn in Hhi; lia|].
    rewrite (Z.pow_neg_r 2 d) in Hhi by lia. lia. }
  assert (d - 1 < Z.pos (digits2_pos p)) by (apply (Z.pow_lt_mono_r_iff 2); lia).
  assert (Z.pos (digits2_pos p) - 1 < d) by (apply (Z.pow_lt_mono_r_iff 2); lia).
  lia.
Qed.

(** A mantissa of exactly 53 bits with an exponent in range is left alone. *)
Lemma finish_canonical (s : bool) (M : positive) (E : Z) :
  Z.pos (digits2_pos M) = 53 -> -1074 <= E <= 971 ->
  finish s (Z.pos M) E = S754_finite s M E.
Proof.
  intros Hd HE. unfold finish, shr_fexp.
  cbn [shr_record_of_loc Zdigits2]. std_Z. rewrite Hd, fexp64.
  replace (Z.max (53 + E - 53) (-1074) - E) with 0 by lia.
  cbn [shr shr_m].
  replace (E <=? 1024 - 53) with true by (symmetry; apply Z.leb_le; lia).
  reflexivity.
Qed.

Lemma binary_round_aux_canonical (s : bool) (M : positive) (E : Z) :
  Z.pos (digits2_pos M) = 53 -> -1074 <= E <= 971 ->
  binary_round_aux 53 1024 s (Z.pos M) E loc_Exact = S754_finite s M E.
Proof.
  intros Hd HE. rewrite binary_round_aux_finish. unfold shr_fexp.
  cbn [shr_record_of_loc Zdigits2]. std_Z. rewrite Hd, fexp64.
  replace (Z.max (53 + E - 53) (-1074) - E) with 0 by lia.
  cbn [shr shr_m loc_of_shr_record round_nearest_even].
  now apply finish_canonical.
Qed.

Lemma pow2_split (a b : Z) : 0 <= a -> 0 <= b -> 2 ^ (a + b) = 2 ^ a * 2 ^ b.
Proof. intros. now rewrite Z.pow_add_r. Qed.

Lemma digits_scaled (p v : positive) (n : Z) :
  0 <= n -> Z.pos p = Z.pos v * 2 ^ n ->
  Z.pos (digits2_pos p) = Z.pos (digits2_pos v) + n.
Proof.
  intros Hn Hp. pose proof (digits2_bounds v) as [Hlo Hhi].
  assert (H2n : 0 < 2 ^ n) by (apply Z.pow_pos_nonneg; lia).
  apply digits_unique. rewrite Hp.
  replace (Z.pos (digits2_pos v) + n - 1) with ((Z.pos (digits2_pos v) - 1) + n) by lia.
  rewrite !pow2_split by lia. split.
  - apply Z.mul_le_mono_nonneg_r; lia.
  - apply Z.mul_lt_mono_pos_r; lia.
Qed.

Lemma digits_le_53 (v : positive) : Z.pos v < 2 ^ 53 -> Z.pos (digits2_pos v) <= 53.
Proof.
  intros Hv. pose proof (digits2_bounds v) as [Hlo _].
  assert (Z.pos (digits2_pos v) - 1 < 53) by (apply (Z.pow_lt_mono_r_iff 2); lia). lia.
Qed.

Lemma canon_digits (v : positive) :
  Z.pos v < 2 ^ 53 ->
  let d := Z.pos (digits2_pos v) in
  d <= 53 /\
  Z.pos (Z.to_pos (Z.pos v * 2 ^ (53 - d))) = Z.pos v * 2 ^ (53 - d) /\
  Z.pos (digits2_pos (Z.to_pos (Z.pos v * 2 ^ (53 - d)))) = 53.
Proof.
  intros Hv d. pose proof (digits_le_53 v Hv) as Hd. fold d in Hd.
  assert (Hp : 0 < 2 ^ (53 - d)) by (apply Z.pow_pos_nonneg; lia).
  assert (Hm : Z.pos (Z.to_pos (Z.pos v * 2 ^ (53 - d))) = Z.pos v * 2 ^ (53 - d))
    by (apply Z2Pos.id; lia).
  split; [exact Hd|]. split; [exact Hm|].
  rewrite (digits_scaled _ v (53 - d)) by (assumption || lia). fold d. lia.
Qed.

(** Rounding a mantissa and exponent that spell an integer below 2^53
    yields the representation of that integer. *)
Lemma binary_round_exact (s : bool) (p v : positive) (e : Z) :
  e <= 0 -> Z.pos v < 2 ^ 53 -> Z.pos p = Z.pos v * 2 ^ (- e) ->
  binary_round 53 1024 s p e = canon s v.
Proof.
  intros He Hv Hp.
  pose proof (canon_digits v Hv) as (Hd & Hm & Hmd). cbv zeta in *.
  pose proof (digits2_bounds v) as [Hlo Hhi].
  set (d := Z.pos (digits2_pos v)) in *.
  assert (H2e : 0 < 2 ^ (- e)) by (apply Z.pow_pos_nonneg; lia).
  assert (Hdp : Z.pos (digits2_pos p) = d - e).
  { rewrite (digits_scaled p v (- e)) by (assumption || lia). fold d. lia. }
  unfold binary_round, canon. fold d. std_Z. rewrite Hdp, fexp64.
  replace (Z.max (d - e + e - 53) (-1074)) with (d - 53) by (unfold d; lia).
  unfold shl_align. std_Z.
  destruct (d - 53 - e) as [|k|k] eqn:Ek.
  - (* already aligned *)
    replace e with (d - 53) in * by lia.
    replace p with (Z.to_pos (Z.pos v * 2 ^ (53 - d))).
    + apply binary_round_aux_canonical; [assumption | unfold d; lia].
    + apply Pos2Z.inj. rewrite Hm, Hp. f_equal. f_equal. lia.
  - (* more than 53 bits: the right shift loses nothing *)
    rewrite binary_round_aux_finish. unfold shr_fexp. cbn [shr_record_of_loc Zdigits2]. std_Z.
    rewrite Hdp, fexp64.
    replace (Z.max (d - e + e - 53) (-1074) - e) with (Z.pos k) by (unfold d in *; lia).
    fold (exact_record (Z.pos p)).
    destruct (shr_exact_cases (Z.pos p) e (Z.pos k) ltac:(lia)) as [[Hle _] | [_ [mrs [-> Hsh]]]];
      [lia|].
    assert (Hpk : Z.pos p = Z.pos v * 2 ^ (53 - d) * 2 ^ Z.pos k).
    { rewrite Hp, <- Z.mul_assoc, <- pow2_split by lia. f_equal. f_equal. lia. }
    assert (H2k : 0 < 2 ^ Z.pos k) by (apply Z.pow_pos_nonneg; lia).
    assert (Hmod : Z.pos p mod 2 ^ Z.pos k = 0) by (rewrite Hpk; apply Z.mod_mul; lia).
    assert (Hdiv : Z.pos p / 2 ^ Z.pos k = Z.pos v * 2 ^ (53 - d))
      by (rewrite Hpk; apply Z.div_mul; lia).
    destruct (round_nearest_even_cases _ _ _ Hsh) as [Hr | [_ Hnz]]; [|contradiction].
    rewrite Hr, Hdiv, <- Hm.
    replace (e + Z.pos k) with (d - 53) by lia.
    apply finish_canonical; [assumption | unfold d; lia].
  - (* fewer than 53 bits: shift left *)
    replace (Z.to_pos (Z.pos v * 2 ^ (53 - d))) with (PosDef.Pos.iter xO p k).
    + apply binary_round_aux_canonical; [|unfold d; lia].
      replace (PosDef.Pos.iter xO p k) with (Z.to_pos (Z.pos v * 2 ^ (53 - d))); [assumption|].
      apply Pos2Z.inj. rewrite Hm, iter_xO_value, Hp, <- Z.mul_assoc, <- pow2_split by lia.
      f_equal. f_equal. lia.
    + apply Pos2Z.inj. rewrite Hm, iter_xO_value, Hp, <- Z.mul_assoc, <- pow2_split by lia.
      f_equal. f_equal. lia.
Qed.

(** The Number of an integer of magnitude below 2^53 is exact. *)
Lemma of_Z_pos (v : positive) : Z.pos v < 2 ^ 53 -> Number.of_Z (Z.pos v) = canon false v.
Proof.
  intros Hv. unfold Number.of_Z, binary_normalize.
  apply binary_round_exact; [lia | assumption | cbn; lia].
Qed.

Lemma of_Z_neg (v : positive) : Z.pos v < 2 ^ 53 -> Number.of_Z (Z.neg v) = canon true v.
Proof.
  intros Hv. unfold Number.of_Z, binary_normalize.
  apply binary_round_exact; [lia | assumption | cbn; lia].
Qed.
Lemma shl_align_value (m : positive) (e e' : Z) :
  e' <= e -> Z.pos (fst (shl_align m e e')) = Z.pos m * 2 ^ (e - e').
Proof.
  intros He. unfold shl_align. destruct (e' - e) as [|k|k] eqn:Ek; cbn [fst]; [|lia|].
  - replace (e - e') with 0 by lia. lia.
  - rewrite iter_xO_value. f_equal. f_equal. lia.
Qed.

Lemma normalize_exact (M e z : Z) :
  e <= 0 -> Z.abs z < 2 ^ 53 -> M = z * 2 ^ (- e) ->
  binary_normalize 53 1024 M e false = Number.of_Z z.
Proof.
  intros He Hz HM.
  assert (H2e : 0 < 2 ^ (- e)) by (apply Z.pow_pos_nonneg; lia).
  destruct z as [|v|v].
  - subst M. reflexivity.
  - rewrite of_Z_pos by lia. destruct M as [|p|p]; [lia| |lia].
    cbn [binary_normalize]. apply binary_round_exact; [assumption | lia | lia].
  - rewrite of_Z_neg by lia. destruct M as [|p|p]; [lia|lia|].
    cbn [binary_normalize]. apply binary_round_exact; [assumption | lia | lia].
Qed.

Lemma sub_canon (sb sa : bool) (vb va : positive) :
  Z.pos vb < 2 ^ 53 -> Z.pos va < 2 ^ 53 ->
  Z.abs (cond_Zopp sb (Z.pos vb) - cond_Zopp sa (Z.pos va)) < 2 ^ 53 ->
  Number.sub (canon sb vb) (canon sa va) =
  Number.of_Z (cond_Zopp sb (Z.pos vb) - cond_Zopp sa (Z.pos va)).
Proof.
  intros Hb Ha Hd.
  pose proof (canon_digits vb Hb) as (Hdb & Hmb & _).
  pose proof (canon_digits va Ha) as (Hda & Hma & _). cbv zeta in *.
  unfold Number.sub, canon, SFsub. cbv zeta. std_Z.
  set (db := Z.pos (digits2_pos vb)) in *. set (da := Z.pos (digits2_pos va)) in *.
  set (ez := Z.min (db - 53) (da - 53)).
  assert (H1 : 0 < db) by (unfold db; lia). assert (H2 : 0 < da) by (unfold da; lia).
  apply normalize_exact; [lia | assumption |].
  rewrite !shl_align_value, Hmb, Hma by lia.
  assert (Eb : 2 ^ (53 - db) * 2 ^ (db - 53 - ez) = 2 ^ (- ez))
    by (rewrite <- pow2_split by lia; f_equal; lia).
  assert (Ea : 2 ^ (53 - da) * 2 ^ (da - 53 - ez) = 2 ^ (- ez))
    by (rewrite <- pow2_split by lia; f_equal; lia).
  rewrite <- !Z.mul_assoc, Eb, Ea.
  destruct sb, sa; cbn [cond_Zopp]; lia.
Qed.

(** Subtraction of two integral Numbers is exact while the operands and
    the difference stay below 2^53 in magnitude. *)
Lemma sub_exact (a b : Z) :
  Z.abs a < 2 ^ 53 -> Z.abs b < 2 ^ 53 -> Z.abs (b - a) < 2 ^ 53 ->
  Number.sub (Number.of_Z b) (Number.of_Z a) = Number.of_Z (b - a).
Proof.
  intros Ha Hb Hd. destruct a as [|va|va], b as [|vb|vb];
    rewrite ?of_Z_pos, ?of_Z_neg by lia;
    try reflexivity.
  - rewrite Z.sub_0_r, of_Z_pos by lia. reflexivity.
  - rewrite Z.sub_0_r, of_Z_neg by lia. reflexivity.
  - change (0 - Z.pos va) with (Z.neg va). rewrite of_Z_neg by lia. reflexivity.
  - apply (sub_canon false false); cbn [cond_Zopp]; lia.
  - apply (sub_canon true false); cbn [cond_Zopp]; lia.
  - change (0 - Z.neg va) with (Z.pos va). rewrite of_Z_pos by lia. reflexivity.
  - apply (sub_canon false true); cbn [cond_Zopp]; lia.
  - apply (sub_canon true true); cbn [cond_Zopp]; lia.
Qed.
Lemma shr_1_located X W j mrs :
  0 <= X -> 0 < W -> 0 <= j ->
  located X (W * 2 ^ j) mrs -> located X (W * 2 ^ (j + 1)) (shr_1 mrs).
Proof.
  intros HX HW Hj [Hm Hloc].
  assert (H2j : 0 < 2 ^ j) by (apply Z.pow_pos_nonneg; lia).
  rewrite pow2_split by lia. change (2 ^ 1) with 2. rewrite Z.mul_assoc.
  set (T := W * 2 ^ j) in *. assert (HT : 0 < T) by (unfold T; nia).
  pose proof (Z.mod_pos_bound X T HT) as HR.
  assert (HQ : 0 <= X / T) by (apply Z.div_pos; lia).
  assert (Hdiv : X / (T * 2) = X / T / 2) by (rewrite Z.div_div by lia; reflexivity).
  assert (Hmod : X mod (T * 2) = X mod T + T * ((X / T) mod 2))
    by (apply Z.rem_mul_r; lia).
  pose proof (Z.div_mod (X / T) 2 ltac:(lia)) as Hdm.
  pose proof (Z.mod_pos_bound (X / T) 2 ltac:(lia)) as Hmb.
  set (R := X mod T) in *. set (Q := X / T) in *.
  destruct mrs as [m r s]; cbn [shr_m shr_r shr_s] in *. subst m.
  unfold located. rewrite Hdiv, Hmod.
  destruct Q as [|[p|p|]|p] eqn:EQ; [| | | |lia]; cbn [shr_1 shr_m shr_r shr_s].
  - change (0 mod 2) with 0. change (0 / 2) with 0.
    split; [reflexivity|]. destruct r, s; cbn [orb]; lia.
  - assert (E1 : Z.pos p~1 mod 2 = 1) by lia. assert (E2 : Z.pos p~1 / 2 = Z.pos p) by lia.
    rewrite E1, E2. split; [reflexivity|]. destruct r, s; cbn [orb]; lia.
  - assert (E1 : Z.pos p~0 mod 2 = 0) by lia. assert (E2 : Z.pos p~0 / 2 = Z.pos p) by lia.
    rewrite E1, E2. split; [reflexivity|]. destruct r, s; cbn [orb]; lia.
  - change (1 mod 2) with 1. change (1 / 2) with 0.
    split; [reflexivity|]. destruct r, s; cbn [orb]; lia.
Qed.

Lemma shr_located X W mrs e k :
  0 <= X -> 0 < W -> located X W mrs ->
  (k <= 0 /\ shr mrs e k = (mrs, e)) \/
  (0 < k /\ exists mrs', shr mrs e k = (mrs', e + k) /\ located X (W * 2 ^ k) mrs').
Proof.
  intros HX HW Hl. destruct k as [|p|p].
  - left. split; [lia | reflexivity].
  - right. split; [lia|]. eexists. split; [reflexivity|].
    change (Z.pos p) with (0 + Z.pos p).
    apply (iter_pos_invariant shr_1 (fun i x => located X (W * 2 ^ i) x)).
    + intros i x Hi Hx. now apply shr_1_located.
    + lia.
    + now rewrite Z.mul_1_r.
  - left. split; [lia | reflexivity].
Qed.

Lemma new_location_located X W :
  0 <= X -> 0 < W -> Z.even W = true ->
  located X W (shr_record_of_loc (X / W) (new_location W (X mod W))).
Proof.
  intros HX HW Heven. pose proof (Z.mod_pos_bound X W HW) as HR.
  unfold new_location. change IntDef.Z.even with Z.even. rewrite Heven.
  unfold new_location_even.
  destruct (Z.eqb_spec (X mod W) 0) as [E | E].
  - split; [reflexivity|]. exact E.
  - destruct (Z.compare_spec (2 * (X mod W)) W) as [C | C | C];
      (split; [reflexivity|]); cbn [shr_record_of_loc shr_r shr_s]; lia.
Qed.

(** Round to nearest: the rounded quotient is within half a unit. *)
Lemma round_located X W mrs :
  0 < W -> located X W mrs ->
  let mr := round_nearest_even (shr_m mrs) (loc_of_shr_record mrs) in
  X / W <= mr <= X / W + 1 /\
  (X mod W = 0 -> mr = X / W) /\
  2 * (mr * W - X) <= W /\ 2 * (X - mr * W) <= W.
Proof.
  intros HW [Hm Hloc]. pose proof (Z.mod_pos_bound X W HW) as HR.
  pose proof (Z.div_mod X W ltac:(lia)) as Hdm.
  destruct mrs as [m r s]; cbn [shr_m shr_r shr_s] in *. subst m.
  set (Q := X / W) in *. set (R := X mod W) in *.
  destruct r, s; cbn [loc_of_shr_record round_nearest_even]; cbv zeta;
    try change IntDef.Z.even with Z.even; try destruct (Z.even Q);
    (split; [lia|]); (split; [lia|]); nia.
Qed.
(** Renormalising a rounded mantissa of 53 bits, or 2^53 after a carry. *)
Lemma finish_cases (s : bool) (mr e : Z) :
  2 ^ 52 <= mr <= 2 ^ 53 -> -1074 <= e <= 970 ->
  exists m t, finish s mr e = S754_finite s m (e + t) /\
              0 <= t <= 1 /\ Z.pos m * 2 ^ t = mr.
Proof.
  intros Hmr He. destruct mr as [|p|p]; [lia| |lia].
  destruct (Z.eq_dec (Z.pos p) (2 ^ 53)) as [E | E].
  - assert (Hp : p = 9007199254740992%positive) by (apply Pos2Z.inj; rewrite E; reflexivity).
    subst p. exists 4503599627370496%positive, 1. split; [|split; [lia | reflexivity]].
    unfold finish, shr_fexp. cbn [Zdigits2]. std_Z.
    change (Z.pos (digits2_pos 9007199254740992)) with 54. rewrite fexp64.
    replace (Z.max (54 + e - 53) (-1074) - e) with 1 by lia.
    cbn [shr shr_record_of_loc SpecFloat.iter_pos].
    change (shr_m (shr_1 {| shr_m := 9007199254740992; shr_r := false; shr_s := false |}))
      with 4503599627370496.
    replace (e + 1 <=? 1024 - 53) with true by (symmetry; apply Z.leb_le; lia).
    reflexivity.
  - exists p, 0. split; [|split; [lia | lia]]. rewrite Z.add_0_r.
    apply finish_canonical; [|lia]. apply digits_unique. lia.
Qed.

Lemma div_core (m1 m2 : positive) (e1 e2 : Z) :
  Z.pos (digits2_pos m1) = 53 -> Z.pos (digits2_pos m2) = 53 ->
  -1000 <= e1 - e2 <= 1000 ->
  SFdiv_core_binary 53 1024 (Z.pos m1) e1 (Z.pos m2) e2 =
  (Z.pos m1 * 2 ^ 53 / Z.pos m2, e1 - e2 - 53,
   new_location (Z.pos m2) ((Z.pos m1 * 2 ^ 53) mod Z.pos m2)).
Proof.
  intros H1 H2 He. unfold SFdiv_core_binary. cbn [Zdigits2]. rewrite H1, H2. std_Z.
  rewrite fexp64.
  replace (Z.min (Z.max (53 + e1 - (53 + e2) - 53) (-1074)) (e1 - e2)) with (e1 - e2 - 53) by lia.
  replace (e1 - e2 - (e1 - e2 - 53)) with 53 by lia. cbv beta iota zeta.
  change (IntDef.Z.shiftl (Z.pos m1) 53) with (Z.shiftl (Z.pos m1) 53).
  rewrite Z.shiftl_mul_pow2 by lia.
  change IntDef.Z.div_eucl with Z.div_eucl.
  unfold Z.div, Z.modulo.
  destruct (Z.div_eucl (Z.pos m1 * 2 ^ 53) (Z.pos m2)) as [q r]. reflexivity.
Qed.
Lemma day_divisor : Number.of_Z 86400000 = S754_finite false 5798205849600000 (-26).
Proof. reflexivity. Qed.

(** A quotient by 86400000 that is rounded to nearest at a spacing of
    at most 2^-26 stays strictly between the neighbouring integers. *)
Lemma nearest_days (v P mr : Z) :
  0 < v -> 2 ^ 26 <= P ->
  2 * (mr * 86400000 - v * P) <= 86400000 ->
  2 * (v * P - mr * 86400000) <= 86400000 ->
  (v mod 86400000 = 0 -> mr = v / 86400000 * P) ->
  (v mod 86400000 = 0 /\ mr = v / 86400000 * P) \/
  (v mod 86400000 <> 0 /\ v / 86400000 * P < mr < (v / 86400000 + 1) * P).
Proof.
  intros Hv HP Hup Hdown Hexact.
  pose proof (Z.div_mod v 86400000 ltac:(lia)) as Hdm.
  pose proof (Z.mod_pos_bound v 86400000 ltac:(lia)) as Hmb.
  set (k := v / 86400000) in *. set (r := v mod 86400000) in *.
  destruct (Z.eq_dec r 0) as [E | E]; [left; auto|]. right. split; [assumption|].
  assert (HP' : 67108864 <= P) by exact HP.
  assert (H1 : P <= r * P) by nia.
  assert (H2 : r * P <= 86399999 * P) by nia.
  assert (H3 : v * P = 86400000 * (k * P) + r * P) by (rewrite Hdm; ring).
  lia.
Qed.

(** Division of a non-zero integral Number below 2^53 by the length of a
    day: the quotient's integer part is the integer quotient. *)
Lemma div_days (s : bool) (v : positive) :
  Z.pos v < 2 ^ 53 ->
  exists m e,
    Number.div (canon s v) (Number.of_Z 86400000) = S754_finite s m e /\ e < 0 /\
    ((Z.pos v mod 86400000 = 0 /\ Z.pos m = Z.pos v / 86400000 * 2 ^ (- e)) \/
     (Z.pos v mod 86400000 <> 0 /\
      Z.pos v / 86400000 * 2 ^ (- e) < Z.pos m < (Z.pos v / 86400000 + 1) * 2 ^ (- e))).
Proof.
  intros Hv. rewrite day_divisor.
  pose proof (canon_digits v Hv) as (Hd & Hm & Hmd). cbv zeta in Hd, Hm, Hmd.
  unfold canon, Number.div, SFdiv, Number.prec, Number.emax.
  set (d := Z.pos (digits2_pos v)) in *.
  assert (Hd0 : 0 < d) by (unfold d; lia).
  set (m1 := Z.to_pos (Z.pos v * 2 ^ (53 - d))) in *.
  rewrite (div_core m1 5798205849600000 (d - 53) (-26)) by (assumption || reflexivity || lia).
  cbv beta iota. rewrite xorb_false_r, binary_round_aux_finish.
  set (W := Z.pos 5798205849600000). set (X := Z.pos m1 * 2 ^ 53).
  set (e' := d - 53 - -26 - 53).
  assert (HW : 0 < W) by reflexivity.
  assert (HWlo : 2 ^ 52 < W) by reflexivity.
  assert (HWhi : W < 2 ^ 53) by reflexivity.
  assert (HX : 0 <= X) by (unfold X; lia).
  pose proof (digits2_bounds m1) as Hm1. rewrite Hmd in Hm1.
  assert (Hq : 2 ^ 52 <= X / W < 2 ^ 54).
  { split.
    - apply Z.div_le_lower_bound; [lia|]. unfold X. nia.
    - apply Z.div_lt_upper_bound; [lia|]. unfold X. nia. }
  pose proof (new_location_located X W HX HW eq_refl) as Hloc.
  destruct (X / W) as [|q|q] eqn:EQ; [lia| |lia].
  unfold shr_fexp. cbn [Zdigits2]. std_Z. rewrite fexp64.
  (* the value of the quotient in final units *)
  assert (HXv : X = Z.pos v * 2 ^ (106 - d)).
  { unfold X. rewrite Hm, <- Z.mul_assoc, <- pow2_split by lia. f_equal. f_equal. lia. }
  assert (Hcore : forall sh mrs,
             0 <= sh <= 1 -> located X (W * 2 ^ sh) mrs ->
             2 ^ 52 <= X / (W * 2 ^ sh) < 2 ^ 53 ->
             exists m e,
               finish s (round_nearest_even (shr_m mrs) (loc_of_shr_record mrs)) (e' + sh) =
               S754_finite s m e /\ e < 0 /\
               ((Z.pos v mod 86400000 = 0 /\ Z.pos m = Z.pos v / 86400000 * 2 ^ (- e)) \/
                (Z.pos v mod 86400000 <> 0 /\
                 Z.pos v / 86400000 * 2 ^ (- e) < Z.pos m < (Z.pos v / 86400000 + 1) * 2 ^ (- e)))).
  { intros sh mrs Hsh Hl HqT.
    set (T := W * 2 ^ sh) in *.
    assert (H2sh : 0 < 2 ^ sh) by (apply Z.pow_pos_nonneg; lia).
    assert (HT : 0 < T) by (unfold T; nia).
    destruct (round_located X T mrs HT Hl) as (Hrange & Hexact & Hup & Hdown).
    set (mr := round_nearest_even (shr_m mrs) (loc_of_shr_record mrs)) in *.
    destruct (finish_cases s mr (e' + sh)) as (m & t & -> & Ht & Hmt); [lia | unfold e'; lia |].
    exists m, (e' + sh + t). split; [reflexivity|]. split; [unfold e'; lia|].
    set (P1 := 2 ^ (80 - d - sh)).
    assert (HP1 : 2 ^ 26 <= P1) by (apply Z.pow_le_mono_r; lia).
    assert (HXD : X * 86400000 = Z.pos v * P1 * T).
    { rewrite HXv. unfold P1, T, W.
      change (Z.pos 5798205849600000) with (86400000 * 2 ^ 26).
      replace (106 - d) with ((80 - d - sh) + (26 + sh)) by lia.
      rewrite (pow2_split (80 - d - sh)), (pow2_split 26 sh) by lia. ring. }
    assert (Hnear : (Z.pos v mod 86400000 = 0 /\ mr = Z.pos v / 86400000 * P1) \/
                    (Z.pos v mod 86400000 <> 0 /\
                     Z.pos v / 86400000 * P1 < mr < (Z.pos v / 86400000 + 1) * P1)).
    { apply nearest_days; [lia | assumption | | |].
      - apply (Z.mul_le_mono_pos_r _ _ T); lia.
      - apply (Z.mul_le_mono_pos_r _ _ T); lia.
      - intros Hz.
        pose proof (Z.div_mod (Z.pos v) 86400000 ltac:(lia)) as Hdm. rewrite Hz in Hdm.
        assert (HXT : X = Z.pos v / 86400000 * P1 * T) by lia.
        rewrite Hexact; rewrite HXT; [apply Z.div_mul | apply Z.mod_mul]; lia. }
    assert (HP : P1 = 2 ^ (- (e' + sh + t)) * 2 ^ t).
    { unfold P1, e'. rewrite <- pow2_split by lia. f_equal. lia. }
    set (P := 2 ^ (- (e' + sh + t))) in *.
    assert (Ht' : t = 0 \/ t = 1) by lia.
    destruct Ht' as [-> | ->]; [change (2 ^ 0) with 1 in * | change (2 ^ 1) with 2 in *];
      destruct Hnear as [[Hz Hn] | [Hz Hn]]; [left | right | left | right];
      (split; [assumption | lia]). }
  set (rec0 := shr_record_of_loc (Z.pos q) (new_location W (X mod W))) in *.
  destruct (shr_located X W rec0 e' (Z.max (Z.pos (digits2_pos q) + e' - 53) (-1074) - e')
              HX HW Hloc) as [[Hle ->] | [Hlt [mrs' [-> Hl']]]].
  - (* the quotient has 53 bits *)
    pose proof (digits2_bounds q) as Hdq.
    assert (Hdq53 : Z.pos (digits2_pos q) <= 53) by (unfold e' in Hle; lia).
    assert (Hq53 : Z.pos q < 2 ^ 53).
    { eapply Z.lt_le_trans; [apply Hdq | apply Z.pow_le_mono_r; lia]. }
    replace e' with (e' + 0) by lia. apply Hcore; [lia | | ].
    + now rewrite Z.mul_1_r.
    + rewrite Z.mul_1_r, EQ. lia.
  - (* 54 bits: one bit is shifted out *)
    pose proof (digits2_bounds q) as Hdq.
    assert (Hdq54 : Z.pos (digits2_pos q) = 54).
    { assert (Z.pos (digits2_pos q) - 1 < 54) by (apply (Z.pow_lt_mono_r_iff 2); lia).
      unfold e' in Hlt. lia. }
    rewrite Hdq54 in *.
    replace (Z.max (54 + e' - 53) (-1074) - e') with 1 in * by (unfold e'; lia).
    apply Hcore; [lia | assumption |].
    change (2 ^ 1) with 2. rewrite <- Z.div_div, EQ by lia.
    change (54 - 1) with 53 in Hdq.
    split.
    + apply Z.div_le_lower_bound; lia.
    + apply Z.div_lt_upper_bound; lia.
Qed.

Lemma to_int_canon (s : bool) (v : positive) :
  Z.pos v < 2 ^ 53 ->
  Number.ToIntegerOrInfinity (canon s v) = Number.Int (if s then Z.neg v else Z.pos v).
Proof.
  intros Hv. pose proof (canon_digits v Hv) as (Hd & Hm & _). cbv zeta in Hd, Hm.
  unfold canon, Number.ToIntegerOrInfinity. rewrite Hm.
  set (d := Z.pos (digits2_pos v)) in *.
  assert (Hmag : (if 0 <=? d - 53 then Z.pos v * 2 ^ (53 - d) * 2 ^ (d - 53)
                  else Z.pos v * 2 ^ (53 - d) / 2 ^ (- (d - 53))) = Z.pos v).
  { destruct (Z.leb_spec 0 (d - 53)).
    - replace (d - 53) with 0 by lia. replace (53 - d) with 0 by lia. cbn. lia.
    - replace (- (d - 53)) with (53 - d) by lia. apply Z.div_mul.
      apply Z.pow_nonzero; lia. }
  rewrite Hmag. destruct s; reflexivity.
Qed.

Lemma to_int_of_Z (z : Z) :
  Z.abs z < 2 ^ 53 -> Number.ToIntegerOrInfinity (Number.of_Z z) = Number.Int z.
Proof.
  intros Hz. destruct z as [|v|v].
  - reflexivity.
  - rewrite of_Z_pos by lia. now apply (to_int_canon false).
  - rewrite of_Z_neg by lia. now apply (to_int_canon true).
Qed.

Lemma floor_to_int (s : bool) (m : positive) (e : Z) :
  Z.abs (Number.floor_Z s m e) < 2 ^ 53 ->
  Number.ToIntegerOrInfinity (Number.Math_floor (S754_finite s m e)) =
  Number.Int (Number.floor_Z s m e).
Proof.
  intros Hz. unfold Number.Math_floor.
  destruct (Number.floor_Z s m e) as [|z|z] eqn:E; [reflexivity| |]; now apply to_int_of_Z.
Qed.

Lemma ceil_to_int (s : bool) (m : positive) (e : Z) :
  Z.abs (Number.ceil_Z s m e) < 2 ^ 53 ->
  Number.ToIntegerOrInfinity (Number.Math_ceil (S754_finite s m e)) =
  Number.Int (Number.ceil_Z s m e).
Proof.
  intros Hz. unfold Number.Math_ceil.
  destruct (Number.ceil_Z s m e) as [|z|z] eqn:E; [reflexivity| |]; now apply to_int_of_Z.
Qed.

Lemma quotient_exact (m P k : Z) :
  0 < P -> m = k * P -> m / P = k /\ (- m) / P = - k.
Proof.
  intros HP ->. split.
  - apply Z.div_mul. lia.
  - replace (- (k * P)) with (- k * P) by ring. apply Z.div_mul. lia.
Qed.

Lemma quotient_between (m P k : Z) :
  0 < P -> k * P < m < (k + 1) * P -> m / P = k /\ (- m) / P = - (k + 1).
Proof.
  intros HP Hm. split; symmetry.
  - apply Z.div_unique with (m - k * P); lia.
  - apply Z.div_unique with ((k + 1) * P - m); lia.
Qed.

Lemma day_quotients (v : positive) :
  0 <= Z.pos v / 86400000 <= Z.pos v /\
  (Z.pos v mod 86400000 = 0 -> Z.neg v / 86400000 = - (Z.pos v / 86400000)) /\
  (Z.pos v mod 86400000 <> 0 ->
   Z.neg v / 86400000 = - (Z.pos v / 86400000 + 1) /\ Z.pos v / 86400000 < Z.pos v).
Proof. Z.div_mod_to_equations. lia. Qed.

(** The integer parts of the quotient of a non-zero integral Number by the
    length of a day. *)
Lemma days_floor_Z (s : bool) (v : positive) :
  Z.pos v < 2 ^ 53 ->
  exists m e,
    Number.div (canon s v) (Number.of_Z 86400000) = S754_finite s m e /\
    let z := if s then Z.neg v else Z.pos v in
    Number.floor_Z s m e = z / 86400000 /\
    Number.ceil_Z s m e = - ((- z) / 86400000).
Proof.
  intros Hv. destruct (div_days s v Hv) as (m & e & Hdiv & He & Hc).
  exists m, e. split; [exact Hdiv|]. cbv zeta.
  assert (HP : 0 < 2 ^ (- e)) by (apply Z.pow_pos_nonneg; lia).
  assert (Hfl : Number.floor_Z s m e = (if s then - Z.pos m else Z.pos m) / 2 ^ (- e)).
  { unfold Number.floor_Z. destruct (Z.leb_spec 0 e); [lia|]. destruct s; reflexivity. }
  assert (Hce : Number.ceil_Z s m e = - ((if s then Z.pos m else - Z.pos m) / 2 ^ (- e))).
  { unfold Number.ceil_Z. destruct (Z.leb_spec 0 e); [lia|]. destruct s; reflexivity. }
  destruct (day_quotients v) as (Hk & Hex & Hin).
  rewrite Hfl, Hce.
  destruct Hc as [[Hz0 Hm] | [Hz0 Hm]].
  - destruct (quotient_exact _ _ _ HP Hm) as [E1 E2].
    destruct s; [change (- Z.neg v) with (Z.pos v) | change (- Z.pos v) with (Z.neg v)];
      rewrite E1, E2, (Hex Hz0); lia.
  - destruct (quotient_between _ _ _ HP Hm) as [E1 E2]. destruct (Hin Hz0) as [Hneg _].
    destruct s; [change (- Z.neg v) with (Z.pos v) | change (- Z.pos v) with (Z.neg v)];
      rewrite E1, E2, Hneg; lia.
Qed.

Lemma day_quotient_bounds (z : Z) :
  Z.abs (z / 86400000) <= Z.abs z /\ Z.abs (- ((- z) / 86400000)) <= Z.abs z.
Proof. Z.div_mod_to_equations. lia. Qed.

(** [Math.floor] and [Math.ceil] of the quotient of an integral Number by
    the length of a day are the floor and the ceiling of the integer
    quotient. *)
Lemma days_floor_ceil (z : Z) :
  Z.abs z < 2 ^ 53 ->
  let q := Number.div (Number.of_Z z) (Number.of_Z 86400000) in
  Number.ToIntegerOrInfinity (Number.Math_floor q) = Number.Int (z / 86400000) /\
  Number.ToIntegerOrInfinity (Number.Math_ceil q) = Number.Int (- ((- z) / 86400000)).
Proof.
  intros Hz q. subst q. pose proof (day_quotient_bounds z) as [Hb1 Hb2].
  destruct z as [|v|v].
  - split; reflexivity.
  - rewrite of_Z_pos by lia.
    destruct (days_floor_Z false v ltac:(lia)) as (m & e & -> & Hfl & Hce).
    rewrite floor_to_int, ceil_to_int by (rewrite ?Hfl, ?Hce; lia).
    now rewrite Hfl, Hce.
  - rewrite of_Z_neg by lia.
    destruct (days_floor_Z true v ltac:(lia)) as (m & e & -> & Hfl & Hce).
    rewrite floor_to_int, ceil_to_int by (rewrite ?Hfl, ?Hce; lia).
    now rewrite Hfl, Hce.
Qed.


Lemma in_unit_bounded r : in_unit r -> bounded_by r 1.
Proof.
  intros [H0 H1]. destruct r as [s | s | | s m e].
  - left. now exists s.
  - destruct s; discriminate.
  - discriminate.
  - destruct s; [discriminate|]. right. exists m, e. split; [reflexivity|].
    unfold Number.leb in H1.
    change (Number.compare (S754_finite false m e) (Number.of_Z 1))
      with (Some (Number.cmp_mag m e 4503599627370496 (-52))) in H1.
    unfold Number.cmp_mag in H1.
    assert (Hle : Z.pos m * 2 ^ (e - Z.min e (-52)) <= 4503599627370496 * 2 ^ (-52 - Z.min e (-52))).
    { apply Z.compare_le_iff. intros Hgt. rewrite Hgt in H1. discriminate. }
    clear H0 H1. change 4503599627370496 with (2 ^ 52) in Hle.
    destruct (Z.le_gt_cases e (-52)) as [He | He].
    + rewrite Z.min_l in Hle by lia. rewrite Z.sub_diag, Z.mul_1_r in Hle.
      rewrite <- Z.pow_add_r in Hle by lia. replace (52 + (-52 - e)) with (- e) in Hle by lia.
      split; lia.
    + rewrite Z.min_r in Hle by lia. change (-52 - -52) with 0 in Hle.
      rewrite Z.mul_1_r in Hle.
      assert (He0 : e <= 0).
      { destruct (Z.le_gt_cases e 0) as [|Hpos]; [assumption|exfalso].
        assert (2 ^ 52 < 2 ^ (e - -52)) by (apply Z.pow_lt_mono_r; lia). nia. }
      split; [assumption|].
      assert (Hsplit : 2 ^ 52 = 2 ^ (- e) * 2 ^ (e - -52)).
      { rewrite <- Z.pow_add_r by lia. f_equal. lia. }
      assert (0 < 2 ^ (e - -52)) by (apply Z.pow_pos_nonneg; lia).
      nia.
Qed.

Lemma mul_bounded r N mN eN :
  0 < N < 2 ^ 53 -> eN <= 0 -> Z.pos mN = N * 2 ^ (- eN) ->
  bounded_by r 1 ->
  bounded_by (Number.mul r (S754_finite false mN eN)) N.
Proof.
  intros HN HeN HmN [[s ->] | (m & e & -> & He & Hm)].
  - left. eexists. reflexivity.
  - cbn [Number.mul SFmul xorb].
    destruct (binary_round_aux_le (m * mN) (e + eN) N) as [Hz | Hf].
    + std_Z; lia.
    + assumption.
    + rewrite Pos2Z.inj_mul, HmN.
      replace (- (e + eN)) with (- e + - eN) by lia. rewrite Z.pow_add_r by lia.
      assert (0 < 2 ^ (- eN)) by (apply Z.pow_pos_nonneg; lia). nia.
    + left. eexists. exact Hz.
    + right. exact Hf.
Qed.

Lemma round_half_up_bounded m e N :
  0 <= N -> e <= 0 -> Z.pos m <= N * 2 ^ (- e) ->
  0 <= Number.round_half_up false m e <= N.
Proof.
  intros HN He Hm. unfold Number.round_half_up.
  destruct (Z.leb_spec 0 e).
  - replace e with 0 in * by lia. cbn in Hm |- *. lia.
  - assert (Hd : 0 < 2 ^ (- e)) by (apply Z.pow_pos_nonneg; lia).
    split.
    + apply Z.div_pos; lia.
    + apply Z.lt_succ_r. apply Z.div_lt_upper_bound; nia.
Qed.

Lemma nearest_tenth_bounded m e N :
  0 <= N -> e <= 0 -> Z.pos m <= N * 2 ^ (- e) ->
  0 <= Number.nearest_tenth m e <= 10 * N.
Proof.
  intros HN He Hm. unfold Number.nearest_tenth.
  destruct (Z.leb_spec 0 e).
  - replace e with 0 in * by lia. cbn in Hm |- *. lia.
  - assert (Hd : 0 < 2 ^ (- e)) by (apply Z.pow_pos_nonneg; lia).
    split.
    + apply Z.div_pos; lia.
    + apply Z.lt_succ_r. apply Z.div_lt_upper_bound; nia.
Qed.


(* ===================================================================== *)
(** * The progress bar                                                    *)
(* ===================================================================== *)


Lemma small_counts k :
  0 <= k <= 30 ->
  Number.ToIntegerOrInfinity (Number.of_Z k) = Number.Int k /\
  Number.ToIntegerOrInfinity (Number.sub (Number.of_Z BAR_LENGTH) (Number.of_Z k))
  = Number.Int (BAR_LENGTH - k).
Proof.
  intros Hk.
  assert (Hall : forallb count_ok (map Z.of_nat (seq 0 31)) = true) by (vm_compute; reflexivity).
  rewrite forallb_forall in Hall.
  assert (Hin : In k (map Z.of_nat (seq 0 31))).
  { apply in_map_iff. exists (Z.to_nat k). split; [lia|]. apply in_seq. lia. }
  specialize (Hall k Hin). unfold count_ok in Hall.
  destruct (Number.ToIntegerOrInfinity (Number.of_Z k)); try discriminate.
  destruct (Number.ToIntegerOrInfinity (Number.sub _ _)); try discriminate.
  apply andb_true_iff in Hall. destruct Hall as [Ha Hb].
  apply Z.eqb_eq in Ha, Hb. now subst.
Qed.

Lemma filled_count (x : Number.t) :
  bounded_by x 30 ->
  exists filled,
    0 <= filled <= 30 /\
    Number.ToIntegerOrInfinity (Number.Math_round x) = Number.Int filled /\
    Number.ToIntegerOrInfinity (Number.sub (Number.of_Z BAR_LENGTH) (Number.Math_round x))
    = Number.Int (BAR_LENGTH - filled).
Proof.
  intros [[s ->] | (m & e & -> & He & Hm)].
  - exists 0. repeat split; try lia. 
  - pose proof (round_half_up_bounded m e 30 ltac:(lia) He Hm) as Hk.
    exists (Number.round_half_up false m e). split; [assumption|].
    cbn [Number.Math_round].
    destruct (Number.round_half_up false m e) as [|p|p] eqn:Ek.
    + split; reflexivity.
    + apply small_counts. lia.
    + lia.
Qed.

Lemma code_points_app a b :
  JsString.code_points (a ++ b) = (JsString.code_points a + JsString.code_points b)%nat.
Proof.
  induction a as [|c a IH]; [reflexivity|].
  change (String c a ++ b) with (String c (a ++ b)).
  cbn [JsString.code_points]. rewrite IH. lia.
Qed.

Lemma code_points_repeat g n :
  JsString.code_points g = 1%nat -> JsString.code_points (JsString.repeat_n g n) = n.
Proof.
  intros Hg. induction n as [|n IH]; cbn [JsString.repeat_n]; [reflexivity|].
  rewrite code_points_app, Hg, IH. reflexivity.
Qed.

Lemma one_digit d : 0 <= d <= 9 -> String.length (JsString.of_int d) = 1%nat.
Proof.
  intros Hd.
  assert (d = 0 \/ d = 1 \/ d = 2 \/ d = 3 \/ d = 4 \/ d = 5 \/ d = 6 \/ d = 7 \/ d = 8 \/ d = 9)
    as Hc by lia.
  repeat (destruct Hc as [-> | Hc]; [reflexivity|]). subst; reflexivity.
Qed.


Lemma toFixed1_bounded x :
  bounded_by x 100 ->
  exists n, 0 <= n <= 1000 /\ Number.toFixed1 number_to_string x = Number.one_decimal n.
Proof.
  intros [[s ->] | (m & e & -> & He & Hm)].
  - exists 0. split; [lia | reflexivity].
  - exists (Number.nearest_tenth m e).
    split; [apply (nearest_tenth_bounded m e 100); lia|].
    cbn [Number.toFixed1].
    replace (Number.at_least_1e21 m e) with false; [reflexivity|].
    symmetry. unfold Number.at_least_1e21.
    assert (Hd : 0 < 2 ^ (- e)) by (apply Z.pow_pos_nonneg; lia).
    destruct (Z.leb_spec 0 e).
    + replace e with 0 in * by lia. cbn in Hm |- *. apply Z.leb_gt. lia.
    + apply Z.leb_gt. assert (100 < 10 ^ 21) by reflexivity. nia.
Qed.

Lemma renderProgress_in_unit ratio :
  in_unit ratio ->
  exists filled,
    0 <= filled <= BAR_LENGTH /\
    Number.ToIntegerOrInfinity (Number.Math_round (Number.mul ratio (Number.of_Z BAR_LENGTH)))
    = Number.Int filled /\
    renderProgress ratio
    = Ok {| bar := JsString.repeat_n BAR_FILLED (Z.to_nat filled)
                   ++ JsString.repeat_n BAR_EMPTY (Z.to_nat (BAR_LENGTH - filled));
            pct := Number.toFixed1 number_to_string (Number.mul ratio (Number.of_Z 100)) |}.
Proof.
  intros Hr. apply in_unit_bounded in Hr.
  assert (Hb : bounded_by (Number.mul ratio (Number.of_Z BAR_LENGTH)) 30).
  { change (Number.of_Z BAR_LENGTH) with (S754_finite false 8444249301319680 (-48)).
    apply mul_bounded; [split; [lia | reflexivity] | lia | reflexivity | assumption]. }
  destruct (filled_count _ Hb) as (filled & Hrange & Hf & He).
  exists filled. split; [exact Hrange|]. split; [exact Hf|].
  unfold renderProgress, js_repeat. rewrite Hf, He.
  replace (filled <? 0) with false by (symmetry; apply Z.ltb_ge; lia).
  replace (BAR_LENGTH - filled <? 0) with false
    by (symmetry; apply Z.ltb_ge; unfold BAR_LENGTH; lia).
  reflexivity.
Qed.


Lemma cmp_mag_antisym m1 e1 m2 e2 :
  Number.cmp_mag m2 e2 m1 e1 = CompOpp (Number.cmp_mag m1 e1 m2 e2).
Proof. unfold Number.cmp_mag. rewrite (Z.min_comm e2 e1). apply Z.compare_antisym. Qed.

Lemma clamp_range (x : Number.t) :
  let r := Number.Math_min (Number.of_Z 1) (Number.Math_max (Number.of_Z 0) x) in
  r = Number.NaN \/ in_unit r.
Proof.
  destruct x as [s | s | | s m e]; cbv zeta.
  - right. split; reflexivity.
  - right. destruct s; split; reflexivity.
  - left. reflexivity.
  - destruct s; [right; split; reflexivity|].
    change (Number.Math_max (Number.of_Z 0) (S754_finite false m e))
      with (S754_finite false m e).
    unfold Number.Math_min.
    change (Number.compare (Number.of_Z 1) (S754_finite false m e))
      with (Some (Number.cmp_mag 4503599627370496 (-52) m e)).
    destruct (Number.cmp_mag 4503599627370496 (-52) m e) eqn:Ec.
    + right. split; [reflexivity|]. unfold Number.leb.
      change (Number.is_neg_zero (Number.of_Z 1)) with false. cbv iota.
      change (Number.compare (S754_finite false m e) (Number.of_Z 1))
        with (Some (Number.cmp_mag m e 4503599627370496 (-52))).
      now rewrite cmp_mag_antisym, Ec.
    + right. split; reflexivity.
    + right. split; [reflexivity|]. unfold Number.leb.
      change (Number.compare (S754_finite false m e) (Number.of_Z 1))
        with (Some (Number.cmp_mag m e 4503599627370496 (-52))).
      now rewrite cmp_mag_antisym, Ec.
Qed.


Lemma renderProgress_NaN :
  renderProgress Number.NaN = Ok {| bar := ""; pct := "NaN" |}.
Proof. reflexivity. Qed.

(** Whatever the day counts, [buildProgress] returns: the ratio is clamped
    (or NaN), so neither [repeat] raises. *)
Lemma buildProgress_shape (elapsed total : Number.t) :
  exists p a b,
    buildProgress elapsed total = Ok p /\
    bar p = JsString.repeat_n BAR_FILLED a ++ JsString.repeat_n BAR_EMPTY b /\
    (pct p = "NaN" \/ exists n, 0 <= n <= 1000 /\ pct p = Number.one_decimal n).
Proof.
  unfold buildProgress, clampRatio.
  destruct (clamp_range (Number.div elapsed total)) as [-> | Hu].
  - rewrite renderProgress_NaN. exists {| bar := ""; pct := "NaN" |}, 0%nat, 0%nat.
    repeat split; auto.
  - destruct (renderProgress_in_unit _ Hu) as (filled & Hf & _ & ->).
    eexists _, _, _. split; [reflexivity|]. split; [reflexivity|]. right.
    cbn [pct]. apply toFixed1_bounded.
    change (Number.of_Z 100) with (S754_finite false 7036874417766400 (-46)).
    apply mul_bounded; [split; [lia | reflexivity] | lia | reflexivity |].
    now apply in_unit_bounded.
Qed.


(* ===================================================================== *)
(** * The guard and a whole run in closed form                            *)
(* ===================================================================== *)



Lemma guard_eq (h : Host) (hash : string) (s : Sys) :
  alreadyPostedGuard h hash s = (Normal (guard_result h hash s).1, (guard_result h hash s).2).
Proof.
  unfold alreadyPostedGuard, guard_result, try_catch, mbind, IO_bind, mret, IO_ret, existsSync,
    readFileSync, writeFileSync, after_write, guard_file.
  destruct s as [d tr]; cbn -[JsString.trim String.eqb lookup insert bool_decide].
  destruct (d !! ".last_post_hash") as [data|] eqn:Ed.
  - rewrite bool_decide_true by eauto.
    destruct (read_fails h); [reflexivity|].
    cbn -[JsString.trim String.eqb lookup insert]. rewrite Ed.
    destruct (String.eqb (JsString.trim data) hash); [reflexivity|].
    destruct (write_fails h); reflexivity.
  - rewrite bool_decide_false by (intros [? ?]; discriminate).
    destruct (write_fails h); reflexivity.
Qed.

Lemma message_cases (h : Host) :
  (remaining h < 0 /\ message h = None) \/
  (0 <= remaining h /\
   exists p, buildProgress (Number.of_Z (elapsedDays h))
                           (Number.of_Z (totalDays h)) = Ok p /\
             message h = Some (core_of p (pickNudge (remaining h) (pct p) (isMilestone h)))).
Proof.
  unfold message.
  destruct (Z.ltb_spec (remaining h) 0) as [Hneg | Hpos]; [left; auto|right].
  split; [assumption|].
  destruct (buildProgress_shape (Number.of_Z (elapsedDays h))
              (Number.of_Z (totalDays h))) as (p & _ & _ & Hp & _).
  exists p. rewrite Hp. auto.
Qed.

Lemma dates_resolve (h : Host) :
  (zone_ok h = true ->
   todayLocal h (TZ h) = Ok (now h) /\
   localStartOfDay h START_DATE (TZ h) = Ok (start h) /\
   localStartOfDay h TARGET_DATE (TZ h) = Ok (target h)) /\
  (zone_ok h = false -> todayLocal h (TZ h) = Raise (invalid_time_zone (TZ h))).
Proof.
  unfold zone_ok, todayLocal, localStartOfDay, now, start, target.
  split; intros ->; auto.
Qed.

Lemma run_eq (h : Host) (d : gmap string string) : run h d = run_result h d.
Proof.
  unfold run, run_result, main.
  unfold mbind at 1. unfold IO_bind at 1.
  destruct (truthy (WEBHOOK h)); cbn [negb].
  2:{ reflexivity. }
  cbn [mret IO_ret].
  destruct (dates_resolve h) as [Hok Hbad].
  destruct (zone_ok h) eqn:Ez; cbn [negb].
  2:{ rewrite (Hbad eq_refl). reflexivity. }
  destruct (Hok eq_refl) as (-> & -> & ->).
  do 3 (unfold mbind at 1; unfold IO_bind at 1; unfold lift at 1).
  cbv zeta.
  change (daysLeft (now h) (target h)) with (remaining h).
  change (daysDiff (start h) (target h)) with (totalDays h).
  change (Z.min (totalDays h) (Z.max 0 (daysDiff (start h) (now h)))) with (elapsedDays h).
  change (bool_decide (remaining h ∈ MILESTONES)) with (isMilestone h).
  destruct (message_cases h) as [[Hneg ->] | [Hpos (p & Hp & ->)]].
  - replace (remaining h <? 0) with true by (symmetry; apply Z.ltb_lt; lia). reflexivity.
  - replace (remaining h <? 0) with false by (symmetry; apply Z.ltb_ge; lia).
    unfold mbind at 1. unfold IO_bind at 1. unfold lift at 1. rewrite Hp.
    unfold mbind at 1. unfold IO_bind at 1. rewrite guard_eq.
    destruct (guard_result _ _ _) as [[|] s]; cbn [fst snd].
    + reflexivity.
    + unfold postToSlack, mbind, IO_bind, emit, mret, IO_ret, post_event.
      cbn [disk trace].
      destruct (slack_api h (client_token h) _); reflexivity.
Qed.

(* ===================================================================== *)
(** * Strings: trimming and parsing a hex digest                          *)
(* ===================================================================== *)

Lemma bytes_to_bytes s : JsString.bytes (JsString.to_bytes s) = s.
Proof.
  unfold JsString.bytes, JsString.to_bytes. rewrite map_map.
  rewrite (map_ext _ (fun c => c)) by (intros c; apply ascii_nat_embedding).
  rewrite map_id. apply string_of_list_ascii_of_string.
Qed.

Lemma to_bytes_app a b :
  JsString.to_bytes (a ++ b) = (JsString.to_bytes a ++ JsString.to_bytes b)%list.
Proof.
  unfold JsString.to_bytes. induction a as [|c a IH]; [reflexivity|].
  change (String c a ++ b) with (String c (a ++ b)). cbn [list_ascii_of_string map].
  rewrite IH. reflexivity.
Qed.

Lemma strip_plain back a l : plain a = true -> JsString.strip back (a :: l) = a :: l.
Proof.
  unfold plain. intros H. apply andb_true_iff in H. destruct H as [Hlt Hws].
  apply Nat.ltb_lt in Hlt. apply negb_true_iff in Hws.
  cbn [JsString.strip]. rewrite Hws.
  destruct l as [|b [|c l]]; [reflexivity| |].
  - destruct back; unfold JsString.ws2.
    + replace (a =? 160)%nat with false by (symmetry; apply Nat.eqb_neq; lia).
      now rewrite andb_false_r.
    + replace (a =? 194)%nat with false by (symmetry; apply Nat.eqb_neq; lia). reflexivity.
  - destruct back; unfold JsString.ws2, JsString.ws3.
    + replace (a =? 160)%nat with false by (symmetry; apply Nat.eqb_neq; lia).
      replace (a =? 128)%nat with false by (symmetry; apply Nat.eqb_neq; lia).
      replace (128 <=? a)%nat with false by (symmetry; apply Nat.leb_gt; lia).
      replace (a =? 168)%nat with false by (symmetry; apply Nat.eqb_neq; lia).
      replace (a =? 169)%nat with false by (symmetry; apply Nat.eqb_neq; lia).
      replace (a =? 175)%nat with false by (symmetry; apply Nat.eqb_neq; lia).
      replace (a =? 159)%nat with false by (symmetry; apply Nat.eqb_neq; lia).
      replace (a =? 191)%nat with false by (symmetry; apply Nat.eqb_neq; lia).
      cbn [andb orb]. now rewrite !andb_false_r.
    + replace (a =? 194)%nat with false by (symmetry; apply Nat.eqb_neq; lia).
      replace (a =? 225)%nat with false by (symmetry; apply Nat.eqb_neq; lia).
      replace (a =? 226)%nat with false by (symmetry; apply Nat.eqb_neq; lia).
      replace (a =? 227)%nat with false by (symmetry; apply Nat.eqb_neq; lia).
      replace (a =? 239)%nat with false by (symmetry; apply Nat.eqb_neq; lia).
      reflexivity.
Qed.

Lemma trim_plain s : Forall (fun a => plain a = true) (JsString.to_bytes s) -> JsString.trim s = s.
Proof.
  intros Hall. unfold JsString.trim.
  rewrite <- (bytes_to_bytes s) at 2.
  destruct (JsString.to_bytes s) as [|a l] eqn:El; [reflexivity|].
  rewrite strip_plain by (now inversion Hall).
  assert (Hrev : Forall (fun a => plain a = true) (rev (a :: l))) by (now apply Forall_rev).
  destruct (rev (a :: l)) as [|z r] eqn:Er.
  - apply (f_equal (@length nat)) in Er. rewrite length_rev in Er. discriminate.
  - rewrite strip_plain by (now inversion Hrev).
    rewrite <- Er, rev_involutive. reflexivity.
Qed.

Lemma digit_plain d : plain (nat_of_ascii (Hex.digit d)) = true.
Proof.
  unfold Hex.digit. generalize (N.to_nat d). intros n.
  do 16 (destruct n as [|n]; [reflexivity|]). reflexivity.
Qed.

Lemma encode_plain w n : Forall (fun a => plain a = true) (JsString.to_bytes (Hex.encode w n)).
Proof.
  revert n. induction w as [|w IH]; intros n; cbn [Hex.encode]; [constructor|].
  rewrite to_bytes_app. apply Forall_app. split; [apply IH|].
  constructor; [apply digit_plain | constructor].
Qed.

Lemma trim_hex w n : JsString.trim (Hex.encode w n) = Hex.encode w n.
Proof. apply trim_plain, encode_plain. Qed.

Lemma string_length_app a b :
  String.length (a ++ b) = (String.length a + String.length b)%nat.
Proof.
  induction a as [|c a IH]; [reflexivity|].
  change (String c a ++ b) with (String c (a ++ b)). cbn [String.length]. now rewrite IH.
Qed.

Lemma length_encode w n : String.length (Hex.encode w n) = w.
Proof.
  revert n. induction w as [|w IH]; intros n; cbn [Hex.encode]; [reflexivity|].
  rewrite string_length_app, IH. cbn. lia.
Qed.











(* ===================================================================== *)
(** * Strings: bytes and substrings                                       *)
(* ===================================================================== *)

Lemma has_byte_app b x y : has_byte b (x ++ y) = has_byte b x || has_byte b y.
Proof.
  induction x as [|c x IH]; [reflexivity|].
  change (String c x ++ y) with (String c (x ++ y)). cbn [has_byte].
  now rewrite IH, orb_assoc.
Qed.

Lemma has_byte_repeat b g n :
  has_byte b g = false -> has_byte b (JsString.repeat_n g n) = false.
Proof.
  intros Hg. induction n as [|n IH]; [reflexivity|].
  cbn [JsString.repeat_n]. now rewrite has_byte_app, Hg, IH.
Qed.

Lemma prefix_has_byte b n h :
  String.prefix n h = true -> has_byte b n = true -> has_byte b h = true.
Proof.
  revert h. induction n as [|c n IH]; intros h Hp Hb; [discriminate|].
  destruct h as [|c' h]; [discriminate|]. cbn [String.prefix] in Hp.
  destruct (ascii_dec c c') as [->|]; [|discriminate].
  cbn [has_byte] in *. apply orb_true_iff in Hb. apply orb_true_iff.
  destruct Hb as [Hb | Hb]; [now left | right; now apply IH].
Qed.

Lemma includes_has_byte b n h :
  JsString.includes n h = true -> has_byte b n = true -> has_byte b h = true.
Proof.
  intros Hi Hb. induction h as [|c h IH].
  - cbn [JsString.includes] in Hi. rewrite orb_false_r in Hi.
    now apply (prefix_has_byte b n).
  - cbn [JsString.includes] in Hi. apply orb_true_iff in Hi. destruct Hi as [Hp | Hi].
    + now apply (prefix_has_byte b n).
    + cbn [has_byte]. rewrite (IH Hi). apply orb_true_r.
Qed.

Lemma prefix_app n post : String.prefix n (n ++ post) = true.
Proof.
  induction n as [|c n IH]; [now destruct post|].
  change (String c n ++ post) with (String c (n ++ post)). cbn [String.prefix].
  destruct (ascii_dec c c); [exact IH | contradiction].
Qed.

Lemma includes_prefix n post : JsString.includes n (n ++ post) = true.
Proof. destruct (n ++ post) eqn:E; cbn [JsString.includes]; rewrite <- E, prefix_app; reflexivity. Qed.

Lemma includes_app_r n x y : JsString.includes n y = true -> JsString.includes n (x ++ y) = true.
Proof.
  intros Hy. induction x as [|c x IH]; [exact Hy|].
  change (String c x ++ y) with (String c (x ++ y)). cbn [JsString.includes].
  rewrite IH. apply orb_true_r.
Qed.

Ltac eval_bytes :=
  repeat match goal with
         | |- context [nat_of_ascii ?c] =>
             let v := eval vm_compute in (nat_of_ascii c) in
             change (nat_of_ascii c) with v
         end.

Lemma has_byte_uint b (d : Decimal.uint) :
  (128 <= b)%nat -> has_byte b (NilEmpty.string_of_uint d) = false.
Proof.
  intros Hb. induction d; cbn [NilEmpty.string_of_uint has_byte]; try rewrite IHd;
    try reflexivity; rewrite orb_false_r; apply Nat.eqb_neq; eval_bytes; lia.
Qed.

Lemma has_byte_of_int b z : (128 <= b)%nat -> has_byte b (JsString.of_int z) = false.
Proof.
  intros Hb. unfold JsString.of_int, NilZero.string_of_int.
  assert (Hu : forall d, has_byte b (NilZero.string_of_uint d) = false).
  { intros d. unfold NilZero.string_of_uint. destruct d; try apply has_byte_uint; try assumption.
    cbn [has_byte]. rewrite orb_false_r. apply Nat.eqb_neq. eval_bytes. lia. }
  destruct (Z.to_int z); [apply Hu|].
  cbn [has_byte]. rewrite Hu, orb_false_r. apply Nat.eqb_neq. eval_bytes. lia.
Qed.

Lemma has_byte_one_decimal b n : (128 <= b)%nat -> has_byte b (Number.one_decimal n) = false.
Proof.
  intros Hb. unfold Number.one_decimal.
  rewrite !has_byte_app, !has_byte_of_int by assumption.
  cbn [has_byte orb]. rewrite !orb_false_r. apply Nat.eqb_neq. eval_bytes. lia.
Qed.

Lemma has_byte_js_index b (arr : list string) i :
  forallb (fun s => negb (has_byte b s)) arr = true ->
  has_byte b "undefined" = false ->
  has_byte b (js_index arr i) = false.
Proof.
  intros Harr Hund. unfold js_index.
  destruct i as [k|]; [|exact Hund]. destruct (0 <=? k); [|exact Hund].
  destruct (nth_in_or_default (Z.to_nat k) arr "undefined") as [Hin | ->]; [|exact Hund].
  rewrite forallb_forall in Harr. apply negb_true_iff. now apply Harr.
Qed.


(* ===================================================================== *)
(** * The claims of the specification                                     *)
(* ===================================================================== *)

Lemma posted_push evs e :
  posted (push evs e) = (posted evs ++ posted [e])%list.
Proof. unfold posted, push. now rewrite flat_map_app. Qed.

Lemma guard_result_trace (h : Host) (hash : string) (d : gmap string string) :
  posted (trace (guard_result h hash {| disk := d; trace := [] |}).2) = [] /\
  ((guard_result h hash {| disk := d; trace := [] |}).1 = true ->
   (guard_result h hash {| disk := d; trace := [] |}).2 = {| disk := d; trace := [] |}).
Proof.
  unfold guard_result. cbn [disk trace].
  destruct (d !! guard_file) as [data|];
    repeat match goal with |- context [if ?b then _ else _] => destruct b end;
    cbn; auto; split; auto; discriminate.
Qed.

(** C7: for every value of [now], however far before [start] or after
    [target], the elapsed day count [main] computes is the whole number of
    days from [start] to [now] (the floor [q] of the quotient by one day)
    clamped to [[0, totalDays]], and it lies in that interval. *)
Theorem elapsedDays_clamped (h : Host) :
  start h <= target h ->
  let q := daysDiff (start h) (now h) in
  q * 86400000 <= now h - start h < (q + 1) * 86400000 /\
  elapsedDays h = (if q <? 0 then 0 else if totalDays h <? q then totalDays h else q) /\
  0 <= elapsedDays h <= totalDays h.
Proof.
  intros Hst q.
  assert (Htotal : 0 <= totalDays h).
  { unfold totalDays, daysDiff. apply Z.div_pos; lia. }
  assert (Hq : q * 86400000 <= now h - start h < (q + 1) * 86400000).
  { unfold q, daysDiff.
    pose proof (Z.div_mod (now h - start h) 86400000 ltac:(lia)).
    pose proof (Z.mod_pos_bound (now h - start h) 86400000 ltac:(lia)). lia. }
  split; [exact Hq|]. unfold elapsedDays. fold q.
  destruct (Z.ltb_spec q 0); destruct (Z.ltb_spec (totalDays h) q); lia.
Qed.

(** C3: the day-count line of the composed message has three mutually
    exclusive forms keyed on the remaining days: the plural "days left" line
    from 2 on, the "last call" line at 1, the "final day" line at 0, where
    the retrospective line is appended after all other lines.  The text
    [pickNudge] returns is given in full for each branch, and the composed
    message is the header, the progress line and that text.  Below 0
    [pickNudge] has no line and a run composes no message at all: it posts
    nothing and writes nothing. *)
Theorem day_count_branches (daysLeft : Z) (pct : string) (isMilestone : bool) :
  let LF := JsString.line_feed in
  let prompt := prompt_line (js_index generic (idx (seedSource daysLeft pct))) in
  let flavor := milestone_line (js_index milestoneFlavor (midx (seedSource daysLeft pct))) in
  let extra := if isMilestone then [flavor] else [] in
  let rest := if isMilestone then prompt ++ LF ++ flavor else prompt in
  (2 <= daysLeft ->
   pickNudge_lines daysLeft pct isMilestone = days_left_line daysLeft pct :: prompt :: extra /\
   pickNudge daysLeft pct isMilestone =
   ("⏳ *" ++ JsString.of_int daysLeft ++ " days left* (" ++ pct ++ "% done).") ++ LF ++ rest) /\
  (daysLeft = 1 ->
   pickNudge_lines daysLeft pct isMilestone = last_call_line pct :: prompt :: extra /\
   pickNudge daysLeft pct isMilestone =
   ("🔥 *1 day left!* (" ++ pct ++ "% done). Last call.") ++ LF ++ rest) /\
  (daysLeft = 0 ->
   pickNudge_lines daysLeft pct isMilestone = [final_day_line pct; retro_line] /\
   pickNudge daysLeft pct isMilestone =
   ("🚀 *Today is the final day!* (" ++ pct ++ "% complete). Make it count.") ++ LF ++
   "🏁 *Project is over after today.* Post a retro: What worked? What was noise? What will you keep doing?") /\
  (daysLeft < 0 ->
   pickNudge_lines daysLeft pct isMilestone = [] /\ pickNudge daysLeft pct isMilestone = "") /\
  (forall h : Host,
      0 <= remaining h ->
      exists barText pctText : string,
        buildProgress (Number.of_Z (elapsedDays h)) (Number.of_Z (totalDays h))
        = Ok (Build_Progress barText pctText) /\
        message h =
        Some ("*What have you done today to double your money?*" ++ LF ++
              (barText ++ " " ++ pctText ++ "%") ++ LF ++
              pickNudge (remaining h) pctText (bool_decide (remaining h ∈ MILESTONES)))) /\
  (forall (h : Host) (d : gmap string string),
      remaining h < 0 ->
      message h = None /\ disk_after (run h d) = d /\ posted (events (run h d)) = [] /\
      (zone_ok h = true ->
       events (run h d) = [ConsoleError "Missing SLACK_WEBHOOK_URL"] \/
       events (run h d) = [ConsoleLog "Target date passed. Stopping (no further posts)."])).
Proof.
  cbv zeta.
  assert (Hlines :
    (2 <= daysLeft ->
     pickNudge_lines daysLeft pct isMilestone
     = days_left_line daysLeft pct
       :: prompt_line (js_index generic (idx (seedSource daysLeft pct)))
       :: (if isMilestone
           then [milestone_line (js_index milestoneFlavor (midx (seedSource daysLeft pct)))]
           else [])) /\
    (daysLeft = 1 ->
     pickNudge_lines daysLeft pct isMilestone
     = last_call_line pct
       :: prompt_line (js_index generic (idx (seedSource daysLeft pct)))
       :: (if isMilestone
           then [milestone_line (js_index milestoneFlavor (midx (seedSource daysLeft pct)))]
           else [])) /\
    (daysLeft = 0 ->
     pickNudge_lines daysLeft pct isMilestone = [final_day_line pct; retro_line]) /\
    (daysLeft < 0 -> pickNudge_lines daysLeft pct isMilestone = [])).
  { unfold pickNudge_lines, push. split; [|split; [|split]].
    - intros Hd.
      replace (1 <? daysLeft) with true by (symmetry; apply Z.ltb_lt; lia).
      replace (0 <? daysLeft) with true by (symmetry; apply Z.ltb_lt; lia).
      replace (daysLeft =? 0) with false by (symmetry; apply Z.eqb_neq; lia).
      now destruct isMilestone.
    - intros ->. now destruct isMilestone.
    - intros ->. now destruct isMilestone.
    - intros Hd.
      replace (1 <? daysLeft) with false by (symmetry; apply Z.ltb_ge; lia).
      replace (0 <? daysLeft) with false by (symmetry; apply Z.ltb_ge; lia).
      replace (daysLeft =? 0) with false by (symmetry; apply Z.eqb_neq; lia).
      replace (daysLeft =? 1) with false by (symmetry; apply Z.eqb_neq; lia).
      now rewrite andb_false_r. }
  destruct Hlines as (H2 & H1 & H0 & Hneg).
  split; [|split; [|split; [|split; [|split]]]].
  - intros Hd. split; [now apply H2|]. unfold pickNudge. rewrite (H2 Hd).
    now destruct isMilestone.
  - intros Hd. split; [now apply H1|]. unfold pickNudge. rewrite (H1 Hd).
    now destruct isMilestone.
  - intros Hd. split; [now apply H0|]. unfold pickNudge. now rewrite (H0 Hd).
  - intros Hd. split; [now apply Hneg|]. unfold pickNudge. now rewrite (Hneg Hd).
  - intros h Hpos. destruct (message_cases h) as [[Hlt _] | [_ (p & Hp & Hm)]]; [lia|].
    destruct p as [b q]. exists b, q. split; [exact Hp|]. rewrite Hm. reflexivity.
  - intros h d Hlt.
    destruct (message_cases h) as [[_ Hm] | [Hpos _]]; [|lia].
    split; [exact Hm|]. rewrite run_eq. unfold run_result. rewrite Hm.
    destruct (negb (truthy (WEBHOOK h))); [repeat split; auto|].
    destruct (zone_ok h); cbn [negb]; repeat split; auto. discriminate.
Qed.

Lemma exit_status_composed (h : Host) (d : gmap string string) :
  truthy (WEBHOOK h) = true -> zone_ok h = true ->
  let o := run h d in
  (exit_code o = 0 \/ exit_code o = 1) /\
  (exit_code o = 1 <->
   exists core err,
     posted (events o) = [(client_token h, core)] /\
     slack_api h (client_token h) core = Some err) /\
  (remaining h < 0 ->
   exit_code o = 0 /\ disk_after o = d /\
   events o = [ConsoleLog "Target date passed. Stopping (no further posts)."]) /\
  (forall core,
      composes h core ->
      (alreadyPostedGuard h (md5_hex core) {| disk := d; trace := [] |}).1 = Normal true ->
      exit_code o = 0 /\ posted (events o) = [] /\ disk_after o = d).
Proof.
  intros Ew Ez. cbv zeta. rewrite run_eq. unfold run_result. rewrite Ew, Ez. cbn [negb].
  destruct (message_cases h) as [[Hneg Hm] | [Hpos (p & _ & Hm)]]; rewrite Hm.
  - split; [now left|]. split; [|split].
    + split; [discriminate|]. intros (core & err & Hp & _); discriminate.
    + auto.
    + intros core (_ & _ & Hc). rewrite Hm in Hc. discriminate.
  - set (core := core_of p _) in *.
    pose proof (guard_result_trace h (md5_hex core) d) as [Hposted Hdup].
    assert (Hskip : forall c, composes h c ->
              (alreadyPostedGuard h (md5_hex c) {| disk := d; trace := [] |}).1 = Normal true ->
              (guard_result h (md5_hex core) {| disk := d; trace := [] |}).1 = true).
    { intros c (_ & _ & Hc) Hg. rewrite Hm in Hc. injection Hc as <-.
      rewrite guard_eq in Hg. cbn [fst] in Hg. now injection Hg. }
    destruct (guard_result h (md5_hex core) {| disk := d; trace := [] |}) as [dup s] eqn:Eg.
    cbn [fst snd] in *.
    destruct dup.
    + split; [now left|]. split; [|split].
      * split; [discriminate|]. intros (c & err & Hp & _).
        cbn [events] in Hp. rewrite posted_push, Hposted in Hp. discriminate.
      * intros Hneg. lia.
      * intros c _ _. cbn [exit_code events disk_after].
        rewrite posted_push, Hposted, (Hdup eq_refl). auto.
    + assert (Hevs : forall e, posted (push (push (trace s) (post_event h core)) e)
                               = ((client_token h, core) :: posted [e])%list).
      { intros e. rewrite !posted_push, Hposted. reflexivity. }
      destruct (slack_api h (client_token h) core) as [err|] eqn:Eapi.
      * split; [now right|]. split; [|split].
        -- split; [|reflexivity]. intros _. exists core, err.
           cbn [events]. now rewrite Hevs.
        -- intros Hneg. lia.
        -- intros c Hc Hg. specialize (Hskip c Hc Hg). discriminate.
      * split; [now left|]. split; [|split].
        -- split; [discriminate|]. intros (c & err & Hp & Ha).
           cbn [events] in Hp. rewrite Hevs in Hp. injection Hp as <-. congruence.
        -- intros Hneg. lia.
        -- intros c Hc Hg. specialize (Hskip c Hc Hg). discriminate.
Qed.

(** C5, as amended: a run ends with status 0 or 1.  It is 1 exactly when
    the webhook configuration is missing at startup, when the time zone is
    one the date facility rejects (the RangeError is not caught: the run
    ends before it composes, prints or writes anything), or when the publish
    call was made and failed; so, for a valid time zone, exactly when the
    configuration is missing or the publish call failed.  A run whose window
    has elapsed ends with status 0 having done nothing but log, and so does
    a run the guard reports as a duplicate. *)
Theorem exit_status (h : Host) (d : gmap string string) :
  let o := run h d in
  let publish_failed :=
    exists core err,
      posted (events o) = [(client_token h, core)] /\
      slack_api h (client_token h) core = Some err in
  (exit_code o = 0 \/ exit_code o = 1) /\
  (exit_code o = 1 <->
   truthy (WEBHOOK h) = false \/
   (truthy (WEBHOOK h) = true /\ zone_ok h = false) \/
   publish_failed) /\
  (zone_ok h = true ->
   (exit_code o = 1 <-> truthy (WEBHOOK h) = false \/ publish_failed)) /\
  (truthy (WEBHOOK h) = true -> zone_ok h = false ->
   exit_code o = 1 /\ events o = [] /\ disk_after o = d) /\
  (truthy (WEBHOOK h) = true -> zone_ok h = true -> remaining h < 0 ->
   exit_code o = 0 /\ disk_after o = d /\
   events o = [ConsoleLog "Target date passed. Stopping (no further posts)."]) /\
  (forall core,
      composes h core ->
      (alreadyPostedGuard h (md5_hex core) {| disk := d; trace := [] |}).1 = Normal true ->
      exit_code o = 0 /\ posted (events o) = [] /\ disk_after o = d).
Proof.
  cbv zeta.
  destruct (truthy (WEBHOOK h)) eqn:Ew.
  2:{ rewrite run_eq. unfold run_result. rewrite Ew. cbn.
      split; [now right|]. split; [split; auto|]. split; [split; auto|].
      split; [discriminate|]. split; [discriminate|].
      intros core (Hw & _). congruence. }
  destruct (zone_ok h) eqn:Ez.
  2:{ rewrite run_eq. unfold run_result. rewrite Ew, Ez. cbn.
      split; [now right|]. split; [split; auto|]. split; [discriminate|].
      split; [auto|]. split; [discriminate|].
      intros core (_ & Hz & _). congruence. }
  destruct (exit_status_composed h d Ew Ez) as (H01 & H1 & Hneg & Hdup). cbv zeta in *.
  split; [exact H01|]. split; [|split; [|split; [|split]]].
  - rewrite H1. split; [auto|]. intros [Hf | [[_ Hf] | Hf]]; [discriminate | discriminate | exact Hf].
  - intros _. rewrite H1. split; [auto|]. intros [Hf | Hf]; [discriminate | exact Hf].
  - discriminate.
  - intros _ _. exact Hneg.
  - exact Hdup.
Qed.


(** C8: whenever the guard's storage raises, on the read or on the write,
    the guard swallows the exception and returns [false] ("proceed"), so the
    run goes on to publish the composed message. *)
Theorem guard_swallows_storage_failures (h : Host) (hash : string) (s : Sys) :
  storage_failure_raised h hash s ->
  alreadyPostedGuard h hash s = (Normal false, s) /\
  (forall core,
      composes h core -> hash = md5_hex core -> trace s = [] ->
      posted (events (run h (disk s))) = [(client_token h, core)]).
Proof.
  intros Hraised.
  assert (Hres : guard_result h hash s = (false, s)).
  { unfold guard_result, storage_failure_raised, readFileSync, writeFileSync in *.
    destruct Hraised as [[[data Hd] (err & s' & Hr)] | [Hreach (err & s' & Hw)]].
    - rewrite Hd in *. destruct (read_fails h); [reflexivity | discriminate].
    - destruct (write_fails h); [|discriminate].
      destruct Hreach as [-> | (data & Hr & Hne)]; [reflexivity|].
      destruct (read_fails h); [discriminate|].
      destruct (disk s !! guard_file) as [data'|]; [|reflexivity].
      injection Hr as ->.
      replace (String.eqb (JsString.trim data) hash) with false; [reflexivity|].
      symmetry. now apply String.eqb_neq. }
  split.
  - rewrite guard_eq, Hres. reflexivity.
  - intros core (Hw & Hz & Hm) -> Htr. rewrite run_eq. unfold run_result.
    rewrite Hw, Hz, Hm. cbn [negb].
    destruct s as [d tr]; cbn [disk trace] in *. subst tr. rewrite Hres.
    destruct (slack_api h (client_token h) core); reflexivity.
Qed.

Lemma guard_result_works (h : Host) (hash : string) (s : Sys) :
  storage_works h ->
  guard_result h hash s =
  match disk s !! guard_file with
  | Some data => if String.eqb (JsString.trim data) hash then (true, s)
                 else (false, after_write hash s)
  | None => (false, after_write hash s)
  end.
Proof. intros [Hr Hw]. unfold guard_result. now rewrite Hr, Hw. Qed.

(** After a run that composed [core] on a working storage, the guard file
    holds the hash of [core] up to white space. *)
Lemma guard_file_after_run (h : Host) (d : gmap string string) (core : string) :
  storage_works h -> composes h core ->
  exists data, disk_after (run h d) !! guard_file = Some data /\
               JsString.trim data = md5_hex core.
Proof.
  intros Hs (Hw & Hz & Hm). rewrite run_eq. unfold run_result. rewrite Hw, Hz, Hm. cbn [negb].
  rewrite (guard_result_works h _ _ Hs). cbn [disk trace].
  assert (Hwritten :
            exists data, disk (after_write (md5_hex core) {| disk := d; trace := [] |})
                         !! guard_file = Some data /\ JsString.trim data = md5_hex core).
  { exists (md5_hex core). cbn [after_write disk]. rewrite lookup_insert_eq.
    split; [reflexivity | apply trim_hex]. }
  destruct (d !! guard_file) as [data|] eqn:Ed.
  - destruct (String.eqb_spec (JsString.trim data) (md5_hex core)) as [Heq | Hne].
    + exists data. cbn [disk_after disk]. auto.
    + destruct (slack_api h (client_token h) core); exact Hwritten.
  - destruct (slack_api h (client_token h) core); exact Hwritten.
Qed.

(** A run on a working storage that finds the hash of its message in the
    guard file skips: it logs, posts nothing and leaves the disk as it was. *)
Lemma run_skips_duplicate (h : Host) (d : gmap string string) (core data : string) :
  storage_works h -> composes h core ->
  d !! guard_file = Some data -> JsString.trim data = md5_hex core ->
  alreadyPostedGuard h (md5_hex core) {| disk := d; trace := [] |}
  = (Normal true, {| disk := d; trace := [] |}) /\
  run h d = {| exit_code := 0;
               events := [ConsoleLog "Already posted identical message this run; skipping."];
               disk_after := d |}.
Proof.
  intros Hs (Hw & Hz & Hm) Hd Ht.
  assert (Hres : guard_result h (md5_hex core) {| disk := d; trace := [] |}
                 = (true, {| disk := d; trace := [] |})).
  { rewrite (guard_result_works h _ _ Hs). cbn [disk]. rewrite Hd, Ht.
    now rewrite String.eqb_refl. }
  split.
  - rewrite guard_eq, Hres. reflexivity.
  - rewrite run_eq. unfold run_result. rewrite Hw, Hz, Hm, Hres. reflexivity.
Qed.

(** C2: of two consecutive runs in one execution context (the second starts
    from the disk the first left) that compose the same text on a working
    storage, the second one's guard returns [true]: the run logs the skip,
    never calls the publisher, leaves the disk as it found it and ends with
    status 0.  On a stored hash that differs (or no file) the guard stores
    the new hash and returns [false]. *)
Theorem dedup_guard_skips_identical
        (h1 h2 : Host) (d : gmap string string) (core : string) :
  storage_works h1 -> storage_works h2 ->
  composes h1 core -> composes h2 core ->
  let o1 := run h1 d in
  let o2 := run h2 (disk_after o1) in
  alreadyPostedGuard h2 (md5_hex core) {| disk := disk_after o1; trace := [] |}
  = (Normal true, {| disk := disk_after o1; trace := [] |}) /\
  posted (events o2) = [] /\
  events o2 = [ConsoleLog "Already posted identical message this run; skipping."] /\
  disk_after o2 = disk_after o1 /\
  exit_code o2 = 0 /\
  (forall (h : Host) (hash : string) (s : Sys),
      storage_works h ->
      (disk s !! guard_file = None \/
       exists data, disk s !! guard_file = Some data /\ JsString.trim data <> hash) ->
      alreadyPostedGuard h hash s = (Normal false, after_write hash s) /\
      disk (after_write hash s) !! guard_file = Some hash).
Proof.
  intros Hs1 Hs2 Hc1 Hc2 o1 o2.
  destruct (guard_file_after_run h1 d core Hs1 Hc1) as (data & Hd & Ht).
  destruct (run_skips_duplicate h2 (disk_after o1) core data Hs2 Hc2 Hd Ht) as [Hg Hrun].
  split; [exact Hg|]. unfold o2. rewrite Hrun. cbn [events disk_after exit_code].
  repeat (split; [reflexivity|]).
  intros h hash s Hs Hdiff. split.
  - rewrite guard_eq, (guard_result_works h _ _ Hs).
    destruct Hdiff as [-> | (data' & -> & Hne)]; [reflexivity|].
    replace (String.eqb (JsString.trim data') hash) with false; [reflexivity|].
    symmetry. now apply String.eqb_neq.
  - cbn [after_write disk]. apply lookup_insert_eq.
Qed.

(** C9: the guard stores the hash before the publish call is made.  When a
    run on a working storage reaches the publish call and the call fails, the
    run has written the hash first, ends with status 1 and leaves the hash of
    the failed message in the guard file; a later run in the same execution
    context that composes the same text skips and never posts it. *)
Theorem hash_stored_before_publish
        (h1 h2 : Host) (d : gmap string string) (core err : string) :
  storage_works h1 -> storage_works h2 ->
  composes h1 core -> composes h2 core ->
  (alreadyPostedGuard h1 (md5_hex core) {| disk := d; trace := [] |}).1 = Normal false ->
  slack_api h1 (client_token h1) core = Some err ->
  let o1 := run h1 d in
  let o2 := run h2 (disk_after o1) in
  events o1 = [WriteFile guard_file (md5_hex core); post_event h1 core; ConsoleError err] /\
  exit_code o1 = 1 /\
  disk_after o1 !! guard_file = Some (md5_hex core) /\
  events o2 = [ConsoleLog "Already posted identical message this run; skipping."] /\
  posted (events o2) = [] /\
  exit_code o2 = 0.
Proof.
  intros Hs1 Hs2 Hc1 Hc2 Hg Hapi o1 o2.
  destruct (guard_file_after_run h1 d core Hs1 Hc1) as (data & Hd & Ht).
  destruct (run_skips_duplicate h2 (disk_after o1) core data Hs2 Hc2 Hd Ht) as [_ Hrun].
  assert (Ho1 : o1 = {| exit_code := 1;
                        events := [WriteFile guard_file (md5_hex core); post_event h1 core;
                                   ConsoleError err];
                        disk_after := <[guard_file := md5_hex core]> d |}).
  { unfold o1. rewrite run_eq. unfold run_result.
    destruct Hc1 as (Hw & Hz & Hm). rewrite Hw, Hz, Hm. cbn [negb].
    rewrite guard_eq in Hg. cbn [fst] in Hg.
    rewrite (guard_result_works h1 _ _ Hs1) in Hg |- *. cbn [disk] in Hg |- *.
    destruct (d !! guard_file) as [data'|].
    - destruct (String.eqb (JsString.trim data') (md5_hex core)); [discriminate|].
      now rewrite Hapi.
    - now rewrite Hapi. }
  unfold o2. rewrite Hrun. rewrite Ho1. cbn [events exit_code disk_after].
  repeat split. apply lookup_insert_eq.
Qed.

(** C10, as amended: the startup check looks at SLACK_WEBHOOK_URL alone and
    stops the run (status 1) exactly when it is unset or empty; the token the
    publisher sends, SLACK_BOT_TOKEN, is never validated.  With a non-empty
    SLACK_WEBHOOK_URL and no SLACK_BOT_TOKEN the check passes, and the run
    makes the publish call, without a token, whenever the window has not
    elapsed (the remaining days, computed for the run's time zone, are not
    negative) and the guard does not report a duplicate.  With a time zone
    the date facility rejects no remaining days exist: the check passes all
    the same and the run ends in the uncaught RangeError. *)
Theorem config_check_ignores_token (h : Host) (d : gmap string string) :
  (truthy (WEBHOOK h) = false <->
   run h d = {| exit_code := 1;
                events := [ConsoleError "Missing SLACK_WEBHOOK_URL"];
                disk_after := d |}) /\
  (truthy (WEBHOOK h) = true -> zone_ok h = true -> client_token h = None ->
   0 <= remaining h ->
   exists core,
     message h = Some core /\
     ((alreadyPostedGuard h (md5_hex core) {| disk := d; trace := [] |}).1 = Normal false ->
      posted (events (run h d)) = [(None, core)])) /\
  (truthy (WEBHOOK h) = true -> zone_ok h = false ->
   run h d = {| exit_code := 1; events := []; disk_after := d |}).
Proof.
  split; [|split].
  - rewrite run_eq. unfold run_result. split.
    + intros ->. reflexivity.
    + destruct (truthy (WEBHOOK h)); [|reflexivity]. cbn [negb].
      destruct (zone_ok h); cbn [negb]; [|discriminate].
      destruct (message h) as [core|]; [|discriminate].
      destruct (guard_result _ _ _) as [[|] s]; [discriminate|].
      destruct (slack_api _ _ _); [|discriminate].
      intros Heq. apply (f_equal events) in Heq. cbn [events] in Heq.
      unfold push in Heq. apply (f_equal (@length Event)) in Heq.
      rewrite !length_app in Heq. cbn in Heq. lia.
  - intros Hw Hz Htok Hpos.
    destruct (message_cases h) as [[Hneg _] | [_ (p & _ & Hm)]]; [lia|].
    eexists. split; [exact Hm|]. intros Hg.
    rewrite run_eq. unfold run_result. rewrite Hw, Hz, Hm. cbn [negb].
    pose proof (guard_result_trace h (md5_hex (core_of p (pickNudge (remaining h) (pct p)
                 (isMilestone h)))) d) as [Hposted _].
    rewrite guard_eq in Hg. cbn [fst] in Hg.
    destruct (guard_result _ _ _) as [[|] s]; [discriminate|]. cbn [snd] in Hposted.
    destruct (slack_api _ _ _); cbn [events]; rewrite !posted_push, Hposted;
      unfold post_event; cbn; now rewrite Htok.
  - intros Hw Hz. rewrite run_eq. unfold run_result. now rewrite Hw, Hz.
Qed.


(** C6: for every ratio in [[0, 1]] (every binary64 value, as [buildProgress]
    clamps it) the bar is made of exactly 30 glyphs,
    [filled = Math.round(ratio * 30)] filled ones followed by [30 - filled]
    empty ones, and the percent string is [ratio * 100] printed with exactly
    one digit after the decimal point (the nearest tenth [n / 10]). *)
Theorem progress_bar_shape (ratio : Number.t) :
  in_unit ratio ->
  exists (filled : Z) (p : Progress),
    renderProgress ratio = Ok p /\
    (forall elapsedDays totalDays,
        clampRatio elapsedDays totalDays = ratio ->
        buildProgress elapsedDays totalDays = Ok p) /\
    Number.ToIntegerOrInfinity (Number.Math_round (Number.mul ratio (Number.of_Z BAR_LENGTH)))
    = Number.Int filled /\
    0 <= filled <= BAR_LENGTH /\
    bar p = JsString.repeat_n BAR_FILLED (Z.to_nat filled)
            ++ JsString.repeat_n BAR_EMPTY (Z.to_nat (BAR_LENGTH - filled)) /\
    JsString.code_points (bar p) = 30%nat /\
    pct p = Number.toFixed1 number_to_string (Number.mul ratio (Number.of_Z 100)) /\
    exists n,
      0 <= n <= 1000 /\
      pct p = JsString.of_int (n / 10) ++ "." ++ JsString.of_int (n mod 10) /\
      String.length (JsString.of_int (n mod 10)) = 1%nat.
Proof.
  intros Hu.
  destruct (renderProgress_in_unit ratio Hu) as (filled & Hrange & Hf & Hp).
  eexists filled, _. split; [exact Hp|].
  split; [intros e t Heq; unfold buildProgress; rewrite Heq; exact Hp|].
  split; [exact Hf|]. split; [exact Hrange|].
  cbn [bar pct]. split; [reflexivity|]. split.
  - rewrite code_points_app, !code_points_repeat by reflexivity.
    unfold BAR_LENGTH in *. lia.
  - split; [reflexivity|].
    destruct (toFixed1_bounded (Number.mul ratio (Number.of_Z 100))) as (n & Hn & Hpct).
    + change (Number.of_Z 100) with (S754_finite false 7036874417766400 (-46)).
      apply mul_bounded; [split; [lia | reflexivity] | lia | reflexivity |].
      now apply in_unit_bounded.
    + exists n. split; [exact Hn|]. split; [exact Hpct|].
      apply one_digit. pose proof (Z.mod_pos_bound n 10 ltac:(lia)). lia.
Qed.


Lemma buildProgress_bytes (elapsed total : Number.t) (p : Progress) :
  buildProgress elapsed total = Ok p ->
  has_byte 142 (bar p) = false /\ has_byte 142 (pct p) = false.
Proof.
  intros Hp.
  destruct (buildProgress_shape elapsed total) as (p' & a & b & Hp' & Hbar & Hpct).
  rewrite Hp in Hp'. injection Hp' as <-. split.
  - rewrite Hbar, has_byte_app, !has_byte_repeat by reflexivity. reflexivity.
  - destruct Hpct as [-> | (n & _ & ->)]; [reflexivity|].
    apply has_byte_one_decimal. lia.
Qed.

(** The byte 8E occurs in the marker of the milestone line (in its emoji)
    and nowhere else in a composed message. *)
Lemma core_marker_byte (p : Progress) (d : Z) (m : bool) :
  has_byte 142 (bar p) = false -> has_byte 142 (pct p) = false ->
  has_byte 142 (core_of p (pickNudge d (pct p) m)) = m && (0 <? d).
Proof.
  intros Hbar Hpct.
  assert (Hint : has_byte 142 (JsString.of_int d) = false) by (apply has_byte_of_int; lia).
  assert (Hgen : forall i, has_byte 142 (js_index generic i) = false)
    by (intros i; apply has_byte_js_index; reflexivity).
  unfold core_of, pickNudge, JsString.join, pickNudge_lines, push, seedSource.
  destruct (Z.ltb_spec 1 d); destruct (Z.eqb_spec d 1); destruct (Z.eqb_spec d 0);
    destruct (Z.ltb_spec 0 d); try lia; destruct m;
    cbn [app String.concat andb];
    unfold days_left_line, last_call_line, final_day_line, prompt_line, milestone_line;
    rewrite ?has_byte_app, ?Hbar, ?Hpct, ?Hint, ?Hgen; reflexivity.
Qed.

Lemma core_includes_marker (p : Progress) (d : Z) :
  0 < d ->
  JsString.includes milestone_marker (core_of p (pickNudge d (pct p) true)) = true.
Proof.
  intros Hd.
  unfold core_of, pickNudge, JsString.join, pickNudge_lines, push.
  replace (0 <? d) with true by (symmetry; apply Z.ltb_lt; lia).
  replace (d =? 0) with false by (symmetry; apply Z.eqb_neq; lia).
  cbn [andb].
  destruct (1 <? d); [|destruct (d =? 1)];
    cbn [app String.concat]; unfold milestone_line;
    repeat (first [apply includes_prefix | apply includes_app_r]).
Qed.

Lemma milestones_spec (d : Z) :
  d ∈ MILESTONES <-> In d [90; 75; 60; 45; 30; 21; 14; 10; 7; 5; 3; 2; 1; 0].
Proof. unfold MILESTONES. now rewrite elem_of_list_to_set, list_elem_of_In. Qed.

(** C4: the milestone prompt line occurs in the message a run composes if
    and only if the remaining day count is one of the milestones
    90, 75, 60, 45, 30, 21, 14, 10, 7, 5, 3, 2, 1, 0 and is positive. *)
Theorem milestone_line_iff (h : Host) :
  (exists msg, message h = Some msg /\ JsString.includes milestone_marker msg = true) <->
  (In (remaining h) [90; 75; 60; 45; 30; 21; 14; 10; 7; 5; 3; 2; 1; 0] /\ 0 < remaining h).
Proof.
  split.
  - intros (msg & Hm & Hinc).
    destruct (message_cases h) as [[_ Hnone] | [_ (p & Hp & Hsome)]]; [congruence|].
    rewrite Hsome in Hm. injection Hm as <-.
    destruct (buildProgress_bytes _ _ p Hp) as [Hbar Hpct].
    pose proof (includes_has_byte 142 _ _ Hinc eq_refl) as Hbyte.
    rewrite (core_marker_byte p _ _ Hbar Hpct) in Hbyte.
    apply andb_true_iff in Hbyte. destruct Hbyte as [Hmil Hpos].
    unfold isMilestone in Hmil. apply bool_decide_eq_true in Hmil.
    apply Z.ltb_lt in Hpos. split; [now apply milestones_spec | exact Hpos].
  - intros [Hin Hpos].
    destruct (message_cases h) as [[Hneg _] | [_ (p & Hp & Hsome)]]; [lia|].
    eexists. split; [exact Hsome|].
    replace (isMilestone h) with true.
    + now apply core_includes_marker.
    + symmetry. unfold isMilestone. apply bool_decide_eq_true. now apply milestones_spec.
Qed.




(** On a day-aligned window the remaining days are the total days minus the
    whole days elapsed since the start. *)
Lemma daysLeft_aligned (s t n : Z) :
  (t - s) mod 86400000 = 0 ->
  daysLeft n t = daysDiff s t - daysDiff s n.
Proof.
  intros Hal. unfold daysLeft, daysDiff.
  apply Z.div_exact in Hal; [|lia].
  replace (- (t - n)) with ((n - s) + - ((t - s) / 86400000) * 86400000) by lia.
  rewrite Z.div_add by lia. lia.
Qed.


(* ===================================================================== *)
(** * Further properties of the script                                    *)
(* ===================================================================== *)

(** [buildProgress] never raises: whatever two Numbers it is given (NaN and
    the infinities included), the clamped ratio is NaN or lies in [[0, 1]],
    both [repeat] counts are valid, and a bar and a percent string come
    back. *)
Theorem buildProgress_never_raises (elapsed total : Number.t) :
  (clampRatio elapsed total = Number.NaN \/ in_unit (clampRatio elapsed total)) /\
  exists p, buildProgress elapsed total = Ok p /\
            (JsString.code_points (bar p) = 30%nat \/ (bar p = "" /\ pct p = "NaN")).
Proof.
  split; [apply clamp_range|].
  unfold buildProgress.
  destruct (clamp_range (Number.div elapsed total)) as [Hnan | Hu]; cbv zeta in *;
    fold (clampRatio elapsed total) in *.
  - rewrite Hnan, renderProgress_NaN. eexists. split; [reflexivity|]. right. split; reflexivity.
  - destruct (renderProgress_in_unit _ Hu) as (filled & Hf & _ & ->).
    eexists. split; [reflexivity|]. left. cbn [bar].
    rewrite code_points_app, !code_points_repeat by reflexivity.
    unfold BAR_LENGTH in *. lia.
Qed.

(** Inside the window, on a day-aligned window, the elapsed and the
    remaining days add up to the total: the floor of the one and the ceiling
    of the other then round at the same instants. *)
Theorem remaining_complements_elapsed (h : Host) :
  (target h - start h) mod 86400000 = 0 ->
  start h <= now h < target h + 86400000 ->
  elapsedDays h + remaining h = totalDays h.
Proof.
  intros Hal [Hlo Hhi].
  unfold remaining. rewrite (daysLeft_aligned (start h)) by exact Hal.
  unfold elapsedDays, totalDays, daysDiff.
  apply Z.div_exact in Hal; [|lia].
  assert (Hq : 0 <= (now h - start h) / 86400000) by (apply Z.div_pos; lia).
  assert (Hq' : (now h - start h) / 86400000 <= (target h - start h) / 86400000).
  { apply Z.lt_succ_r. apply Z.div_lt_upper_bound; lia. }
  lia.
Qed.

(** The guard always returns: it never raises and never ends the process;
    when it returns [true] it has touched nothing. *)
Theorem guard_always_returns (h : Host) (hash : string) (s : Sys) :
  exists (duplicate : bool) (s' : Sys),
    alreadyPostedGuard h hash s = (Normal duplicate, s') /\
    (duplicate = true -> s' = s) /\
    (duplicate = true ->
     exists data, disk s !! guard_file = Some data /\ JsString.trim data = hash).
Proof.
  rewrite guard_eq. eexists _, _. split; [reflexivity|].
  unfold guard_result.
  destruct (disk s !! guard_file) as [data|].
  - destruct (read_fails h); [split; discriminate|].
    destruct (String.eqb_spec (JsString.trim data) hash) as [Heq | Hne].
    + split; [reflexivity|]. intros _. now exists data.
    + destruct (write_fails h); split; discriminate.
  - destruct (write_fails h); split; discriminate.
Qed.

(** Evaluated in binary64 as the engine does, [daysDiff] and
    [daysLeft] return exactly the integers of the model, for all time
    values that are, with their difference, below 2^53 in magnitude (every
    valid Date is below 8.64e15 < 2^53). *)
Theorem day_arithmetic_exact (a b : Z) :
  Z.abs a < 2 ^ 53 -> Z.abs b < 2 ^ 53 -> Z.abs (b - a) < 2 ^ 53 ->
  daysDiff_binary64 a b = Number.Int (daysDiff a b) /\
  daysLeft_binary64 a b = Number.Int (daysLeft a b).
Proof.
  intros Ha Hb Hd. unfold daysDiff_binary64, daysLeft_binary64, daysDiff, daysLeft. cbv zeta.
  rewrite sub_exact by assumption.
  exact (days_floor_ceil (b - a) Hd).
Qed.

(** ** The day arithmetic of [main] *)

Lemma daysLeft_spec (n t k : Z) :
  daysLeft n t = k <-> t - k * 86400000 <= n < t - (k - 1) * 86400000.
Proof. unfold daysLeft. Z.div_mod_to_equations. lia. Qed.

Lemma daysDiff_spec (a b k : Z) :
  daysDiff a b = k <-> a + k * 86400000 <= b < a + (k + 1) * 86400000.
Proof. unfold daysDiff. cbv zeta. Z.div_mod_to_equations. lia. Qed.

(** The day boundaries of the countdown: the remaining day count is [k]
    exactly from the local midnight [k] days before the target's up to, and
    not including, the next midnight (so it is 0 throughout the target day
    and turns negative, which stops the countdown, the instant the day after
    begins); and [daysDiff] counts the whole days since the start's midnight
    the same way. *)
Theorem day_boundaries (h : Host) (k : Z) :
  (remaining h = k <->
   target h - k * 86400000 <= now h < target h - (k - 1) * 86400000) /\
  (daysDiff (start h) (now h) = k <->
   start h + k * 86400000 <= now h < start h + (k + 1) * 86400000) /\
  (remaining h < 0 <-> target h + 86400000 <= now h) /\
  (remaining h = 0 <-> target h <= now h < target h + 86400000).
Proof.
  unfold remaining. split; [apply daysLeft_spec|]. split; [apply daysDiff_spec|].
  pose proof (daysLeft_spec (now h) (target h) (daysLeft (now h) (target h))) as [H _].
  specialize (H eq_refl).
  split; [|rewrite daysLeft_spec; lia].
  split; intros; lia.
Qed.

(** On a window of [T] whole days, a run at any time [o] of the day that
    begins [j] days after the start sees [T] total days, [j] elapsed days
    (clamped to the window) and [T - j] remaining days: the hour of the run
    plays no role. *)
Theorem day_index (h : Host) (T j o : Z) :
  target h = start h + T * 86400000 ->
  now h = start h + j * 86400000 + o ->
  0 <= o < 86400000 ->
  totalDays h = T /\
  elapsedDays h = Z.min T (Z.max 0 j) /\
  remaining h = T - j.
Proof.
  intros Ht Hn Ho.
  assert (E1 : totalDays h = T) by (unfold totalDays; apply daysDiff_spec; lia).
  assert (E2 : daysDiff (start h) (now h) = j) by (apply daysDiff_spec; lia).
  assert (E3 : remaining h = T - j) by (unfold remaining; apply daysLeft_spec; lia).
  unfold elapsedDays. rewrite E1, E2. auto.
Qed.

(** Between the start and the target, elapsed plus remaining days is the
    total, or one more: one more exactly when the time of day of [now]
    (counted from the start's midnight) is earlier than that of the target,
    which needs a window that is not a whole number of days. *)
Theorem elapsed_plus_remaining (h : Host) :
  start h <= now h <= target h ->
  elapsedDays h + remaining h =
  totalDays h +
  (if (now h - start h) mod 86400000 <? (target h - start h) mod 86400000 then 1 else 0).
Proof.
  intros Hw. unfold elapsedDays, remaining, totalDays, daysDiff, daysLeft. cbv zeta.
  destruct (Z.ltb_spec ((now h - start h) mod 86400000) ((target h - start h) mod 86400000));
    Z.div_mod_to_equations; lia.
Qed.

(** As the clock advances the elapsed days never decrease and the remaining
    days never increase; and once the countdown has stopped it stays
    stopped: no later run posts or writes anything. *)
Theorem clock_monotone (h1 h2 : Host) :
  start h1 = start h2 -> target h1 = target h2 -> now h1 <= now h2 ->
  elapsedDays h1 <= elapsedDays h2 /\
  remaining h2 <= remaining h1 /\
  (remaining h1 < 0 ->
   forall d, posted (events (run h2 d)) = [] /\ disk_after (run h2 d) = d).
Proof.
  intros Hs Ht Hn.
  assert (Hrem : remaining h2 <= remaining h1).
  { unfold remaining, daysLeft. rewrite Ht. Z.div_mod_to_equations. lia. }
  split; [|split; [exact Hrem|]].
  - unfold elapsedDays, totalDays, daysDiff. cbv zeta. rewrite Hs, Ht.
    Z.div_mod_to_equations. lia.
  - intros Hneg d. rewrite run_eq. unfold run_result, message.
    replace (remaining h2 <? 0) with true by (symmetry; apply Z.ltb_lt; lia).
    destruct (negb (truthy (WEBHOOK h2))); [split; reflexivity|].
    destruct (negb (zone_ok h2)); split; reflexivity.
Qed.

(** ** The progress at the ends of the window and on the 90 days *)

(** A non-zero integral Number divided by itself is exactly 1. *)
Lemma div_self (s : bool) (v : positive) :
  Z.pos v < 2 ^ 53 -> Number.div (canon s v) (canon s v) = Number.of_Z 1.
Proof.
  intros Hv. pose proof (canon_digits v Hv) as (Hd & Hm & Hmd). cbv zeta in Hd, Hm, Hmd.
  unfold canon, Number.div, SFdiv, Number.prec, Number.emax.
  set (d := Z.pos (digits2_pos v)) in *.
  set (M := Z.to_pos (Z.pos v * 2 ^ (53 - d))) in *.
  rewrite (div_core M M (d - 53) (d - 53)) by (assumption || lia).
  rewrite (Z.mul_comm (Z.pos M)), Z.mod_mul, Z.div_mul by lia. cbv beta iota.
  replace (d - 53 - (d - 53) - 53) with (-53) by lia.
  replace (new_location (Z.pos M) 0) with loc_Exact
    by (unfold new_location; destruct (IntDef.Z.even (Z.pos M)); reflexivity).
  destruct s; reflexivity.
Qed.

Lemma zero_div (v : positive) :
  Number.div (Number.of_Z 0) (canon false v) = S754_zero false.
Proof. reflexivity. Qed.

Lemma buildProgress_full (T : Z) :
  T <> 0 -> Z.abs T < 2 ^ 53 ->
  buildProgress (Number.of_Z T) (Number.of_Z T)
  = Ok {| bar := JsString.repeat_n BAR_FILLED 30; pct := "100.0" |}.
Proof.
  intros H0 HT. unfold buildProgress, clampRatio. destruct T as [|v|v]; [lia| |].
  - rewrite (of_Z_pos v) by lia. rewrite div_self by lia. vm_compute. reflexivity.
  - rewrite (of_Z_neg v) by lia. rewrite div_self by lia. vm_compute. reflexivity.
Qed.

Lemma buildProgress_none (T : Z) :
  0 < T < 2 ^ 53 ->
  buildProgress (Number.of_Z 0) (Number.of_Z T)
  = Ok {| bar := JsString.repeat_n BAR_EMPTY 30; pct := "0.0" |}.
Proof.
  intros HT. destruct T as [|v|v]; [lia| |lia].
  unfold buildProgress, clampRatio. rewrite (of_Z_pos v) by lia. rewrite zero_div.
  vm_compute. reflexivity.
Qed.

(** The ends of the bar, for a window of any length: until the first day
    is over the bar is all empty at 0.0 percent; from the target's midnight
    on it is all filled at 100.0 percent (the quotient of a Number by itself
    is exactly 1).  A window of zero days yields the empty string as bar and
    the percent string NaN, and a target before the start a full bar at
    100.0 percent at any time. *)
Theorem progress_endpoints (h : Host) :
  let progress :=
    buildProgress (Number.of_Z (elapsedDays h)) (Number.of_Z (totalDays h)) in
  (0 < totalDays h < 2 ^ 53 -> now h < start h + 86400000 ->
   progress = Ok {| bar := JsString.repeat_n BAR_EMPTY 30; pct := "0.0" |}) /\
  (0 < totalDays h < 2 ^ 53 -> target h <= now h ->
   progress = Ok {| bar := JsString.repeat_n BAR_FILLED 30; pct := "100.0" |}) /\
  (totalDays h = 0 -> progress = Ok {| bar := ""; pct := "NaN" |}) /\
  (- 2 ^ 53 < totalDays h < 0 ->
   progress = Ok {| bar := JsString.repeat_n BAR_FILLED 30; pct := "100.0" |}).
Proof.
  cbv zeta. split; [|split; [|split]].
  - intros HT Hn.
    assert (E : elapsedDays h = 0).
    { unfold elapsedDays, daysDiff in *. cbv zeta in *. Z.div_mod_to_equations. lia. }
    rewrite E. now apply buildProgress_none.
  - intros HT Hn.
    assert (E : elapsedDays h = totalDays h).
    { unfold elapsedDays, totalDays, daysDiff in *. cbv zeta in *. Z.div_mod_to_equations. lia. }
    rewrite E. apply buildProgress_full; lia.
  - intros HT.
    assert (E : elapsedDays h = 0) by (unfold elapsedDays; rewrite HT; lia).
    rewrite E, HT. vm_compute. reflexivity.
  - intros HT.
    assert (E : elapsedDays h = totalDays h) by (unfold elapsedDays; lia).
    rewrite E. apply buildProgress_full; lia.
Qed.

Lemma same_progress_eq r p : same_progress r p = true -> r = Ok p.
Proof.
  destruct r as [q|]; [|discriminate]. cbn. intros H.
  apply andb_true_iff in H as [H1 H2]. apply String.eqb_eq in H1, H2.
  destruct q, p; cbn in *. now subst.
Qed.

Lemma ninety_day_table :
  forallb (fun k => same_progress (buildProgress (Number.of_Z (Z.of_nat k)) (Number.of_Z 90))
                                  (rounded_progress (Z.of_nat k) 90))
          (seq 0 91) = true.
Proof. vm_compute. reflexivity. Qed.

(** On the script's window of 90 days the double arithmetic of
    [buildProgress] is exact on every day: the bar holds the number of
    filled glyphs nearest to [30 e / 90] and the percent string is
    [100 e / 90] rounded to the nearest tenth, as computed on rationals. *)
Theorem ninety_day_progress (e : Z) :
  0 <= e <= 90 ->
  buildProgress (Number.of_Z e) (Number.of_Z 90) = Ok (rounded_progress e 90).
Proof.
  intros He. apply same_progress_eq.
  pose proof ninety_day_table as Htab. rewrite forallb_forall in Htab.
  specialize (Htab (Z.to_nat e)). rewrite Z2Nat.id in Htab by lia.
  apply Htab. apply in_seq. lia.
Qed.

(** ** What a run does to the disk, the channel and the console *)



Lemma guard_result_cases (h : Host) (hash : string) (d : gmap string string) :
  let r := guard_result h hash {| disk := d; trace := [] |} in
  trace r.2 = [] \/ (r.1 = false /\ trace r.2 = [WriteFile guard_file hash]).
Proof.
  unfold guard_result. cbn [disk].
  destruct (d !! guard_file) as [data|]; [destruct (read_fails h)|];
    try destruct (String.eqb (JsString.trim data) hash); destruct (write_fails h);
    cbn [fst snd after_write trace push app]; auto.
Qed.

(** The events of a run, in closed form.  A run that dies of the uncaught
    RangeError of an invalid time zone has none; any other run has nothing
    or the write of the hash, then nothing or the one [chat.postMessage]
    call, then one console line. *)
Lemma run_events (h : Host) (d : gmap string string) :
  let o := run h d in
  (truthy (WEBHOOK h) = true /\ zone_ok h = false /\
   events o = [] /\ exit_code o = 1 /\ disk_after o = d) \/
  ((truthy (WEBHOOK h) = false \/ zone_ok h = true) /\
   exists (writes posts : list Event) (last : Event),
     events o = (writes ++ posts ++ [last])%list /\
     (writes = [] \/ exists core, message h = Some core /\
                                  writes = [WriteFile guard_file (md5_hex core)]) /\
     (posts = [] \/ exists core, message h = Some core /\ truthy (WEBHOOK h) = true /\
                                 posts = [post_event h core]) /\
     ((exit_code o = 0 /\ exists text, last = ConsoleLog text) \/
      (exit_code o = 1 /\ exists err, last = ConsoleError err))).
Proof.
  cbv zeta. rewrite run_eq. unfold run_result.
  destruct (negb (truthy (WEBHOOK h))) eqn:Ew.
  { apply negb_true_iff in Ew. right. split; [now left|].
    exists [], [], (ConsoleError "Missing SLACK_WEBHOOK_URL"). cbn. eauto 10. }
  apply negb_false_iff in Ew.
  destruct (zone_ok h) eqn:Ez; cbn [negb].
  2:{ left. cbn. auto. }
  right. split; [now right|].
  destruct (message h) as [core|] eqn:Em.
  2:{ exists [], [], (ConsoleLog "Target date passed. Stopping (no further posts)."). cbn. eauto 10. }
  pose proof (guard_result_cases h (md5_hex core) d) as Hg. cbv zeta in Hg.
  destruct (guard_result h (md5_hex core) {| disk := d; trace := [] |}) as [dup s].
  cbn [fst snd] in Hg.
  assert (Hw : trace s = [] \/
               exists core0, Some core = Some core0 /\ trace s = [WriteFile guard_file (md5_hex core0)]).
  { destruct Hg as [Hg | [_ Hg]]; [now left | right; eauto]. }
  destruct dup.
  - destruct Hg as [Hg | [Hg _]]; [|discriminate].
    exists [], [], (ConsoleLog "Already posted identical message this run; skipping.").
    cbn [events exit_code]. rewrite Hg. cbn. eauto 10.
  - destruct (slack_api h (client_token h) core) as [err|].
    + exists (trace s), [post_event h core], (ConsoleError err).
      cbn [events exit_code]. unfold push. rewrite <- app_assoc.
      split; [reflexivity|]. split; [exact Hw|]. split; [right; eauto | right; eauto].
    + exists (trace s), [post_event h core], (ConsoleLog ("Posted:" ++ JsString.line_feed ++ core)).
      cbn [events exit_code]. unfold push. rewrite <- app_assoc.
      split; [reflexivity|]. split; [exact Hw|]. split; [right; eauto | left; eauto].
Qed.

(** A run calls [chat.postMessage] at most once, and only after the
    configuration check has passed: always with the token of the
    environment, to the channel [#proj-double], as "Money Doubler" with the
    icon [:proj_double:] and markup enabled, and with the composed message
    as its text. *)
Theorem post_discipline (h : Host) (d : gmap string string) :
  let o := run h d in
  (length (posted (events o)) <= 1)%nat /\
  (forall token channel text username icon_emoji mrkdwn,
      In (ChatPostMessage token channel text username icon_emoji mrkdwn) (events o) ->
      token = client_token h /\ channel = "#proj-double" /\
      username = "Money Doubler" /\ icon_emoji = ":proj_double:" /\ mrkdwn = true /\
      message h = Some text /\ truthy (WEBHOOK h) = true /\ 0 <= remaining h).
Proof.
  cbv zeta.
  destruct (run_events h d) as [(_ & _ & -> & _) | (_ & writes & posts & last & -> & Hw & Hp & Hl)].
  { split; [cbn; lia | intros ? ? ? ? ? ? []]. }
  assert (Hpw : posted writes = []).
  { destruct Hw as [-> | (core & _ & ->)]; reflexivity. }
  assert (Hpl : posted [last] = []).
  { destruct Hl as [[_ [t ->]] | [_ [t ->]]]; reflexivity. }
  split.
  - unfold posted in *. rewrite !flat_map_app, Hpw, Hpl.
    destruct Hp as [-> | (core & _ & _ & ->)]; cbn; lia.
  - intros token channel text username icon_emoji mrkdwn Hin.
    apply in_app_or in Hin as [Hin | Hin].
    { destruct Hw as [-> | (core & _ & ->)]; [destruct Hin|].
      destruct Hin as [H|[]]. discriminate. }
    apply in_app_or in Hin as [Hin | Hin].
    2:{ destruct Hin as [H|[]]. destruct Hl as [[_ [t ->]] | [_ [t ->]]]; discriminate. }
    destruct Hp as [-> | (core & Hm & Hwh & ->)]; [destruct Hin|].
    destruct Hin as [H|[]]. unfold post_event in H. injection H as <- <- <- <- <- <-.
    repeat (split; [reflexivity || assumption|]).
    unfold message in Hm. destruct (Z.ltb_spec (remaining h) 0); [discriminate | lia].
Qed.

(** A run that is not ended by the uncaught RangeError of an invalid time
    zone prints exactly one console line, as the last thing it does: a
    [console.error] exactly when it ends with status 1, a [console.log]
    exactly when it ends with status 0.  The run the RangeError ends (the
    webhook is configured, the zone is not valid) is the only one that
    prints nothing: it ends with status 1 and an empty trace. *)
Theorem last_event_reports_outcome (h : Host) (d : gmap string string) :
  let o := run h d in
  (truthy (WEBHOOK h) = true /\ zone_ok h = false /\
   events o = [] /\ exit_code o = 1 /\ disk_after o = d) \/
  ((truthy (WEBHOOK h) = false \/ zone_ok h = true) /\
   exists (before : list Event) (last : Event),
     events o = (before ++ [last])%list /\
     Forall (fun e => is_console e = false) before /\
     (exit_code o = 1 <-> exists err, last = ConsoleError err) /\
     (exit_code o = 0 <-> exists text, last = ConsoleLog text)).
Proof.
  cbv zeta.
  destruct (run_events h d) as [Hcrash | (Hok & writes & posts & last & He & Hw & Hp & Hl)];
    [now left | right]. split; [exact Hok|].
  exists (writes ++ posts)%list, last. split; [now rewrite <- app_assoc|].
  split.
  - apply Forall_app. split.
    + destruct Hw as [-> | (core & _ & ->)]; repeat constructor.
    + destruct Hp as [-> | (core & _ & _ & ->)]; repeat constructor.
  - destruct Hl as [[Hc [t ->]] | [Hc [t ->]]]; rewrite Hc; split; split;
      try (intros [x Hx]); try intros Hx; try discriminate; eauto.
Qed.

(** ** The environment *)

Lemma with_env_message (h : Host) (e' : gmap string string) :
  e' !! "TZ" = env h !! "TZ" -> message (with_env h e') = message h.
Proof.
  intros Htz.
  assert (Ez : TZ (with_env h e') = TZ h) by (unfold TZ; cbn [env with_env]; now rewrite Htz).
  assert (En : now (with_env h e') = now h) by (unfold now; now rewrite Ez).
  assert (Es : start (with_env h e') = start h) by (unfold start; now rewrite Ez).
  assert (Et : target (with_env h e') = target h) by (unfold target; now rewrite Ez).
  assert (Er : remaining (with_env h e') = remaining h) by (unfold remaining; now rewrite En, Et).
  assert (ET : totalDays (with_env h e') = totalDays h) by (unfold totalDays; now rewrite Es, Et).
  assert (Ee : elapsedDays (with_env h e') = elapsedDays h)
    by (unfold elapsedDays; now rewrite ET, Es, En).
  unfold message, isMilestone. now rewrite Er, ET, Ee.
Qed.

(** Of its environment a run reads three variables and nothing else: [TZ],
    [SLACK_BOT_TOKEN], and of [SLACK_WEBHOOK_URL] only whether it is set to
    a non-empty string.  Two environments that agree on these give the same
    run: the webhook URL itself is never used. *)
Theorem run_reads_three_variables (h : Host) (e' : gmap string string)
        (d : gmap string string) :
  e' !! "TZ" = env h !! "TZ" ->
  e' !! "SLACK_BOT_TOKEN" = env h !! "SLACK_BOT_TOKEN" ->
  truthy (e' !! "SLACK_WEBHOOK_URL") = truthy (env h !! "SLACK_WEBHOOK_URL") ->
  run (with_env h e') d = run h d.
Proof.
  intros Htz Htok Hweb. rewrite !run_eq. unfold run_result.
  rewrite (with_env_message h e' Htz).
  assert (Ew : truthy (WEBHOOK (with_env h e')) = truthy (WEBHOOK h)) by exact Hweb.
  assert (Ec : client_token (with_env h e') = client_token h) by exact Htok.
  assert (Ez : zone_ok (with_env h e') = zone_ok h).
  { unfold zone_ok, TZ. cbn [env with_env time_zone_known]. now rewrite Htz. }
  rewrite Ew, Ez. unfold post_event. rewrite Ec. reflexivity.
Qed.

(** ** The guard file: white space, sessions *)

Lemma strip_ws_prefix back pre l :
  Forall (fun a => JsString.ws1 a = true) pre ->
  JsString.strip back (pre ++ l) = JsString.strip back l.
Proof.
  induction 1 as [|a pre Ha _ IH]; [reflexivity|].
  cbn [app JsString.strip]. now rewrite Ha.
Qed.

Lemma to_bytes_bytes l :
  Forall (fun a => JsString.ws1 a = true) l -> JsString.to_bytes (JsString.bytes l) = l.
Proof.
  intros Hl. unfold JsString.bytes, JsString.to_bytes.
  rewrite list_ascii_of_string_of_list_ascii, map_map.
  induction Hl as [|a l Ha _ IH]; [reflexivity|]. cbn [map]. rewrite IH. f_equal.
  apply nat_ascii_embedding. unfold JsString.ws1 in Ha.
  apply orb_true_iff in Ha as [Ha | Ha].
  - apply andb_true_iff in Ha as [_ Ha]. apply Nat.leb_le in Ha. lia.
  - apply Nat.eqb_eq in Ha. lia.
Qed.

(** [trim] removes ASCII white space around a word of plain bytes. *)
Lemma trim_padded (pre post : list nat) (s : string) :
  Forall (fun a => JsString.ws1 a = true) pre ->
  Forall (fun a => JsString.ws1 a = true) post ->
  s <> "" -> Forall (fun a => plain a = true) (JsString.to_bytes s) ->
  JsString.trim (JsString.bytes pre ++ s ++ JsString.bytes post) = s.
Proof.
  intros Hpre Hpost Hne Hs. unfold JsString.trim.
  rewrite !to_bytes_app, !to_bytes_bytes by assumption.
  rewrite strip_ws_prefix by assumption.
  rewrite <- (bytes_to_bytes s) at 2.
  destruct (JsString.to_bytes s) as [|a l] eqn:El.
  { exfalso. apply Hne. rewrite <- (bytes_to_bytes s), El. reflexivity. }
  cbn [app]. rewrite strip_plain by (now inversion Hs).
  change (a :: (l ++ post)%list) with ((a :: l) ++ post)%list.
  rewrite rev_app_distr, strip_ws_prefix by (now apply Forall_rev).
  assert (Hrev : Forall (fun a => plain a = true) (rev (a :: l))) by (now apply Forall_rev).
  destruct (rev (a :: l)) as [|z r] eqn:Er.
  - apply (f_equal (@length nat)) in Er. rewrite length_rev in Er. discriminate.
  - rewrite strip_plain by (now inversion Hrev).
    rewrite <- Er, rev_involutive. reflexivity.
Qed.

Lemma md5_hex_nonempty s : md5_hex s <> "".
Proof.
  intros H. apply (f_equal String.length) in H. unfold md5_hex in H.
  rewrite length_encode in H. discriminate.
Qed.

(** The guard compares the stored hash after [trim]: a guard file that
    holds the hash of the message between any ASCII white space (spaces,
    tabs, a final line feed or CR LF, ...) counts as the same message.  The
    guard then returns [true] without writing, and the run skips. *)
Theorem guard_ignores_white_space
        (h : Host) (pre post : list nat) (core : string) (d : gmap string string) :
  read_fails h = false ->
  Forall (fun a => JsString.ws1 a = true) pre ->
  Forall (fun a => JsString.ws1 a = true) post ->
  d !! guard_file = Some (JsString.bytes pre ++ md5_hex core ++ JsString.bytes post) ->
  alreadyPostedGuard h (md5_hex core) {| disk := d; trace := [] |}
  = (Normal true, {| disk := d; trace := [] |}) /\
  (composes h core ->
   run h d = {| exit_code := 0;
                events := [ConsoleLog "Already posted identical message this run; skipping."];
                disk_after := d |}).
Proof.
  intros Hr Hpre Hpost Hd.
  assert (Ht : JsString.trim (JsString.bytes pre ++ md5_hex core ++ JsString.bytes post)
               = md5_hex core).
  { apply trim_padded; try assumption; [apply md5_hex_nonempty | apply encode_plain]. }
  assert (Hg : guard_result h (md5_hex core) {| disk := d; trace := [] |}
               = (true, {| disk := d; trace := [] |})).
  { unfold guard_result. cbn [disk]. rewrite Hd, Hr, Ht, String.eqb_refl. reflexivity. }
  split.
  - rewrite guard_eq, Hg. reflexivity.
  - intros (Hw & Hz & Hm). rewrite run_eq. unfold run_result. rewrite Hw, Hz, Hm, Hg. reflexivity.
Qed.

Lemma posted_app a b : posted (a ++ b) = (posted a ++ posted b)%list.
Proof. unfold posted. apply flat_map_app. Qed.

Lemma session_skips (hs : list Host) (d : gmap string string) (core data : string) :
  Forall (fun h => storage_works h /\ composes h core) hs ->
  d !! guard_file = Some data -> JsString.trim data = md5_hex core ->
  posted (session hs d).1 = [] /\ (session hs d).2 = d.
Proof.
  intros Hall Hd Ht. induction Hall as [|h rest [Hs Hc] _ IH]; [split; reflexivity|].
  cbn [session]. destruct (run_skips_duplicate h d core data Hs Hc Hd Ht) as [_ ->].
  cbn [disk_after events]. destruct (session rest d) as [evs d'].
  cbn [fst snd] in *. destruct IH as [IH1 IH2]. split; [|assumption].
  rewrite posted_app, IH1. reflexivity.
Qed.

(** However often the script is run in one execution context on a working
    storage while it composes the same message, only the first run can call
    [chat.postMessage], and it does so at most once: all later runs find
    the hash the first one left.  This holds whether or not the call of the
    first run succeeded. *)
Theorem session_posts_at_most_once
        (h : Host) (rest : list Host) (d : gmap string string) (core : string) :
  Forall (fun h => storage_works h /\ composes h core) (h :: rest) ->
  posted (session (h :: rest) d).1 = posted (events (run h d)) /\
  (length (posted (session (h :: rest) d).1) <= 1)%nat /\
  (session (h :: rest) d).2 = disk_after (run h d).
Proof.
  intros Hall. inversion Hall as [|h' r' [Hs Hc] Hrest]; subst.
  destruct (guard_file_after_run h d core Hs Hc) as (data & Hd & Ht).
  destruct (session_skips rest (disk_after (run h d)) core data Hrest Hd Ht) as [Hp Hdisk].
  cbn [session]. destruct (session rest (disk_after (run h d))) as [evs d'].
  cbn [fst snd] in *. rewrite posted_app, Hp, app_nil_r.
  split; [reflexivity|]. split; [|assumption].
  destruct (run_events h d)
    as [(_ & _ & -> & _) | (_ & writes & posts & last & -> & Hw & Hpo & Hl)]; [cbn; lia|].
  rewrite !posted_app.
  assert (Hpw : posted writes = []) by (destruct Hw as [-> | (c & _ & ->)]; reflexivity).
  assert (Hpl : posted [last] = [])
    by (destruct Hl as [[_ [t ->]] | [_ [t ->]]]; reflexivity).
  rewrite Hpw, Hpl. destruct Hpo as [-> | (c & _ & _ & ->)]; cbn; lia.
Qed.

(** ** The clamp of [elapsedDays] in binary64 *)

Lemma Math_floor_finite (s : bool) (m : positive) (e : Z) :
  Number.Math_floor (S754_finite s m e) = Number.of_Z (Number.floor_Z s m e).
Proof. unfold Number.Math_floor. now destruct (Number.floor_Z s m e). Qed.

Lemma daysDiff_Number_exact (a b : Z) :
  Z.abs a < 2 ^ 53 -> Z.abs b < 2 ^ 53 -> Z.abs (b - a) < 2 ^ 53 ->
  daysDiff_Number a b = Number.of_Z (daysDiff a b).
Proof.
  intros Ha Hb Hd. unfold daysDiff_Number, daysDiff. cbv zeta.
  rewrite sub_exact by assumption.
  destruct (b - a) as [|v|v].
  - reflexivity.
  - rewrite of_Z_pos by lia.
    destruct (days_floor_Z false v ltac:(lia)) as (m & e & -> & Hfl & _).
    now rewrite Math_floor_finite, Hfl.
  - rewrite of_Z_neg by lia.
    destruct (days_floor_Z true v ltac:(lia)) as (m & e & -> & Hfl & _).
    now rewrite Math_floor_finite, Hfl.
Qed.

Lemma cmp_mag_canon (v1 v2 : positive) :
  Z.pos v1 < 2 ^ 53 -> Z.pos v2 < 2 ^ 53 ->
  Number.cmp_mag (Z.to_pos (Z.pos v1 * 2 ^ (53 - Z.pos (digits2_pos v1))))
                 (Z.pos (digits2_pos v1) - 53)
                 (Z.to_pos (Z.pos v2 * 2 ^ (53 - Z.pos (digits2_pos v2))))
                 (Z.pos (digits2_pos v2) - 53)
  = (Z.pos v1 ?= Z.pos v2).
Proof.
  intros H1 H2.
  pose proof (canon_digits v1 H1) as (Hd1 & Hm1 & _).
  pose proof (canon_digits v2 H2) as (Hd2 & Hm2 & _). cbv zeta in *.
  unfold Number.cmp_mag. rewrite Hm1, Hm2.
  set (d1 := Z.pos (digits2_pos v1)) in *. set (d2 := Z.pos (digits2_pos v2)) in *.
  assert (0 < d1) by (unfold d1; lia). assert (0 < d2) by (unfold d2; lia).
  set (e := Z.min (d1 - 53) (d2 - 53)).
  rewrite <- !Z.mul_assoc, <- !pow2_split by lia.
  replace (53 - d1 + (d1 - 53 - e)) with (- e) by lia.
  replace (53 - d2 + (d2 - 53 - e)) with (- e) by lia.
  assert (HP : 0 < 2 ^ (- e)) by (apply Z.pow_pos_nonneg; lia).
  destruct (Z.compare_spec (Z.pos v1) (Z.pos v2)) as [E | E | E];
    [apply Z.compare_eq_iff | apply Z.compare_lt_iff | apply Z.compare_gt_iff]; nia.
Qed.

(** Numbers of integers below 2^53 compare as the integers do. *)
Lemma compare_of_Z (a b : Z) :
  Z.abs a < 2 ^ 53 -> Z.abs b < 2 ^ 53 ->
  Number.compare (Number.of_Z a) (Number.of_Z b) = Some (a ?= b).
Proof.
  intros Ha Hb. destruct a as [|va|va], b as [|vb|vb];
    rewrite ?(of_Z_pos va), ?(of_Z_neg va), ?(of_Z_pos vb), ?(of_Z_neg vb) by lia;
    try reflexivity.
  - unfold canon, Number.compare. rewrite cmp_mag_canon by lia. reflexivity.
  - unfold canon, Number.compare. rewrite cmp_mag_canon by lia.
    cbn [Z.compare]. now rewrite Pos.compare_antisym.
Qed.

Lemma Math_max_of_Z (a b : Z) :
  Z.abs a < 2 ^ 53 -> Z.abs b < 2 ^ 53 ->
  Number.Math_max (Number.of_Z a) (Number.of_Z b) = Number.of_Z (Z.max a b).
Proof.
  intros Ha Hb. unfold Number.Math_max. rewrite compare_of_Z by assumption.
  unfold Z.max. destruct (a ?= b) eqn:E; try reflexivity.
  apply Z.compare_eq in E. subst b. now destruct (Number.is_neg_zero (Number.of_Z a)).
Qed.

Lemma Math_min_of_Z (a b : Z) :
  Z.abs a < 2 ^ 53 -> Z.abs b < 2 ^ 53 ->
  Number.Math_min (Number.of_Z a) (Number.of_Z b) = Number.of_Z (Z.min a b).
Proof.
  intros Ha Hb. unfold Number.Math_min. rewrite compare_of_Z by assumption.
  unfold Z.min. destruct (a ?= b) eqn:E; try reflexivity.
  apply Z.compare_eq in E. subst b. now destruct (Number.is_neg_zero (Number.of_Z a)).
Qed.

(** The Numbers [main] hands to [buildProgress] are the integers of the
    model: evaluated in binary64, [daysDiff(start, target)] and
    [Math.min(totalDays, Math.max(0, daysDiff(start, now)))] are exactly
    the Numbers of [totalDays] and [elapsedDays], whenever the three time
    values and the two differences the code forms, [target - start] and
    [now - start], are below 2^53 in magnitude. *)
Theorem elapsed_clamp_exact (h : Host) :
  Z.abs (start h) < 2 ^ 53 -> Z.abs (now h) < 2 ^ 53 -> Z.abs (target h) < 2 ^ 53 ->
  Z.abs (target h - start h) < 2 ^ 53 -> Z.abs (now h - start h) < 2 ^ 53 ->
  totalDays_binary64 h = Number.of_Z (totalDays h) /\
  elapsedDays_binary64 h = Number.of_Z (elapsedDays h) /\
  buildProgress (elapsedDays_binary64 h) (totalDays_binary64 h)
  = buildProgress (Number.of_Z (elapsedDays h)) (Number.of_Z (totalDays h)).
Proof.
  intros Hs Hn Ht Hts Hns.
  assert (ET : totalDays_binary64 h = Number.of_Z (totalDays h))
    by (apply daysDiff_Number_exact; lia).
  assert (EQ : daysDiff_Number (start h) (now h) = Number.of_Z (daysDiff (start h) (now h)))
    by (apply daysDiff_Number_exact; lia).
  pose proof (day_quotient_bounds (target h - start h)) as [BT _].
  pose proof (day_quotient_bounds (now h - start h)) as [BQ _].
  assert (EE : elapsedDays_binary64 h = Number.of_Z (elapsedDays h)).
  { unfold elapsedDays_binary64, elapsedDays. rewrite ET, EQ.
    unfold totalDays, daysDiff in *. cbv zeta in *.
    rewrite Math_max_of_Z, Math_min_of_Z by lia. reflexivity. }
  now rewrite ET, EE.
Qed.

(** ** A storage that cannot be written *)



End SendCountdown.

(* ===================================================================== *)
(** * The digests against their published test vectors                    *)
(* ===================================================================== *)

Example md5_empty : Crypto.md5 "" = 0xd41d8cd98f00b204e9800998ecf8427e%N.
Proof. vm_compute. reflexivity. Qed.

Example md5_abc : Crypto.md5 "abc" = 0x900150983cd24fb0d6963f7d28e17f72%N.
Proof. vm_compute. reflexivity. Qed.

Example sha1_empty : Crypto.sha1 "" = 0xda39a3ee5e6b4b0d3255bfef95601890afd80709%N.
Proof. vm_compute. reflexivity. Qed.

Example sha1_abc : Crypto.sha1 "abc" = 0xa9993e364706816aba3e25717850c26c9cd0d89d%N.
Proof. vm_compute. reflexivity. Qed.

(* ===================================================================== *)
(** * The claims at sample worlds                                         *)
(* ===================================================================== *)

Lemma sep_3_composes (now_ms : Z) (rf wf : bool) (api : option string) :
  now_ms = sep_3_morning \/ now_ms = sep_3_evening ->
  composes Crypto.md5 Crypto.sha1 sample_number_to_string
           (sample_host sample_env now_ms rf wf api) sep_3_message.
Proof. intros [-> | ->]; repeat split; vm_compute; reflexivity. Qed.

Lemma elapsedDays_clamped_witness :
  let h := sample_host sample_env sep_3_morning false false None in
  start h <= target h /\
  (let q := daysDiff (start h) (now h) in
   q * 86400000 <= now h - start h < (q + 1) * 86400000 /\
   elapsedDays h = (if q <? 0 then 0 else if totalDays h <? q then totalDays h else q) /\
   0 <= elapsedDays h <= totalDays h).
Proof.
  intros h.
  assert (Hst : start h <= target h) by (vm_compute; discriminate).
  split; [exact Hst|]. exact (elapsedDays_clamped h Hst).
Defined.

Lemma progress_bar_shape_witness :
  let ratio := Number.div (Number.of_Z 45) (Number.of_Z 90) in
  in_unit ratio /\
  exists (filled : Z) (p : Progress),
    renderProgress sample_number_to_string ratio = Ok p /\
    (forall elapsedDays totalDays,
        clampRatio elapsedDays totalDays = ratio ->
        buildProgress sample_number_to_string elapsedDays totalDays = Ok p) /\
    Number.ToIntegerOrInfinity (Number.Math_round (Number.mul ratio (Number.of_Z BAR_LENGTH)))
    = Number.Int filled /\
    0 <= filled <= BAR_LENGTH /\
    bar p = JsString.repeat_n BAR_FILLED (Z.to_nat filled)
            ++ JsString.repeat_n BAR_EMPTY (Z.to_nat (BAR_LENGTH - filled)) /\
    JsString.code_points (bar p) = 30%nat /\
    pct p = Number.toFixed1 sample_number_to_string (Number.mul ratio (Number.of_Z 100)) /\
    exists n,
      0 <= n <= 1000 /\
      pct p = JsString.of_int (n / 10) ++ "." ++ JsString.of_int (n mod 10) /\
      String.length (JsString.of_int (n mod 10)) = 1%nat.
Proof.
  intros ratio.
  assert (Hu : in_unit ratio) by (split; vm_compute; reflexivity).
  split; [exact Hu|]. exact (progress_bar_shape sample_number_to_string ratio Hu).
Defined.

Lemma guard_swallows_storage_failures_witness :
  let h := sample_host sample_env sep_3_morning true false None in
  let hash := md5_hex Crypto.md5 sep_3_message in
  let s := {| disk := <[guard_file := hash]> ∅; trace := [] |} in
  storage_failure_raised h hash s /\
  alreadyPostedGuard h hash s = (Normal false, s) /\
  (forall core,
      composes Crypto.md5 Crypto.sha1 sample_number_to_string h core ->
      hash = md5_hex Crypto.md5 core -> trace s = [] ->
      posted (events (run Crypto.md5 Crypto.sha1 sample_number_to_string h (disk s)))
      = [(client_token h, core)]).
Proof.
  intros h hash s.
  assert (Hraised : storage_failure_raised h hash s).
  { left. split.
    - exists hash. vm_compute. reflexivity.
    - exists "EIO: read failed", s. reflexivity. }
  split; [exact Hraised|].
  exact (guard_swallows_storage_failures Crypto.md5 Crypto.sha1 sample_number_to_string
           h hash s Hraised).
Defined.

Lemma dedup_guard_skips_identical_witness :
  let h1 := sample_host sample_env sep_3_morning false false None in
  let h2 := sample_host sample_env sep_3_evening false false None in
  let o1 := run Crypto.md5 Crypto.sha1 sample_number_to_string h1 ∅ in
  let o2 := run Crypto.md5 Crypto.sha1 sample_number_to_string h2 (disk_after o1) in
  storage_works h1 /\ storage_works h2 /\
  composes Crypto.md5 Crypto.sha1 sample_number_to_string h1 sep_3_message /\
  composes Crypto.md5 Crypto.sha1 sample_number_to_string h2 sep_3_message /\
  posted (events o1) = [(Some "xoxb-0", sep_3_message)] /\
  posted (events o2) = [] /\
  events o2 = [ConsoleLog "Already posted identical message this run; skipping."] /\
  disk_after o2 = disk_after o1 /\
  exit_code o2 = 0.
Proof.
  intros h1 h2 o1 o2.
  assert (Hs1 : storage_works h1) by (split; reflexivity).
  assert (Hs2 : storage_works h2) by (split; reflexivity).
  assert (Hc1 : composes Crypto.md5 Crypto.sha1 sample_number_to_string h1 sep_3_message)
    by (apply sep_3_composes; now left).
  assert (Hc2 : composes Crypto.md5 Crypto.sha1 sample_number_to_string h2 sep_3_message)
    by (apply sep_3_composes; now right).
  destruct (dedup_guard_skips_identical Crypto.md5 Crypto.sha1 sample_number_to_string
              h1 h2 ∅ sep_3_message Hs1 Hs2 Hc1 Hc2) as (_ & Hp & He & Hd & Hx & _).
  repeat (split; [assumption|]).
  split; [vm_compute; reflexivity|].
  repeat (split; [assumption|]). assumption.
Defined.

Lemma hash_stored_before_publish_witness :
  let h1 := sample_host sample_env sep_3_morning false false (Some "not_authed") in
  let h2 := sample_host sample_env sep_3_evening false false None in
  let core := sep_3_message in
  let o1 := run Crypto.md5 Crypto.sha1 sample_number_to_string h1 ∅ in
  let o2 := run Crypto.md5 Crypto.sha1 sample_number_to_string h2 (disk_after o1) in
  storage_works h1 /\ storage_works h2 /\
  composes Crypto.md5 Crypto.sha1 sample_number_to_string h1 core /\
  composes Crypto.md5 Crypto.sha1 sample_number_to_string h2 core /\
  (alreadyPostedGuard h1 (md5_hex Crypto.md5 core) {| disk := ∅; trace := [] |}).1
  = Normal false /\
  slack_api h1 (client_token h1) core = Some "not_authed" /\
  events o1 = [WriteFile guard_file (md5_hex Crypto.md5 core); post_event h1 core;
               ConsoleError "not_authed"] /\
  exit_code o1 = 1 /\
  disk_after o1 !! guard_file = Some (md5_hex Crypto.md5 core) /\
  events o2 = [ConsoleLog "Already posted identical message this run; skipping."] /\
  posted (events o2) = [] /\
  exit_code o2 = 0.
Proof.
  intros h1 h2 core o1 o2.
  assert (Hs1 : storage_works h1) by (split; reflexivity).
  assert (Hs2 : storage_works h2) by (split; reflexivity).
  assert (Hc1 : composes Crypto.md5 Crypto.sha1 sample_number_to_string h1 core)
    by (apply sep_3_composes; now left).
  assert (Hc2 : composes Crypto.md5 Crypto.sha1 sample_number_to_string h2 core)
    by (apply sep_3_composes; now right).
  assert (Hg : (alreadyPostedGuard h1 (md5_hex Crypto.md5 core) {| disk := ∅; trace := [] |}).1
               = Normal false) by (vm_compute; reflexivity).
  assert (Hapi : slack_api h1 (client_token h1) core = Some "not_authed") by reflexivity.
  repeat (split; [assumption|]).
  exact (hash_stored_before_publish Crypto.md5 Crypto.sha1 sample_number_to_string
           h1 h2 ∅ core "not_authed" Hs1 Hs2 Hc1 Hc2 Hg Hapi).
Defined.

(** C10 as stated fails: with SLACK_WEBHOOK_URL set and SLACK_BOT_TOKEN
    unset, a run started the day after the target date passes the
    configuration check and stops there; no publish call is made. *)
Lemma publish_not_reached_counterexample :
  let h := sample_host webhook_only_env oct_19_morning false false None in
  let o := run Crypto.md5 Crypto.sha1 sample_number_to_string h ∅ in
  WEBHOOK h = Some "https://hooks.slack.com/services/T0/B0/X0" /\
  client_token h = None /\
  truthy (WEBHOOK h) = true /\
  remaining h = -1 /\
  events o = [ConsoleLog "Target date passed. Stopping (no further posts)."] /\
  posted (events o) = [] /\
  exit_code o = 0.
Proof. vm_compute. repeat split. Qed.

(** A SLACK_WEBHOOK_URL that is set to the empty string counts as missing. *)
Example empty_webhook_stops_run :
  let h := sample_host empty_webhook_env sep_3_morning false false None in
  WEBHOOK h = Some "" /\
  run Crypto.md5 Crypto.sha1 sample_number_to_string h ∅
  = {| exit_code := 1; events := [ConsoleError "Missing SLACK_WEBHOOK_URL"]; disk_after := ∅ |}.
Proof. vm_compute. split; reflexivity. Qed.

Lemma config_check_ignores_token_witness :
  let h := sample_host webhook_only_env sep_3_morning false false (Some "not_authed") in
  truthy (WEBHOOK h) = true /\ zone_ok h = true /\ client_token h = None /\
  0 <= remaining h /\
  message Crypto.md5 Crypto.sha1 sample_number_to_string h = Some sep_3_message /\
  posted (events (run Crypto.md5 Crypto.sha1 sample_number_to_string h ∅))
  = [(None, sep_3_message)].
Proof.
  intros h.
  assert (Hw : truthy (WEBHOOK h) = true) by reflexivity.
  assert (Hz : zone_ok h = true) by reflexivity.
  assert (Ht : client_token h = None) by reflexivity.
  assert (Hr : 0 <= remaining h) by (vm_compute; discriminate).
  destruct (config_check_ignores_token Crypto.md5 Crypto.sha1 sample_number_to_string h ∅)
    as (_ & Hrun & _).
  destruct (Hrun Hw Hz Ht Hr) as (core & Hm & Hposted).
  assert (Hcore : core = sep_3_message).
  { assert (Hm' : message Crypto.md5 Crypto.sha1 sample_number_to_string h = Some sep_3_message)
      by (vm_compute; reflexivity).
    congruence. }
  subst core. repeat (split; [assumption|]).
  apply Hposted. vm_compute. reflexivity.
Defined.


(** The three day-count lines at 45, 1 and 0 days left, and the text
    [pickNudge] returns at 45 and at 0. *)
Lemma day_count_branches_witness :
  pickNudge_lines Crypto.md5 Crypto.sha1 45 "50.0" true
  = [ "⏳ *45 days left* (50.0% done).";
      "💡 *Prompt:* Momentum beats perfection. Ship a micro-improvement.";
      "🎯 *Milestone Prompt:* Milestone check-in: write *one concrete win* in a thread." ] /\
  pickNudge Crypto.md5 Crypto.sha1 45 "50.0" true
  = "⏳ *45 days left* (50.0% done).
💡 *Prompt:* Momentum beats perfection. Ship a micro-improvement.
🎯 *Milestone Prompt:* Milestone check-in: write *one concrete win* in a thread." /\
  pickNudge_lines Crypto.md5 Crypto.sha1 1 "98.9" true
  = [ "🔥 *1 day left!* (98.9% done). Last call.";
      "💡 *Prompt:* Tiny compounding moves > heroic last-minute swings.";
      "🎯 *Milestone Prompt:* Brag moment: what metric nudged upward recently?" ] /\
  pickNudge_lines Crypto.md5 Crypto.sha1 0 "100.0" true
  = [ "🚀 *Today is the final day!* (100.0% complete). Make it count.";
      "🏁 *Project is over after today.* Post a retro: What worked? What was noise? What will you keep doing?" ] /\
  pickNudge Crypto.md5 Crypto.sha1 0 "100.0" true
  = "🚀 *Today is the final day!* (100.0% complete). Make it count.
🏁 *Project is over after today.* Post a retro: What worked? What was noise? What will you keep doing?".
Proof.
  destruct (day_count_branches Crypto.md5 Crypto.sha1 sample_number_to_string 45 "50.0" true)
    as (H45 & _).
  destruct (day_count_branches Crypto.md5 Crypto.sha1 sample_number_to_string 1 "98.9" true)
    as (_ & H1 & _).
  destruct (day_count_branches Crypto.md5 Crypto.sha1 sample_number_to_string 0 "100.0" true)
    as (_ & _ & H0 & _).
  destruct (H45 ltac:(lia)) as [L45 P45]. destruct (H1 eq_refl) as [L1 _].
  destruct (H0 eq_refl) as [L0 P0].
  rewrite L45, P45, L1, L0, P0.
  vm_compute. repeat split.
Defined.

Lemma milestone_line_iff_witness :
  let h := sample_host sample_env sep_3_morning false false None in
  (In (remaining h) [90; 75; 60; 45; 30; 21; 14; 10; 7; 5; 3; 2; 1; 0] /\ 0 < remaining h) /\
  exists msg,
    message Crypto.md5 Crypto.sha1 sample_number_to_string h = Some msg /\
    JsString.includes milestone_marker msg = true.
Proof.
  intros h.
  assert (Hm : In (remaining h) [90; 75; 60; 45; 30; 21; 14; 10; 7; 5; 3; 2; 1; 0] /\
               0 < remaining h).
  { change (remaining h) with 45. split; [simpl; tauto | lia]. }
  split; [exact Hm|].
  exact (proj2 (milestone_line_iff Crypto.md5 Crypto.sha1 sample_number_to_string h) Hm).
Defined.

(** The day after a milestone (44 days left) has no milestone line. *)
Example no_milestone_line_at_44 :
  let h := sample_host sample_env (sep_3_morning + 86400000) false false None in
  remaining h = 44 /\
  exists msg,
    message Crypto.md5 Crypto.sha1 sample_number_to_string h = Some msg /\
    JsString.includes milestone_marker msg = false.
Proof. split; [reflexivity|]. eexists. split; vm_compute; reflexivity. Qed.

(** C5 as stated fails: with the webhook configured and a TZ that names no
    time zone, [toLocaleString] raises in [todayLocal]; nothing catches the
    RangeError, and the run ends with status 1 though no secret is missing
    and no publish call was made. *)
Lemma invalid_zone_exit_counterexample :
  let h := sample_host bad_zone_env sep_3_morning false false None in
  let o := run Crypto.md5 Crypto.sha1 sample_number_to_string h ∅ in
  WEBHOOK h = Some "https://hooks.slack.com/services/T0/B0/X0" /\
  truthy (WEBHOOK h) = true /\
  client_token h = Some "xoxb-0" /\
  TZ h = "Invalid/Zone" /\
  todayLocal h (TZ h) = Raise "RangeError: Invalid time zone specified: Invalid/Zone" /\
  exit_code o = 1 /\
  events o = [] /\
  posted (events o) = [] /\
  disk_after o = ∅.
Proof. vm_compute. repeat split. Qed.

Lemma exit_status_witness :
  let h := sample_host sample_env sep_3_morning false false (Some "not_authed") in
  let o := run Crypto.md5 Crypto.sha1 sample_number_to_string h ∅ in
  (exists core err,
      posted (events o) = [(client_token h, core)] /\
      slack_api h (client_token h) core = Some err) /\
  exit_code o = 1.
Proof.
  intros h o.
  assert (Hfail : exists core err,
             posted (events o) = [(client_token h, core)] /\
             slack_api h (client_token h) core = Some err).
  { exists sep_3_message, "not_authed". split; vm_compute; reflexivity. }
  split; [exact Hfail|].
  destruct (exit_status Crypto.md5 Crypto.sha1 sample_number_to_string h ∅) as (_ & Hone & _).
  apply Hone. right. right. exact Hfail.
Defined.

Lemma remaining_complements_elapsed_witness :
  let h := sample_host sample_env sep_3_evening false false None in
  (target h - start h) mod 86400000 = 0 /\
  start h <= now h < target h + 86400000 /\
  elapsedDays h + remaining h = totalDays h.
Proof.
  intros h.
  assert (Ha : (target h - start h) mod 86400000 = 0) by (vm_compute; reflexivity).
  assert (Hw : start h <= now h < target h + 86400000)
    by (split; vm_compute; [discriminate | reflexivity]).
  split; [exact Ha|]. split; [exact Hw|].
  exact (remaining_complements_elapsed h Ha Hw).
Defined.

Lemma day_arithmetic_exact_witness :
  daysDiff_binary64 1752958800000 sep_3_evening
  = Number.Int (daysDiff 1752958800000 sep_3_evening) /\
  daysLeft_binary64 1752958800000 sep_3_evening
  = Number.Int (daysLeft 1752958800000 sep_3_evening).
Proof. apply day_arithmetic_exact; vm_compute; reflexivity. Defined.

(** The end-to-end example of the specification: on 2025-07-20 the window
    has 90 days, none elapsed and 90 left, a milestone, an empty bar and
    0.0 percent; on 2025-10-18 no day is left, the bar is full at 100.0
    percent and the retrospective line closes the message; on 2025-10-19 the
    remaining days are -1 and the run ends with status 0 without posting. *)
Theorem end_to_end_example :
  let first := sample_host sample_env 1752991200000 false false None in
  let last := sample_host sample_env oct_18_morning false false None in
  let after := sample_host sample_env oct_19_morning false false None in
  (totalDays first = 90 /\ elapsedDays first = 0 /\ remaining first = 90 /\
   isMilestone first = true /\
   message Crypto.md5 Crypto.sha1 sample_number_to_string first
   = Some "*What have you done today to double your money?*
⬜⬜⬜⬜⬜⬜⬜⬜⬜⬜⬜⬜⬜⬜⬜⬜⬜⬜⬜⬜⬜⬜⬜⬜⬜⬜⬜⬜⬜⬜ 0.0%
⏳ *90 days left* (0.0% done).
💡 *Prompt:* Momentum beats perfection. Ship a micro-improvement.
🎯 *Milestone Prompt:* Drop a ✅ in thread once you’ve executed *one task* toward doubling.") /\
  (elapsedDays last = 90 /\ remaining last = 0 /\
   message Crypto.md5 Crypto.sha1 sample_number_to_string last
   = Some "*What have you done today to double your money?*
🟩🟩🟩🟩🟩🟩🟩🟩🟩🟩🟩🟩🟩🟩🟩🟩🟩🟩🟩🟩🟩🟩🟩🟩🟩🟩🟩🟩🟩🟩 100.0%
🚀 *Today is the final day!* (100.0% complete). Make it count.
🏁 *Project is over after today.* Post a retro: What worked? What was noise? What will you keep doing?") /\
  (remaining after = -1 /\
   run Crypto.md5 Crypto.sha1 sample_number_to_string after ∅
   = {| exit_code := 0;
        events := [ConsoleLog "Target date passed. Stopping (no further posts)."];
        disk_after := ∅ |}).
Proof. vm_compute. repeat split. Qed.

Lemma day_index_witness :
  let h := sample_host sample_env sep_3_evening false false None in
  totalDays h = 90 /\ elapsedDays h = Z.min 90 (Z.max 0 45) /\ remaining h = 90 - 45.
Proof.
  cbv zeta.
  apply (day_index (sample_host sample_env sep_3_evening false false None) 90 45 63000000);
    [reflexivity | reflexivity | lia].
Defined.

Lemma elapsed_plus_remaining_witness :
  let h := long_window_host 1752959400000 in
  elapsedDays h + remaining h =
  totalDays h +
  (if (now h - start h) mod 86400000 <? (target h - start h) mod 86400000 then 1 else 0).
Proof.
  cbv zeta. apply (elapsed_plus_remaining (long_window_host 1752959400000)).
  vm_compute. split; discriminate.
Defined.

Lemma clock_monotone_witness :
  let h1 := sample_host sample_env oct_19_morning false false None in
  let h2 := sample_host sample_env (oct_19_morning + 86400000) false false None in
  elapsedDays h1 <= elapsedDays h2 /\
  remaining h2 <= remaining h1 /\
  (remaining h1 < 0 ->
   forall d, posted (events (run Crypto.md5 Crypto.sha1 sample_number_to_string h2 d)) = [] /\
             disk_after (run Crypto.md5 Crypto.sha1 sample_number_to_string h2 d) = d).
Proof.
  cbv zeta.
  apply (clock_monotone Crypto.md5 Crypto.sha1 sample_number_to_string
           (sample_host sample_env oct_19_morning false false None)
           (sample_host sample_env (oct_19_morning + 86400000) false false None));
    [reflexivity | reflexivity | vm_compute; discriminate].
Defined.

Lemma ninety_day_progress_witness :
  buildProgress sample_number_to_string (Number.of_Z 45) (Number.of_Z 90)
  = Ok (rounded_progress 45 90).
Proof. apply (ninety_day_progress sample_number_to_string 45). lia. Defined.

Lemma run_reads_three_variables_witness :
  let h := sample_host sample_env sep_3_morning false false None in
  let e' := <["SLACK_WEBHOOK_URL" := "unused"]> (<["HOME" := "/home/runner"]> sample_env) in
  run Crypto.md5 Crypto.sha1 sample_number_to_string (with_env h e') ∅
  = run Crypto.md5 Crypto.sha1 sample_number_to_string h ∅.
Proof.
  cbv zeta.
  apply (run_reads_three_variables Crypto.md5 Crypto.sha1 sample_number_to_string);
    vm_compute; reflexivity.
Defined.

Lemma guard_ignores_white_space_witness :
  let h := sample_host sample_env sep_3_morning false false None in
  let hash := md5_hex Crypto.md5 sep_3_message in
  let d : gmap string string :=
    <[guard_file := JsString.bytes [] ++ hash ++ JsString.bytes [10%nat]]> ∅ in
  alreadyPostedGuard h hash {| disk := d; trace := [] |}
  = (Normal true, {| disk := d; trace := [] |}) /\
  (composes Crypto.md5 Crypto.sha1 sample_number_to_string h sep_3_message ->
   run Crypto.md5 Crypto.sha1 sample_number_to_string h d
   = {| exit_code := 0;
        events := [ConsoleLog "Already posted identical message this run; skipping."];
        disk_after := d |}).
Proof.
  cbv zeta.
  apply (guard_ignores_white_space Crypto.md5 Crypto.sha1 sample_number_to_string
           (sample_host sample_env sep_3_morning false false None) [] [10%nat] sep_3_message).
  - reflexivity.
  - constructor.
  - repeat constructor.
  - apply lookup_insert_eq.
Defined.

Lemma session_posts_at_most_once_witness :
  let h1 := sample_host sample_env sep_3_morning false false None in
  let h2 := sample_host sample_env sep_3_evening false false (Some "not_authed") in
  let s := session Crypto.md5 Crypto.sha1 sample_number_to_string [h1; h2; h2] ∅ in
  posted s.1 = posted (events (run Crypto.md5 Crypto.sha1 sample_number_to_string h1 ∅)) /\
  (length (posted s.1) <= 1)%nat /\
  s.2 = disk_after (run Crypto.md5 Crypto.sha1 sample_number_to_string h1 ∅).
Proof.
  cbv zeta.
  apply (session_posts_at_most_once Crypto.md5 Crypto.sha1 sample_number_to_string
           _ _ ∅ sep_3_message).
  repeat constructor; vm_compute; reflexivity.
Defined.

(** With the window of 2025, at the largest time value a Date can hold. *)
Lemma elapsed_clamp_exact_witness :
  let h := sample_host sample_env 8640000000000000 false false None in
  totalDays_binary64 h = Number.of_Z (totalDays h) /\
  elapsedDays_binary64 h = Number.of_Z (elapsedDays h) /\
  buildProgress sample_number_to_string (elapsedDays_binary64 h) (totalDays_binary64 h)
  = buildProgress sample_number_to_string (Number.of_Z (elapsedDays h))
                  (Number.of_Z (totalDays h)).
Proof.
  cbv zeta.
  apply (elapsed_clamp_exact sample_number_to_string
           (sample_host sample_env 8640000000000000 false false None));
    vm_compute; reflexivity.
Defined.

